(** * Pairs-trading signal and backtest engine of [virgo_modules]

    A shallow embedding of [virgo_app/virgo_modules/src/re_utils.py]
    (function [calculate_cointegration] and class [pair_finder]) and the
    properties its specification states about it.

    Conventions of the embedding:
    - a Python [float] is a binary64 value, [PrimFloat.float]; a missing
      value of a float column is the NaN of that type;
    - a date of the index is a day number ([Z]); the difference of two
      dates in days is the difference of their day numbers;
    - an integer column that may hold missing values is a list of
      [option Z], [None] standing for NaN;
    - a call that may raise returns a [result];
    - functions of statsmodels, scipy and of pandas' rolling windows are
      not code of this repository: they are [Variable]s of the section
      that uses them. *)

From Stdlib Require Import ZArith List Bool Lia Floats Sorted.
From Stdlib Require String.
Import ListNotations.

Set Warnings "-inexact-float".
Local Open Scope Z_scope.

(** ** Exceptions and results *)

Inductive exn : Type :=
| LibraryError (origin : String.string)   (* raised inside statsmodels / scipy *)
| IndexError                       (* list index out of range *)
| UnboundLocalError.               (* local variable read before assignment *)

Inductive result (A : Type) : Type :=
| Ok (a : A)
| Raise (e : exn).

Arguments Ok {A} a.
Arguments Raise {A} e.

Definition bind {A B : Type} (m : result A) (k : A -> result B) : result B :=
  match m with
  | Ok a => k a
  | Raise e => Raise e
  end.

Notation "x <- m ;; k" := (bind m (fun x => k))
  (at level 61, m at next level, right associativity).
Notation "' p <- m ;; k" := (bind m (fun x => match x with p => k end))
  (at level 61, p pattern, m at next level, right associativity).

Definition raises {A : Type} (m : result A) : bool :=
  match m with Ok _ => false | Raise _ => true end.

(** ** Binary64 values and numpy *)

Module Np.

Definition nan : float := PrimFloat.nan.

(** [np.isnan] / [Series.isna] on a float. *)
Definition isnan (x : float) : bool := negb (x =? x)%float.

(** [np.isinf]. *)
Definition isinf (x : float) : bool := (abs x =? infinity)%float.

(** [np.isfinite]. *)
Definition isfinite (x : float) : bool := (abs x <? infinity)%float.

(** [x == 0.0]: true of both zeros. *)
Definition iszero (x : float) : bool := (x =? 0)%float.

Definition of_nat (n : nat) : float :=
  PrimFloat.of_uint63 (Uint63.of_Z (Z.of_nat n)).

(** The sum of a block of 8 to 128 values in numpy's pairwise summation:
    the loop is unrolled eight times, [r j] is the running sum of the
    values at the positions [j], [8 + j], [16 + j], ... of the full groups
    of eight; the eight sums are added in pairs, and the values after the
    last full group are added one by one. *)
Definition unrolled_sum (a : list float) : float :=
  let n := length a in
  let r (j : nat) : float :=
    fold_left PrimFloat.add
      (map (fun k => nth (8 * k + j)%nat a 0%float) (seq 1 (n / 8 - 1)%nat))
      (nth j a 0%float) in
  let res :=
    (((r 0%nat + r 1%nat) + (r 2%nat + r 3%nat))
     + ((r 4%nat + r 5%nat) + (r 6%nat + r 7%nat)))%float in
  fold_left PrimFloat.add (skipn (n - n mod 8)%nat a) res.

(** numpy's [pairwise_sum] of a contiguous array of doubles: fewer than
    8 values are added from left to right, starting from [-0.0]; up to
    128 values are added by [unrolled_sum]; a longer array is cut at
    half its length, rounded down to a multiple of 8, and the sums of the
    two parts are added. The recursion is on a bound [fuel] of the depth;
    the length of the array is more than enough. *)
Fixpoint pairwise_sum (fuel : nat) (a : list float) : float :=
  let n := length a in
  if (n <? 8)%nat then fold_left PrimFloat.add a (- 0)%float
  else if (n <=? 128)%nat then unrolled_sum a
  else
    match fuel with
    | O => unrolled_sum a
    | S fuel' =>
        let n2 := (n / 2)%nat in
        let n2 := (n2 - n2 mod 8)%nat in
        (pairwise_sum fuel' (firstn n2 a) + pairwise_sum fuel' (skipn n2 a))%float
    end.

(** [np.sum] / [np.add.reduce] of a list of floats: the identity [0.0]
    plus the pairwise sum. *)
Definition sum (xs : list float) : float :=
  (0 + pairwise_sum (length xs) xs)%float.

(** The sum from left to right, as Python's [sum] would add. *)
Definition sum_left (xs : list float) : float := fold_left PrimFloat.add xs 0%float.

(** [np.mean]: the sum divided by the number of elements (NaN on the
    empty list, as 0/0). *)
Definition mean (xs : list float) : float :=
  (sum xs / of_nat (length xs))%float.

(** Insertion of [x] in a list sorted by [<=]. *)
Fixpoint insert (x : float) (xs : list float) : list float :=
  match xs with
  | [] => [x]
  | y :: r => if (x <=? y)%float then x :: xs else y :: insert x r
  end.

Definition sort (xs : list float) : list float := fold_right insert [] xs.

(** [np.median]: NaN when the list is empty or holds a NaN; otherwise
    the mean of the middle element of the sorted values, or of the two
    middle ones. *)
Definition median (xs : list float) : float :=
  if existsb isnan xs then nan
  else
    let s := sort xs in
    let n := length xs in
    match n with
    | O => nan
    | _ =>
        if Nat.even n
        then mean [nth (n / 2 - 1)%nat s nan; nth (n / 2)%nat s nan]
        else mean [nth (n / 2)%nat s nan]
    end.

End Np.

(** ** pandas: slices, shifts, sorting, group counts, alignment *)

Module Pd.

(** A Series: values labelled by the index. The index of every frame of
    [pair_finder] is the date. *)
Definition Series (V : Type) : Type := list (Z * V).

(** Python's normalisation of a slice bound against a length. *)
Definition py_index (n : nat) (i : Z) : nat :=
  if i <? 0 then Z.to_nat (Z.max 0 (Z.of_nat n + i)) else Nat.min (Z.to_nat i) n.

(** [df.iloc[0:stop]] and [df.iloc[start:]]. *)
Definition iloc_to {A : Type} (stop : Z) (df : list A) : list A :=
  firstn (py_index (length df) stop) df.

Definition iloc_from {A : Type} (start : Z) (df : list A) : list A :=
  skipn (py_index (length df) start) df.

(** [Series.shift(periods)]: the values move by [periods] positions, the
    positions left free are missing. *)
Definition shift {V : Type} (periods : Z) (xs : list V) : list (option V) :=
  let n := length xs in
  if 0 <=? periods then
    let k := Nat.min (Z.to_nat periods) n in
    repeat None k ++ map Some (firstn (n - k) xs)
  else
    let k := Nat.min (Z.to_nat (- periods)) n in
    map Some (skipn k xs) ++ repeat None k.

Definition shift_float (periods : Z) (xs : list float) : list float :=
  map (fun o => match o with Some v => v | None => Np.nan end) (shift periods xs).

(** [sort_values] on the date, by stable insertion. *)
Fixpoint insert_by {V : Type} (ascending : bool) (x : Z * V) (s : Series V) : Series V :=
  match s with
  | [] => [x]
  | y :: r =>
      if (if ascending then fst x <=? fst y else fst y <=? fst x)
      then x :: s
      else y :: insert_by ascending x r
  end.

Definition sort_values {V : Type} (ascending : bool) (s : Series V) : Series V :=
  fold_right (insert_by ascending) [] s.

(** [groupby(key).cumcount()]: for each row, in the order of the frame,
    the number of earlier rows of its group. A row whose key is missing
    belongs to no group and its count is missing. *)
Fixpoint cumcount_from {K : Type} (eqb : K -> K -> bool) (seen : list K)
  (s : Series (option K)) : Series (option Z) :=
  match s with
  | [] => []
  | (l, None) :: r => (l, None) :: cumcount_from eqb seen r
  | (l, Some k) :: r =>
      (l, Some (Z.of_nat (length (filter (eqb k) seen))))
        :: cumcount_from eqb (k :: seen) r
  end.

Definition groupby_cumcount {K : Type} (eqb : K -> K -> bool)
  (s : Series (option K)) : Series (option Z) :=
  cumcount_from eqb [] s.

(** The counts of [cumcount_from] by position, without the labels. *)
Fixpoint counts_from {K : Type} (eqb : K -> K -> bool) (seen : list K)
  (keys : list (option K)) : list (option Z) :=
  match keys with
  | [] => []
  | None :: r => None :: counts_from eqb seen r
  | Some k :: r =>
      Some (Z.of_nat (length (filter (eqb k) seen))) :: counts_from eqb (k :: seen) r
  end.

(** [series + 1]. *)
Definition add1 (s : Series (option Z)) : Series (option Z) :=
  map (fun '(l, v) => (l, option_map (Z.add 1) v)) s.

Fixpoint lookup {V : Type} (l : Z) (s : Series V) : option V :=
  match s with
  | [] => None
  | (l', v) :: r => if l =? l' then Some v else lookup l r
  end.

(** [df[col] = series]: the series is aligned on the index of the frame;
    a label the series lacks gets a missing value. *)
Definition setitem {V : Type} (index : list Z) (s : Series (option V)) : list (option V) :=
  map (fun l => match lookup l s with Some v => v | None => None end) index.

(** [fillna(method = 'ffill')]. *)
Fixpoint ffill_from {V : Type} (last : option V) (xs : list (option V)) : list (option V) :=
  match xs with
  | [] => []
  | x :: r =>
      let cur := match x with Some v => Some v | None => last end in
      cur :: ffill_from cur r
  end.

Definition ffill {V : Type} (xs : list (option V)) : list (option V) :=
  ffill_from None xs.

End Pd.

(** ** [calculate_cointegration] *)

Section Cointegration.

(** [statsmodels.tsa.stattools.coint]: the test statistic, the p-value
    and the critical values at the 1%, 5% and 10% levels. *)
Variable coint :
  list float -> list float -> result (float * float * (float * float * float)).

(** [sm.OLS(series_1, series_2).fit().params[0]]. *)
Variable OLS_fit_params0 : list float -> list float -> result float.

Definition calculate_cointegration (series_1 series_2 : list float)
  : result (Z * float) :=
  '(coint_t, p_value, (_, critical_value, _)) <- coint series_1 series_2 ;;
  hedge_value <- OLS_fit_params0 series_1 series_2 ;;
  let coint_flag :=
    if (p_value <? 0.05)%float && (coint_t <? critical_value)%float then 1 else 0 in
  Ok (coint_flag, hedge_value).

End Cointegration.

(** The inputs on which the regression is undefined: a series with a
    value that is not finite, and a series whose values are all equal. *)
Definition has_non_finite (s : list float) : bool :=
  existsb (fun v => negb (Np.isfinite v)) s.

Definition zero_variance (s : list float) : bool :=
  match s with
  | [] => false
  | x :: r => forallb (fun y => (y =? x)%float) r
  end.

(** ** The frame of [pair_finder] *)

(** A row of [self.df] after [__init__]: the date (the index), the two
    assets and the spread. *)
Record price_row : Type := {
  Date : Z;
  asset_1 : float;
  asset_2 : float;
  spread : float
}.

(** A row of [self.df] after [produce_zscore]. *)
Record signal_row : Type := {
  prices : price_row;
  z_score : float;
  up_pair_signal : Z;
  low_pair_signal : Z
}.

Inductive signal : Type := up | down.

Definition signal_eqb (a b : signal) : bool :=
  match a, b with
  | up, up | down, down => true
  | _, _ => false
  end.

Section Init.

Variable coint :
  list float -> list float -> result (float * float * (float * float * float)).
Variable OLS_fit_params0 : list float -> list float -> result float.

(** [pair_finder.__init__]: [raw_data[[asset_1, asset_2]]] with its date
    index, and the spread from the hedge ratio. *)
Definition pair_finder_init (raw_data : list (Z * (float * float)))
  : result (list price_row) :=
  '(coint_flag, hedge_ratio) <-
     calculate_cointegration coint OLS_fit_params0
       (map (fun r => fst (snd r)) raw_data) (map (fun r => snd (snd r)) raw_data) ;;
  Ok (map (fun '(d, (a1, a2)) =>
             {| Date := d; asset_1 := a1; asset_2 := a2;
                spread := (a1 - hedge_ratio * a2)%float |}) raw_data).

End Init.

(** ** [pair_finder.produce_zscore] *)

Section ZScore.

(** The kernels of pandas' rolling mean and standard deviation: the value
    of a window that has its [min_periods] observations, from the window
    size and the observations up to the current one. *)
Variable roll_mean : nat -> list float -> float.
Variable roll_std : nat -> list float -> float.

(** [adfuller(values)[1]]. *)
Variable adfuller_pvalue : list float -> result float.

(** The observations of the window that ends at position [i]. *)
Definition window_at (window : nat) (xs : list float) (i : nat) : list float :=
  skipn (i + 1 - window) (firstn (i + 1) xs).

(** [series.rolling(center = False, window = window)] followed by an
    aggregation: [min_periods] is the window size, so the value is
    missing unless the window holds [window] non-missing observations. *)
Definition rolling (kernel : nat -> list float -> float) (window : nat)
  (xs : list float) : list float :=
  map (fun i =>
         let valid := filter (fun v => negb (Np.isnan v)) (window_at window xs i) in
         if (length valid <? window)%nat || (length valid =? 0)%nat
         then Np.nan
         else kernel window (firstn (i + 1) xs))
      (seq 0 (length xs)).

Definition rolling_mean : nat -> list float -> list float := rolling roll_mean.
Definition rolling_std : nat -> list float -> list float := rolling roll_std.

(** The columns [x], [mean], [std] and [z_score] of [produce_zscore]. *)
Definition zscore_numerator (window : nat) (spread_series : list float) : list float :=
  let mean := rolling_mean window spread_series in
  let x := rolling_mean 1 spread_series in
  map (fun '(x, m) => (x - m)%float) (combine x mean).

Definition z_score_column (window : nat) (spread_series : list float) : list float :=
  let std := rolling_std window spread_series in
  map (fun '(num, s) => (num / s)%float)
      (combine (zscore_numerator window spread_series) std).

(** [np.where(z_score >= z_threshold, 1, 0)] and
    [np.where(z_score <= -z_threshold, 1, 0)]. *)
Definition up_signal_of (z_threshold z : float) : Z :=
  if (z_threshold <=? z)%float then 1 else 0.

Definition low_signal_of (z_threshold z : float) : Z :=
  if (z <=? - z_threshold)%float then 1 else 0.

(** [produce_zscore]: the z-score column is computed first; the ADF test
    on its non-missing values may raise; the two signal columns follow. *)
Definition produce_zscore (df : list price_row) (window : nat) (z_threshold : float)
  : result (list signal_row) :=
  let z := z_score_column window (map spread df) in
  pvalue <- adfuller_pvalue (filter (fun v => negb (Np.isnan v)) z) ;;
  Ok (map (fun '(r, z) =>
             {| prices := r; z_score := z;
                up_pair_signal := up_signal_of z_threshold z;
                low_pair_signal := low_signal_of z_threshold z |})
          (combine df z)).

End ZScore.

(** ** Chain detection

    The block of [evaluate_signal] (lines 117-143) that
    [create_backtest_signal] repeats (lines 212-238). *)

(** [span], [break]: the days between a signal date and the previous one,
    and the mark of a new chain. *)
Definition span_column (Date_ : list Z) : list (option Z) :=
  map (fun '(d, lag_Date) => option_map (fun l => d - l - 1) lag_Date)
      (combine Date_ (Pd.shift 1 Date_)).

Definition break_column (Date_ : list Z) : list Z :=
  let span := span_column Date_ in
  let break := map (fun s => match s with
                             | Some v => if v >? 3 then 1 else 0
                             | None => 0
                             end) span in
  map (fun '(s, b) => match s with None => 1 | Some _ => b end) (combine span break).

(** [chain_id]: the count of break rows among the rows sorted by date,
    kept on the break rows and carried forward on the others. *)
Definition chain_id_column (Date_ : list Z) : list (option Z) :=
  let break := break_column Date_ in
  let chain_id :=
    Pd.setitem Date_
      (Pd.add1 (Pd.groupby_cumcount Z.eqb
                  (Pd.sort_values true (combine Date_ (map Some break))))) in
  let chain_id :=
    map (fun '(b, c) => if b =? 1 then c else None) (combine break chain_id) in
  Pd.ffill chain_id.

(** [internal_rn] ([ascending = true]) and [inv_internal_rn]
    ([ascending = false]): the rank of a row in its chain. *)
Definition rank_column (ascending : bool) (Date_ : list Z) (chain_id : list (option Z))
  : list (option Z) :=
  Pd.setitem Date_
    (Pd.add1 (Pd.groupby_cumcount Z.eqb
                (Pd.sort_values ascending (combine Date_ chain_id)))).

(** [np.where(rank == 1, True, False)]. *)
Definition is_one (rank : option Z) : bool :=
  match rank with Some v => v =? 1 | None => false end.

Record chain_row (A : Type) : Type := {
  row : A;
  signal_type : signal;
  chain_id : option Z;
  internal_rn : option Z;
  first_in_chain : bool;
  last_in_chain : bool
}.

Arguments row {A} _.
Arguments signal_type {A} _.
Arguments chain_id {A} _.
Arguments internal_rn {A} _.
Arguments first_in_chain {A} _.
Arguments last_in_chain {A} _.

Section Chains.

Variable A : Type.
Variable base : A -> signal_row.

Definition date_of (r : A) : Z := Date (prices (base r)).

(** [np.where(up_pair_signal == 1, 'up',
              np.where(low_pair_signal == 1, 'down', None))]. *)
Definition signal_type_of (r : A) : option signal :=
  if up_pair_signal (base r) =? 1 then Some up
  else if low_pair_signal (base r) =? 1 then Some down
  else None.

(** [df[~df.signal_type.isna()]]. *)
Fixpoint signal_rows (df : list A) : list (A * signal) :=
  match df with
  | [] => []
  | r :: rest =>
      match signal_type_of r with
      | Some s => (r, s) :: signal_rows rest
      | None => signal_rows rest
      end
  end.

Definition detect_chains (df : list A) : list (chain_row A) :=
  let df := signal_rows df in
  let Date_ := map (fun r => date_of (fst r)) df in
  let chain_id := chain_id_column Date_ in
  let internal_rn := rank_column true Date_ chain_id in
  let inv_internal_rn := rank_column false Date_ chain_id in
  let labelled :=
    map (fun '((r, s), (c, (rn, inv))) =>
           {| row := r; signal_type := s; chain_id := c; internal_rn := rn;
              first_in_chain := is_one rn; last_in_chain := is_one inv |})
        (combine df (combine chain_id (combine internal_rn inv_internal_rn))) in
  (* .sort_index() *)
  map snd (Pd.sort_values true (combine Date_ labelled)).

(** The frame on which the detection is run again: the labelled rows
    without their chain columns. *)
Definition unlabel (out : list (chain_row A)) : list A := map row out.

End Chains.

Arguments date_of {A} base r.
Arguments signal_type_of {A} base r.
Arguments signal_rows {A} base df.
Arguments detect_chains {A} base df.
Arguments unlabel {A} out.

(** ** [pair_finder.evaluate_signal] *)

(** A row of the frame of [evaluate_signal]: the row of [self.df] and the
    values of its [return_{days}d] columns, in the order of [returns_list]. *)
Definition eval_row : Type := (signal_row * list float)%type.

(** A row of [df_melt]; a [return_{days}d] column is named by [days]. *)
Record melt_row : Type := {
  melt_signal_type : signal;
  time : Z;
  value : float
}.

(** The outcome of [evaluate_signal]: the attributes it sets and the
    locals it prints. *)
Record evaluation : Type := {
  df_signal : list (chain_row eval_row);
  df_melt : list melt_row;
  p_scores : list float;
  medians_down : list float;
  validations : list bool;
  null_ho_eval : bool;
  median_signal_type_eval : bool;
  mean_median_return : float
}.

(** [(df[asset_1].shift(-days) / df[asset_1] - 1) * 100]. *)
Definition return_column (days : Z) (asset : list float) : list float :=
  map (fun '(s, a) => ((s / a - 1) * 100)%float)
      (combine (Pd.shift_float (- days) asset) asset).

(** [df[df.last_in_chain == True].melt(id_vars = ['signal_type'],
    value_vars = returns_list, var_name = 'time', value_name = 'value')]. *)
Definition melt (days_list : list Z) (df : list (chain_row eval_row)) : list melt_row :=
  flat_map (fun '(k, days) =>
              map (fun r => {| melt_signal_type := signal_type r; time := days;
                               value := nth k (snd (row r)) Np.nan |})
                  (filter last_in_chain df))
           (combine (seq 0 (length days_list)) days_list).

(** [df_melt[(df_melt.time == evalx) & (df_melt.signal_type == s)].value.values]. *)
Definition sample (df_melt : list melt_row) (evalx : Z) (s : signal) : list float :=
  map value
      (filter (fun m => (time m =? evalx) && signal_eqb (melt_signal_type m) s) df_melt).

Section Evaluate.

(** [scipy.stats.ttest_ind(sample1, sample2).pvalue]. *)
Variable ttest_ind_pvalue : list float -> list float -> float.

(** The frame with its return columns and its chains (lines 108-144). *)
Definition evaluate_signal_frame (self_df : list signal_row) (days_list : list Z)
  (test_size : Z) : list (chain_row eval_row) :=
  let df :=
    Pd.iloc_to (- test_size)
      (map snd (Pd.sort_values true (map (fun r => (Date (prices r), r)) self_df))) in
  let asset := map (fun r => asset_1 (prices r)) df in
  let columns := map (fun days => return_column days asset) days_list in
  let df : list eval_row :=
    map (fun '(i, r) => (r, map (fun c => nth i c Np.nan) columns))
        (combine (seq 0 (length df)) df) in
  detect_chains fst df.

(** One pass of the loop over [returns_list] (lines 155-165). *)
Definition eval_horizon (df_melt : list melt_row) (evalx : Z)
  : float * float * (bool * bool) :=
  let sample1 := sample df_melt evalx up in
  let sample2 := sample df_melt evalx down in
  let pvalue := ttest_ind_pvalue sample1 sample2 in
  let median_down := Np.median sample2 in
  let median_up := Np.median sample1 in
  (pvalue, median_down, ((median_up <? 0)%float, (0 <? median_down)%float)).

Definition evaluate_signal (self_df : list signal_row) (days_list : list Z)
  (test_size : Z) (signal_position : bool) (threshold : float)
  : result evaluation :=
  let df := evaluate_signal_frame self_df days_list test_size in
  if signal_position then Raise UnboundLocalError   (* df_melt is never bound *)
  else
    let df_melt := filter (fun m => negb (Np.isnan (value m))) (melt days_list df) in
    let passes := map (eval_horizon df_melt) days_list in
    let p_scores := map (fun p => fst (fst p)) passes in
    let medians_down := map (fun p => snd (fst p)) passes in
    let validations := flat_map (fun p => [fst (snd p); snd (snd p)]) passes in
    let null_ho_eval := (Np.mean p_scores <? threshold)%float in
    let mean_median_return := Np.median medians_down in
    match validations with
    | [] => Raise IndexError                        (* validations[0] *)
    | v0 :: _ =>
        let median_signal_type_eval :=
          (length (filter (Bool.eqb v0) validations) =? length validations)%nat in
        Ok {| df_signal := df; df_melt := df_melt; p_scores := p_scores;
              medians_down := medians_down; validations := validations;
              null_ho_eval := null_ho_eval;
              median_signal_type_eval := median_signal_type_eval;
              mean_median_return :=
                if null_ho_eval then mean_median_return else Np.nan |}
    end.

End Evaluate.

(** ** [pair_finder.create_backtest_signal] *)

(** The entry markers (lines 210-240): the rows of the tail window that
    end a "down" chain, by date, with their [last_in_chain] mark. *)
Definition backtest_entries (df1 : list signal_row) : Pd.Series bool :=
  let df2 := detect_chains (fun r => r) df1 in
  let df2 :=
    filter (fun r => last_in_chain r && signal_eqb (signal_type r) down) df2 in
  map (fun r => (Date (prices (row r)), last_in_chain r)) df2.

(** The [flag] column of [dft] (lines 241-248) from the index of the tail
    window and the entry markers. *)
Definition flag_column (index : list Z) (entries : Pd.Series bool)
  (days_strategy : Z) : list Z :=
  (* df1.merge(df2, how = 'left', left_index = True, right_index = True) *)
  let last := map (fun l => Pd.lookup l entries) index in
  let chain_id :=
    Pd.setitem index
      (Pd.add1 (Pd.groupby_cumcount Bool.eqb
                  (Pd.sort_values true (combine index last)))) in
  let chain_id :=
    map (fun '(l, c) => match l with Some true => c | _ => None end)
        (combine last chain_id) in
  let chain_id := Pd.ffill chain_id in
  let internal_rn :=
    Pd.setitem index
      (Pd.add1 (Pd.groupby_cumcount Z.eqb
                  (Pd.sort_values true (combine index chain_id)))) in
  map (fun rn => match rn with
                 | Some v => if v <? days_strategy then 1 else 0
                 | None => 0
                 end) internal_rn.

(** The rows of the tail window on which the strategy holds the asset. *)
Definition create_backtest_signal_flag (self_df : list signal_row)
  (days_strategy test_size : Z) : list Z :=
  let df1 := Pd.iloc_from (- test_size) self_df in
  flag_column (map (fun r => Date (prices r)) df1) (backtest_entries df1) days_strategy.

(** ** The two windows of a frame *)

(** The rows [evaluate_signal] validates on (line 108):
    [self.df.sort_values('Date').iloc[0:-test_size,:]]. *)
Definition evaluate_signal_window (self_df : list signal_row) (test_size : Z)
  : list signal_row :=
  Pd.iloc_to (- test_size)
    (map snd (Pd.sort_values true (map (fun r => (Date (prices r), r)) self_df))).

(** The rows [create_backtest_signal] replays (line 210):
    [self.df.iloc[-test_size:,:]]. *)
Definition create_backtest_signal_window (self_df : list signal_row) (test_size : Z)
  : list signal_row :=
  Pd.iloc_from (- test_size) self_df.

(** The keys of a column that are not missing. *)
Fixpoint present {K : Type} (keys : list (option K)) : list K :=
  match keys with
  | [] => []
  | Some k :: r => k :: present r
  | None :: r => present r
  end.

(** Two rows are of the same chain. *)
Definition same_chain {A : Type} (a b : chain_row A) : bool :=
  match chain_id a, chain_id b with
  | Some x, Some y => x =? y
  | _, _ => false
  end.

(** A row of the merged frame [dft] is an entry of the strategy when its
    [last_in_chain] is [True]. *)
Definition is_entry (last : option bool) : bool :=
  match last with Some true => true | _ => false end.

Definition entry_marks (index : list Z) (entries : Pd.Series bool) : list bool :=
  map (fun l => is_entry (Pd.lookup l entries)) index.

(** The column [chain_id] of [dft] (lines 243-245), as in [flag_column]. *)
Definition dft_chain_id (index : list Z) (entries : Pd.Series bool) : list (option Z) :=
  let last := map (fun l => Pd.lookup l entries) index in
  let chain_id :=
    Pd.setitem index
      (Pd.add1 (Pd.groupby_cumcount Bool.eqb
                  (Pd.sort_values true (combine index last)))) in
  let chain_id :=
    map (fun '(l, c) => match l with Some true => c | _ => None end)
        (combine last chain_id) in
  Pd.ffill chain_id.

(** ** [edge_utils.ExpandingMultipleTimeSeriesKFold] *)

Import String.StringSyntax.
Delimit Scope string_scope with string.

(** Python's [l[start:stop]] on a list, [None] for an omitted bound. *)
Definition py_slice {A : Type} (start stop : option Z) (l : list A) : list A :=
  let n := length l in
  let a := match start with Some s => Pd.py_index n s | None => O end in
  let b := match stop with Some s => Pd.py_index n s | None => n end in
  firstn (b - a) (skipn a l).

(** [list(index.unique())] followed by [.sort()]: the distinct values in
    ascending order. *)
Fixpoint insert_unique (x : Z) (l : list Z) : list Z :=
  match l with
  | [] => [x]
  | y :: r =>
      if x <? y then x :: l
      else if x =? y then l
      else y :: insert_unique x r
  end.

Definition unique_sorted (l : list Z) : list Z := fold_right insert_unique [] l.

(** [max(l)] and [min(l)]: [None] stands for the [ValueError] on an
    empty sequence. *)
Definition list_max (l : list Z) : option Z :=
  match l with
  | [] => None
  | x :: r => Some (fold_left Z.max r x)
  end.

Definition list_min (l : list Z) : option Z :=
  match l with
  | [] => None
  | x :: r => Some (fold_left Z.min r x)
  end.

Module KFold.

Inductive split_exn : Type :=
| NoDateIndex        (* 'no date and/or index in the index dataframe' *)
| OverlapTooHigh     (* 'overlap can not be higher than the window size' *)
| TestSizeTooHigh    (* 'test size is higher than the data length' *)
| EmptySequence.     (* ValueError of max() or min() on an empty list *)

(** The object: the names of the levels of [df.index], the values of the
    levels [Date_i] and [i] of each row, and the three sizes. *)
Record t : Type := {
  index_names : list String.string;
  index : list (Z * Z);
  window_size : Z;
  number_window : Z;
  overlap_size : Z
}.

Definition has_name (name : String.string) (names : list String.string) : bool :=
  existsb (String.eqb name) names.

(** [df[df.index.get_level_values('Date_i') <= hi].index.get_level_values('i')]
    and the same between two dates. *)
Definition index_upto (rows : list (Z * Z)) (hi : Z) : list Z :=
  map snd (filter (fun r => fst r <=? hi) rows).

Definition index_between (rows : list (Z * Z)) (lo hi : Z) : list Z :=
  map snd (filter (fun r => (lo <=? fst r) && (fst r <=? hi)) rows).

(** The body of the loop, [folds] times from [cut]: the folds yielded
    and the exception that ends the iteration, if any. *)
Fixpoint split_loop (rows : list (Z * Z)) (unique_dates : list Z)
  (window overlap : Z) (folds : nat) (cut : Z)
  : list (list Z * list Z) * option split_exn :=
  match folds with
  | O => ([], None)
  | S folds' =>
      let topcut := cut - window in
      let train_dates := py_slice None (Some (- cut)) unique_dates in
      let test_dates :=
        if topcut =? 0
        then py_slice (Some (- cut)) None unique_dates
        else py_slice (Some (- cut)) (Some (- topcut)) unique_dates in
      match list_max train_dates, list_min test_dates, list_max test_dates with
      | Some max_train_date, Some min_test_date, Some max_test_date =>
          let cut := cut - (window - overlap) in
          let train_index := index_upto rows max_train_date in
          let test_index := index_between rows min_test_date max_test_date in
          let '(rest, e) := split_loop rows unique_dates window overlap folds' cut in
          ((train_index, test_index) :: rest, e)
      | _, _, _ => ([], Some EmptySequence)
      end
  end.

(** [split]: the generator run to its end. *)
Definition split (self : t) : list (list Z * list Z) * option split_exn :=
  if negb (has_name "Date_i"%string (index_names self))
     || negb (has_name "i"%string (index_names self))
  then ([], Some NoDateIndex)
  else if window_size self <? overlap_size self
  then ([], Some OverlapTooHigh)
  else
    let unique_dates := unique_sorted (map fst (index self)) in
    let total_test_size := window_size self * number_window self in
    let total_test_size :=
      total_test_size - (number_window self - 1) * overlap_size self in
    if Z.of_nat (length unique_dates) <? total_test_size
    then ([], Some TestSizeTooHigh)
    else
      split_loop (index self) unique_dates (window_size self) (overlap_size self)
        (Z.to_nat (number_window self)) total_test_size.

Definition get_n_splits (self : t) : Z := number_window self.

End KFold.

(** ** [edge_utils.produce_model_wrapper.preprocess] *)

(** The rows of [self.data] are of any type [A]; [date] reads the column
    [Date] and [isna] tells whether a row holds a missing value in some
    column. The target column named by [target[0]] is a column of the
    frame. *)
Section Preprocess.

Context {A : Type}.
Variable date : A -> Z.
Variable isna : A -> bool.

(** [DataFrame.dropna()]. *)
Definition dropna (df : list A) : list A := filter (fun r => negb (isna r)) df.

(** Line 63: the groups of [groupby('Date')] sorted by date, the slice
    [iloc[-validation_size:,]], and the date of its first row;
    [.values[0]] raises on an empty array. *)
Definition val_date (data : list A) (validation_size : Z) : result Z :=
  let groups := unique_sorted (map date data) in
  match Pd.iloc_from (- validation_size) groups with
  | d :: _ => Ok d
  | [] => Raise IndexError
  end.

(** Lines 63-66: [train_data] and [val_data]. *)
Definition preprocess (data : list A) (validation_size : Z)
  : result (list A * list A) :=
  val_date <- val_date data validation_size ;;
  let train_data := dropna (filter (fun r => date r <? val_date) data) in
  let val_data := dropna (filter (fun r => val_date <=? date r) data) in
  Ok (train_data, val_data).

End Preprocess.

(** ** Library doubles and sample frames

    Total stand-ins for the library functions and small frames, on which
    the statements below are evaluated. *)

Module Fixtures.

(** A cointegration test that reports the same statistics for every
    pair of series. *)
Definition coint_const (t p c1 c5 c10 : float)
  : list float -> list float -> result (float * float * (float * float * float)) :=
  fun _ _ => Ok (t, p, (c1, c5, c10)).

Definition coint_raising (e : exn)
  : list float -> list float -> result (float * float * (float * float * float)) :=
  fun _ _ => Raise e.

Definition ols_const (h : float) : list float -> list float -> result float :=
  fun _ _ => Ok h.

(** A t-test double: NaN when a sample is empty, as scipy's, and the
    given p-value otherwise. *)
Definition ttest_const (p : float) : list float -> list float -> float :=
  fun a b =>
    match a, b with
    | [], _ | _, [] => Np.nan
    | _, _ => p
    end.

Definition adfuller_const (p : float) : list float -> result float :=
  fun _ => Ok p.

(** The textbook kernels on the last [window] observations: the mean,
    and the square root of the sum of squared deviations over
    [window - 1]. *)
Definition last_window (window : nat) (obs : list float) : list float :=
  skipn (length obs - window) obs.

Definition two_pass_mean (window : nat) (obs : list float) : float :=
  Np.mean (last_window window obs).

Definition two_pass_std (window : nat) (obs : list float) : float :=
  let w := last_window window obs in
  let m := Np.mean w in
  sqrt (Np.sum (map (fun v => ((v - m) * (v - m))%float) w)
        / Np.of_nat (length w - 1))%float.

Definition mk_row (d : Z) (price : float) (up_ low_ : Z) : signal_row :=
  {| prices := {| Date := d; asset_1 := price; asset_2 := 1%float; spread := 0%float |};
     z_score := 0%float; up_pair_signal := up_; low_pair_signal := low_ |}.

(** Twelve days: an "up" chain on days 1-2, followed by a rise of the
    price, and a "down" chain on days 7-8, followed by a rise too. *)
Definition frame12 : list signal_row :=
  [ mk_row 1 100 1 0; mk_row 2 100 1 0; mk_row 3 101 0 0; mk_row 4 102 0 0;
    mk_row 5 102 0 0; mk_row 6 102 0 0; mk_row 7 100 0 1; mk_row 8 100 0 1;
    mk_row 9 103 0 0; mk_row 10 104 0 0; mk_row 11 104 0 0; mk_row 12 104 0 0 ].

(** The same days with no "up" signal at all. *)
Definition frame12_down_only : list signal_row :=
  [ mk_row 1 100 0 0; mk_row 2 100 0 0; mk_row 3 101 0 0; mk_row 4 102 0 0;
    mk_row 5 102 0 0; mk_row 6 102 0 0; mk_row 7 100 0 1; mk_row 8 100 0 1;
    mk_row 9 103 0 0; mk_row 10 104 0 0; mk_row 11 104 0 0; mk_row 12 104 0 0 ].

(** A tail window of thirty days, numbered 1 to 30, whose only signals
    are "down" signals on days 8, 9 and 10. *)
Definition window30 : list signal_row :=
  map (fun i =>
         let d := Z.of_nat i in
         mk_row d 100 0 (if (8 <=? d) && (d <=? 10) then 1 else 0))
      (seq 1 30).

End Fixtures.

(** Further sample inputs. *)

Module Samples.

Definition mk_price (d : Z) (a1 a2 s : float) : price_row :=
  {| Date := d; asset_1 := a1; asset_2 := a2; spread := s |}.

(** Six days whose spread jumps on the last but one day and drops on the
    last one. *)
Definition prices6 : list price_row :=
  [ mk_price 1 10 5 1; mk_price 2 11 5 2; mk_price 3 12 5 1;
    mk_price 4 11 5 2; mk_price 5 20 5 9; mk_price 6 5 5 (-6) ].

Definition raw3 : list (Z * (float * float)) :=
  [ (1, (10, 5)%float); (2, (12, 5)%float); (3, (11, 5)%float) ].

(** Signals on days 1 and 3, on days 9 and 10, and on day 20. *)
Definition chains6 : list signal_row :=
  [ Fixtures.mk_row 1 100 1 0; Fixtures.mk_row 2 100 0 0; Fixtures.mk_row 3 100 0 1;
    Fixtures.mk_row 9 100 0 1; Fixtures.mk_row 10 100 1 1; Fixtures.mk_row 20 100 0 1 ].

(** A frame of eight dates, two of them on two rows, in no particular
    order; two cross-validation objects on it. *)
Definition kf_rows : list (Z * Z) :=
  [ (3, 0); (1, 1); (2, 2); (1, 3); (5, 4); (4, 5); (3, 6); (6, 7); (7, 8); (8, 9) ].

Definition kf (window number overlap : Z) : KFold.t :=
  {| KFold.index_names := ["Date_i"%string; "i"%string];
     KFold.index := kf_rows;
     KFold.window_size := window;
     KFold.number_window := number;
     KFold.overlap_size := overlap |}.

(** Rows (date, value) of a frame to split; a row without value has a
    missing value. *)
Definition wrapper_rows : list (Z * option Z) :=
  [ (3, Some 30); (1, Some 10); (2, None); (1, Some 11); (4, Some 40); (2, Some 20) ].

Definition wrapper_isna (r : Z * option Z) : bool :=
  match snd r with Some _ => false | None => true end.

(** Thirty prices of a drifting asset, and a series of thirty equal
    values. *)
Definition walk30 : list float :=
  [ 100; 101.4; 100.9; 102.3; 101.7; 103.2; 104.8; 103.1; 102.6; 104.4;
    105.9; 104.2; 103.8; 105.1; 107.3; 106.5; 105.2; 106.8; 108.9; 107.4;
    106.1; 108.2; 109.7; 108.3; 107.9; 109.4; 111.2; 110.6; 109.3; 110.8 ]%float.

Definition flat30 : list float := repeat 50%float 30.

(** Thirty days with the prices of [walk30], an "up" signal on day 2 and
    a "down" signal on day 10. *)
Definition frame30 : list signal_row :=
  map (fun i =>
         let d := Z.of_nat i in
         Fixtures.mk_row d (nth (i - 1) walk30 Np.nan)
           (if d =? 2 then 1 else 0) (if d =? 10 then 1 else 0))
      (seq 1 30).

End Samples.

(** * Properties *)

(** ** Missing values in binary64 arithmetic *)

Module NpFacts.
Import Np.

Lemma isnan_Prim2SF (x : float) : isnan x = true <-> Prim2SF x = S754_nan.
Proof.
  unfold isnan. rewrite eqb_spec.
  destruct (Prim2SF x) as [s|s| |s m e]; cbn.
  - destruct s; split; discriminate.
  - destruct s; split; discriminate.
  - tauto.
  - unfold SFeqb, SFcompare.
    destruct s; rewrite Z.compare_refl, Pos.compare_refl; cbn; split; discriminate.
Qed.

Lemma iszero_Prim2SF (x : float) :
  iszero x = true <-> exists s, Prim2SF x = S754_zero s.
Proof.
  unfold iszero. rewrite eqb_spec.
  replace (Prim2SF 0) with (S754_zero false) by reflexivity.
  destruct (Prim2SF x) as [s|s| |s m e]; cbn.
  - split; eauto.
  - split; [destruct s; discriminate | intros [? ?]; discriminate].
  - split; [discriminate | intros [? ?]; discriminate].
  - split; [destruct s; discriminate | intros [? ?]; discriminate].
Qed.

Lemma isinf_Prim2SF (x : float) :
  isinf x = true <-> exists s, Prim2SF x = S754_infinity s.
Proof.
  unfold isinf. rewrite eqb_spec, abs_spec.
  replace (Prim2SF infinity) with (S754_infinity false) by reflexivity.
  destruct (Prim2SF x) as [s|s| |s m e]; cbn.
  - split; [discriminate | intros [? ?]; discriminate].
  - split; eauto.
  - split; [discriminate | intros [? ?]; discriminate].
  - split; [discriminate | intros [? ?]; discriminate].
Qed.

Lemma add_nan_l (x y : float) : isnan x = true -> isnan (x + y)%float = true.
Proof. rewrite !isnan_Prim2SF, add_spec. now intros ->. Qed.

Lemma add_nan_r (x y : float) : isnan y = true -> isnan (x + y)%float = true.
Proof.
  rewrite !isnan_Prim2SF, add_spec. intros ->.
  unfold SF64add, SFadd. now destruct (Prim2SF x).
Qed.

Lemma sub_nan_r (x y : float) : isnan y = true -> isnan (x - y)%float = true.
Proof.
  rewrite !isnan_Prim2SF, sub_spec. intros ->.
  unfold SF64sub, SFsub. now destruct (Prim2SF x).
Qed.

Lemma div_nan_l (x y : float) : isnan x = true -> isnan (x / y)%float = true.
Proof. rewrite !isnan_Prim2SF, div_spec. now intros ->. Qed.

Lemma ltb_nan_l (x y : float) : isnan x = true -> (x <? y)%float = false.
Proof. rewrite isnan_Prim2SF, ltb_spec. now intros ->. Qed.

Lemma eqb_nan_l (x y : float) : isnan x = true -> (x =? y)%float = false.
Proof. rewrite isnan_Prim2SF, eqb_spec. now intros ->. Qed.

(** Division by a zero: NaN for a numerator that is zero or NaN, an
    infinity for every other one. *)
Lemma div_zero_isnan (x s : float) :
  iszero s = true -> isnan (x / s)%float = isnan x || iszero x.
Proof.
  intros Hs. apply iszero_Prim2SF in Hs as [b Hb].
  apply eq_true_iff_eq.
  rewrite orb_true_iff, !isnan_Prim2SF, iszero_Prim2SF, div_spec, Hb.
  unfold SF64div, SFdiv.
  destruct (Prim2SF x) as [sx|sx| |sx m e]; split;
    try discriminate; eauto;
    intros [H|[? H]]; discriminate.
Qed.

Lemma div_zero_isinf (x s : float) :
  iszero s = true -> isnan x = false -> iszero x = false ->
  isinf (x / s)%float = true.
Proof.
  intros Hs Hn Hz. apply iszero_Prim2SF in Hs as [b Hb].
  apply isinf_Prim2SF. rewrite div_spec, Hb.
  unfold SF64div, SFdiv.
  destruct (Prim2SF x) as [sx|sx| |sx m e] eqn:E; eauto.
  - assert (iszero x = true) by (apply iszero_Prim2SF; eauto). congruence.
  - assert (isnan x = true) by (now apply isnan_Prim2SF). congruence.
Qed.

Lemma fold_add_nan_acc (xs : list float) (acc : float) :
  isnan acc = true -> isnan (fold_left PrimFloat.add xs acc) = true.
Proof.
  revert acc. induction xs as [|x xs IH]; intros acc H; cbn; auto using add_nan_l.
Qed.

Lemma fold_add_nan (xs : list float) (acc : float) :
  existsb isnan xs = true -> isnan (fold_left PrimFloat.add xs acc) = true.
Proof.
  revert acc. induction xs as [|x xs IH]; intros acc H; cbn in *; [discriminate|].
  apply orb_true_iff in H as [H|H].
  - apply fold_add_nan_acc, add_nan_r, H.
  - now apply IH.
Qed.

Lemma existsb_nth (xs : list float) :
  existsb isnan xs = true <->
  exists p, (p < length xs)%nat /\ isnan (nth p xs 0%float) = true.
Proof.
  rewrite existsb_exists. split.
  - intros (x & Hx & Hn). destruct (In_nth xs x 0%float Hx) as (p & Hp & E).
    exists p. now rewrite E.
  - intros (p & Hp & Hn). exists (nth p xs 0%float). split; [now apply nth_In | exact Hn].
Qed.

(** A NaN among the values makes every stage of the pairwise sum NaN. *)
Lemma unrolled_sum_nan (a : list float) :
  existsb isnan a = true -> isnan (unrolled_sum a) = true.
Proof.
  intros H. unfold unrolled_sum.
  set (n := length a).
  destruct (existsb_nth a) as [Hex _]. destruct (Hex H) as (p & Hp & Hn).
  destruct (Nat.lt_ge_cases p (n - n mod 8)) as [Hlt|Hge].
  - apply fold_add_nan_acc.
    pose proof (Nat.div_mod_eq n 8) as Hdm.
    pose proof (Nat.mod_upper_bound n 8 ltac:(discriminate)) as Hm.
    pose proof (Nat.div_mod_eq p 8) as Hpd.
    pose proof (Nat.mod_upper_bound p 8 ltac:(discriminate)) as Hpm.
    set (j := (p mod 8)%nat) in *. set (k := (p / 8)%nat) in *.
    assert (Hr : isnan (fold_left PrimFloat.add
                          (map (fun k => nth (8 * k + j) a 0%float)
                               (seq 1 (n / 8 - 1)))
                          (nth j a 0%float)) = true).
    { destruct k as [|k'] eqn:Ek.
      - apply fold_add_nan_acc. replace j with p by lia. exact Hn.
      - apply fold_add_nan. apply existsb_exists.
        exists (nth p a 0%float). split; [|exact Hn].
        apply in_map_iff. exists (S k'). split; [f_equal; lia|].
        apply in_seq. fold n in Hlt. lia. }
    clearbody j.
    do 8 (destruct j as [|j]; [auto 6 using add_nan_l, add_nan_r|]). lia.
  - apply fold_add_nan. apply existsb_nth.
    exists (p - (n - n mod 8))%nat. rewrite length_skipn. fold n. split; [fold n in Hp; lia|].
    rewrite nth_skipn. replace (n - n mod 8 + (p - (n - n mod 8)))%nat with p by lia.
    exact Hn.
Qed.

Lemma pairwise_sum_nan (fuel : nat) (a : list float) :
  existsb isnan a = true -> isnan (pairwise_sum fuel a) = true.
Proof.
  revert a. induction fuel as [|fuel IH]; intros a H; cbn [pairwise_sum].
  - destruct (length a <? 8)%nat; [now apply fold_add_nan|].
    destruct (length a <=? 128)%nat; now apply unrolled_sum_nan.
  - destruct (length a <? 8)%nat; [now apply fold_add_nan|].
    destruct (length a <=? 128)%nat; [now apply unrolled_sum_nan|].
    set (n2 := (length a / 2 - (length a / 2) mod 8)%nat).
    rewrite <- (firstn_skipn n2 a), existsb_app in H.
    apply orb_true_iff in H as [H|H].
    + apply add_nan_l. now apply IH.
    + apply add_nan_r. now apply IH.
Qed.

Lemma sum_nan (xs : list float) :
  existsb isnan xs = true -> isnan (sum xs) = true.
Proof. intros H. apply add_nan_r. now apply pairwise_sum_nan. Qed.

(** The bound on the depth does not matter once it reaches the length. *)
Lemma pairwise_sum_fuel (fuel fuel' : nat) (a : list float) :
  (length a <= fuel)%nat -> (length a <= fuel')%nat ->
  pairwise_sum fuel a = pairwise_sum fuel' a.
Proof.
  revert fuel' a. induction fuel as [|fuel IH]; intros fuel' a Hf Hf'.
  - destruct a; [|cbn in Hf; lia]. destruct fuel'; reflexivity.
  - destruct fuel' as [|fuel'].
    + destruct a; [reflexivity | cbn in Hf'; lia].
    + cbn [pairwise_sum].
      destruct (Nat.ltb_spec (length a) 8); [reflexivity|].
      destruct (Nat.leb_spec (length a) 128); [reflexivity|].
      set (n2 := (length a / 2 - (length a / 2) mod 8)%nat).
      assert (Hn2 : (56 <= n2 <= length a / 2)%nat).
      { subst n2.
        pose proof (Nat.mod_upper_bound (length a / 2) 8 ltac:(discriminate)).
        assert (64 <= length a / 2)%nat by (apply Nat.div_le_lower_bound; lia).
        lia. }
      assert (length a / 2 < length a)%nat by (apply Nat.div_lt; lia).
      f_equal; apply IH; rewrite ?length_firstn, ?length_skipn; lia.
Qed.

(** The recursion of numpy's [pairwise_sum] on more than 128 values. *)
Lemma pairwise_sum_split (a : list float) :
  (128 < length a)%nat ->
  let n2 := (length a / 2 - (length a / 2) mod 8)%nat in
  pairwise_sum (length a) a
  = (pairwise_sum (length (firstn n2 a)) (firstn n2 a)
     + pairwise_sum (length (skipn n2 a)) (skipn n2 a))%float.
Proof.
  intros Hn n2. destruct (length a) as [|m] eqn:E; [lia|].
  cbn [pairwise_sum]. rewrite E.
  destruct (Nat.ltb_spec (S m) 8); [lia|].
  destruct (Nat.leb_spec (S m) 128); [lia|].
  fold n2.
  assert (Hn2 : (56 <= n2 <= S m / 2)%nat).
  { subst n2.
    pose proof (Nat.mod_upper_bound (S m / 2) 8 ltac:(discriminate)).
    assert (64 <= S m / 2)%nat by (apply Nat.div_le_lower_bound; lia).
    lia. }
  assert (S m / 2 < S m)%nat by (apply Nat.div_lt; lia).
  f_equal; apply pairwise_sum_fuel;
    rewrite ?length_firstn, ?length_skipn; lia.
Qed.

(** Below eight values the pairwise sum is the sum from left to right. *)
Lemma sum_small (xs : list float) :
  (length xs < 8)%nat -> sum xs = (0 + fold_left PrimFloat.add xs (- 0))%float.
Proof.
  intros H. unfold sum. destruct xs as [|x xs]; [reflexivity|].
  cbn [length pairwise_sum].
  destruct (Nat.ltb_spec (S (length xs)) 8); [reflexivity | cbn [length] in H; lia].
Qed.

(** The mean of a list that holds a NaN is NaN. *)
Lemma mean_nan (xs : list float) :
  existsb isnan xs = true -> isnan (mean xs) = true.
Proof. intros H. apply div_nan_l, sum_nan, H. Qed.

End NpFacts.

(** With nine horizons the order of the additions shows: the nine
    p-values 0.1 add up to 0.9 in numpy's order, their mean is 0.1 and
    the run rejects at the threshold 0.1, while their sum from left to
    right is one unit in the last place lower and its mean is below the
    threshold. *)
Example evaluate_signal_nine_horizons :
  exists r,
    evaluate_signal (Fixtures.ttest_const 0.1) Samples.frame30
      [1; 2; 3; 4; 5; 6; 7; 8; 9] 2 false 0.1 = Ok r /\
    p_scores r = repeat 0.1%float 9 /\
    Np.mean (p_scores r) = 0.1%float /\
    null_ho_eval r = false /\
    (Np.sum_left (p_scores r) / 9 <? 0.1)%float = true.
Proof.
  eexists. split; [vm_compute; reflexivity|]. repeat split; reflexivity.
Qed.

(** ** [calculate_cointegration] *)

(** C4. [calculate_cointegration] reports the pair as cointegrated exactly
    when the p-value of the test is below 0.05 and the test statistic is
    below the critical value of the 5% level, both together; one of the
    two conditions alone gives the flag 0. *)
Theorem calculate_cointegration_conjunction
  (coint : list float -> list float -> result (float * float * (float * float * float)))
  (ols : list float -> list float -> result float)
  (s1 s2 : list float) (t p c1 c5 c10 h : float) :
  coint s1 s2 = Ok (t, p, (c1, c5, c10)) ->
  ols s1 s2 = Ok h ->
  exists flag,
    calculate_cointegration coint ols s1 s2 = Ok (flag, h) /\
    (flag = 1 <-> (p <? 0.05)%float = true /\ (t <? c5)%float = true) /\
    ((p <? 0.05)%float = false \/ (t <? c5)%float = false -> flag = 0).
Proof.
  intros Hc Ho. unfold calculate_cointegration. rewrite Hc. cbn. rewrite Ho. cbn.
  eexists. split; [reflexivity|].
  destruct (p <? 0.05)%float, (t <? c5)%float; cbn; repeat split;
    try discriminate; try reflexivity; intros; intuition discriminate.
Qed.

Lemma calculate_cointegration_conjunction_witness :
  Fixtures.coint_const (-4) 0.01 (-3.9) (-3.34) (-3.05) [1; 2; 3]%float [1; 2; 4]%float
    = Ok ((-4)%float, 0.01%float, ((-3.9)%float, (-3.34)%float, (-3.05)%float)) /\
  Fixtures.ols_const 2 [1; 2; 3]%float [1; 2; 4]%float = Ok 2%float /\
  exists flag,
    calculate_cointegration (Fixtures.coint_const (-4) 0.01 (-3.9) (-3.34) (-3.05))
      (Fixtures.ols_const 2) [1; 2; 3]%float [1; 2; 4]%float = Ok (flag, 2%float) /\
    (flag = 1 <-> (0.01 <? 0.05)%float = true /\ (-4 <? -3.34)%float = true) /\
    ((0.01 <? 0.05)%float = false \/ (-4 <? -3.34)%float = false -> flag = 0).
Proof.
  split; [reflexivity|]. split; [reflexivity|].
  apply (calculate_cointegration_conjunction
           (Fixtures.coint_const (-4) 0.01 (-3.9) (-3.34) (-3.05)) (Fixtures.ols_const 2)
           [1; 2; 3]%float [1; 2; 4]%float (-4) 0.01 (-3.9) (-3.34) (-3.05) 2);
    reflexivity.
Defined.

(** A small p-value with a statistic above the critical value, and the
    converse, both give the flag 0. *)
Example calculate_cointegration_one_condition :
  calculate_cointegration (Fixtures.coint_const (-3) 0.01 (-3.9) (-3.34) (-3.05))
    (Fixtures.ols_const 2) [1; 2; 3]%float [1; 2; 4]%float = Ok (0, 2%float) /\
  calculate_cointegration (Fixtures.coint_const (-4) 0.2 (-3.9) (-3.34) (-3.05))
    (Fixtures.ols_const 2) [1; 2; 3]%float [1; 2; 4]%float = Ok (0, 2%float).
Proof. split; reflexivity. Qed.

(** C6, as stated, fails: a second series of zero variance (thirty
    equal values, all finite) is an input on which the cointegration test
    and the regression return, and then [calculate_cointegration] returns
    a flag and the hedge ratio of the regression, for whatever values the
    two calls report; the numbers of the last line stand for theirs. *)
Lemma calculate_cointegration_zero_variance_returns :
  zero_variance Samples.flat30 = true /\
  has_non_finite Samples.walk30 = false /\
  has_non_finite Samples.flat30 = false /\
  (forall coint ols t p c1 c5 c10 h,
      coint Samples.walk30 Samples.flat30 = Ok (t, p, (c1, c5, c10)) ->
      ols Samples.walk30 Samples.flat30 = Ok h ->
      raises (calculate_cointegration coint ols Samples.walk30 Samples.flat30) = false /\
      exists flag,
        calculate_cointegration coint ols Samples.walk30 Samples.flat30 = Ok (flag, h)) /\
  calculate_cointegration (Fixtures.coint_const (-1.2) 0.85 (-4.31) (-3.55) (-3.19))
    (Fixtures.ols_const 2.1) Samples.walk30 Samples.flat30
  = Ok (0, 2.1%float).
Proof.
  split; [reflexivity|]. split; [reflexivity|]. split; [reflexivity|].
  split; [|reflexivity].
  intros coint ols t p c1 c5 c10 h Hc Ho.
  unfold calculate_cointegration. rewrite Hc. cbn [bind]. rewrite Ho.
  cbn [bind raises]. eauto.
Qed.

(** C6, amended. [calculate_cointegration] checks nothing itself: it
    fails exactly when the cointegration test or the regression raises,
    with that exception and with no result; when both return it returns
    the flag and the hedge ratio, whatever the series hold. *)
Theorem calculate_cointegration_propagates
  (coint : list float -> list float -> result (float * float * (float * float * float)))
  (ols : list float -> list float -> result float)
  (s1 s2 : list float) :
  (forall e, coint s1 s2 = Raise e ->
             calculate_cointegration coint ols s1 s2 = Raise e) /\
  (forall c e, coint s1 s2 = Ok c -> ols s1 s2 = Raise e ->
               calculate_cointegration coint ols s1 s2 = Raise e) /\
  (forall c h, coint s1 s2 = Ok c -> ols s1 s2 = Ok h ->
               exists flag, calculate_cointegration coint ols s1 s2 = Ok (flag, h)) /\
  (forall e, calculate_cointegration coint ols s1 s2 = Raise e ->
             coint s1 s2 = Raise e \/ ols s1 s2 = Raise e).
Proof.
  unfold calculate_cointegration. repeat split.
  - intros e ->. reflexivity.
  - intros [[t p] [[c1 c5] c10]] e -> ->. reflexivity.
  - intros [[t p] [[c1 c5] c10]] h -> ->. cbn. eauto.
  - intros e. destruct (coint s1 s2) as [[[t p] [[c1 c5] c10]]|e1]; cbn.
    + destruct (ols s1 s2); cbn; [discriminate|]. intros [= ->]. now right.
    + intros [= ->]. now left.
Qed.

(** ** [evaluate_signal] *)

Section EvaluateFacts.

Variable ttest : list float -> list float -> float.

(** What a completed run of [evaluate_signal] has computed. *)
Lemma evaluate_signal_Ok (df : list signal_row) (days : list Z) (test : Z)
  (pos : bool) (thr : float) (r : evaluation) :
  evaluate_signal ttest df days test pos thr = Ok r ->
  pos = false /\ days <> [] /\
  df_signal r = evaluate_signal_frame df days test /\
  df_melt r = filter (fun m => negb (Np.isnan (value m))) (melt days (df_signal r)) /\
  p_scores r =
    map (fun d => ttest (sample (df_melt r) d up) (sample (df_melt r) d down)) days /\
  medians_down r = map (fun d => Np.median (sample (df_melt r) d down)) days /\
  null_ho_eval r = (Np.mean (p_scores r) <? thr)%float /\
  mean_median_return r =
    (if null_ho_eval r then Np.median (medians_down r) else Np.nan).
Proof.
  unfold evaluate_signal. destruct pos; [discriminate|].
  destruct days as [|d days]; [discriminate|].
  cbn [map flat_map app]. intros [= <-]. cbn [df_signal df_melt p_scores
    medians_down null_ho_eval mean_median_return].
  repeat split; try discriminate.
  - cbn [map]. f_equal. rewrite map_map. reflexivity.
  - cbn [map]. f_equal. rewrite map_map. reflexivity.
Qed.

End EvaluateFacts.

(** C3. A completed run of [evaluate_signal] accepts exactly when the mean
    of the p-values of the t-tests, one per horizon, is strictly below
    the threshold; the mean is [np.mean], the pairwise sum of numpy
    divided by the number of horizons. The signs of the group medians
    play no part: two runs with the same p-values and threshold decide
    alike, whatever their frames, medians and sign checks. *)
Theorem evaluate_signal_accept_iff
  (ttest : list float -> list float -> float)
  (df : list signal_row) (days : list Z) (test : Z) (thr : float) (r : evaluation) :
  evaluate_signal ttest df days test false thr = Ok r ->
  p_scores r =
    map (fun d => ttest (sample (df_melt r) d up) (sample (df_melt r) d down)) days /\
  (null_ho_eval r = true <-> (Np.mean (p_scores r) <? thr)%float = true) /\
  (forall ttest' df' days' test' r',
      evaluate_signal ttest' df' days' test' false thr = Ok r' ->
      p_scores r' = p_scores r ->
      null_ho_eval r' = null_ho_eval r).
Proof.
  intros H. apply evaluate_signal_Ok in H as (_ & _ & _ & _ & Hp & _ & Hn & _).
  split; [exact Hp|]. split.
  - rewrite Hn. tauto.
  - intros ttest' df' days' test' r' H' Heq.
    apply evaluate_signal_Ok in H' as (_ & _ & _ & _ & _ & _ & Hn' & _).
    rewrite Hn, Hn', Heq. reflexivity.
Qed.

Lemma evaluate_signal_accept_iff_witness :
  exists r,
    evaluate_signal (Fixtures.ttest_const 0.01) Fixtures.frame12 [1; 2] 2 false 0.05 = Ok r /\
    null_ho_eval r = true /\ median_signal_type_eval r = false /\
    (null_ho_eval r = true <-> (Np.mean (p_scores r) <? 0.05)%float = true).
Proof.
  eexists. split; [vm_compute; reflexivity|].
  split; [reflexivity|]. split; [reflexivity|].
  eapply (evaluate_signal_accept_iff (Fixtures.ttest_const 0.01) Fixtures.frame12
            [1; 2] 2 0.05).
  vm_compute. reflexivity.
Defined.

(** C7. When a completed run of [evaluate_signal] does not accept, the
    representative return is NaN, which is not zero; when it accepts, it
    is the median over the horizons of the median forward return of the
    "down" group; so a return that is not NaN is only reported with an
    acceptance. *)
Theorem evaluate_signal_representative_return
  (ttest : list float -> list float -> float)
  (df : list signal_row) (days : list Z) (test : Z) (thr : float) (r : evaluation) :
  evaluate_signal ttest df days test false thr = Ok r ->
  (null_ho_eval r = false ->
     mean_median_return r = Np.nan /\
     Np.isnan (mean_median_return r) = true /\
     (mean_median_return r =? 0)%float = false) /\
  (null_ho_eval r = true ->
     mean_median_return r =
       Np.median (map (fun d => Np.median (sample (df_melt r) d down)) days)) /\
  (Np.isnan (mean_median_return r) = false -> null_ho_eval r = true).
Proof.
  intros H. apply evaluate_signal_Ok in H as (_ & _ & _ & _ & _ & Hm & _ & Hr).
  rewrite Hr, Hm. destruct (null_ho_eval r); repeat split; try discriminate;
    try reflexivity.
Qed.

Lemma evaluate_signal_representative_return_witness :
  exists r,
    evaluate_signal (Fixtures.ttest_const 0.2) Fixtures.frame12 [1; 2] 2 false 0.05 = Ok r /\
    null_ho_eval r = false /\
    Np.isnan (mean_median_return r) = true /\
    (Np.isnan (mean_median_return r) = false -> null_ho_eval r = true).
Proof.
  eexists. split; [vm_compute; reflexivity|].
  split; [reflexivity|]. split; [reflexivity|].
  eapply (evaluate_signal_representative_return (Fixtures.ttest_const 0.2)
            Fixtures.frame12 [1; 2] 2 0.05).
  vm_compute. reflexivity.
Defined.

(** The accepted run of the same frame reports a number. *)
Example evaluate_signal_accepted_return :
  exists r,
    evaluate_signal (Fixtures.ttest_const 0.01) Fixtures.frame12 [1; 2] 2 false 0.05 = Ok r /\
    null_ho_eval r = true /\ Np.isnan (mean_median_return r) = false.
Proof. eexists. split; [vm_compute; reflexivity|]. split; reflexivity. Qed.

Lemma filter_none {A : Type} (f : A -> bool) (l : list A) :
  (forall x, In x l -> f x = false) -> filter f l = [].
Proof.
  induction l as [|a l IH]; intros H; cbn; [reflexivity|].
  rewrite (H a (or_introl eq_refl)). apply IH. intros x Hx. apply H. now right.
Qed.

Lemma signal_eqb_eq (a b : signal) : signal_eqb a b = true <-> a = b.
Proof. destruct a, b; cbn; split; congruence. Qed.

(** The samples of a frame without chain-terminal rows of a type are
    empty at every horizon. *)
Lemma sample_no_terminal (days : list Z) (df : list (chain_row eval_row))
  (s : signal) (d : Z) :
  (forall c, In c df -> last_in_chain c = true -> signal_type c <> s) ->
  sample (filter (fun m => negb (Np.isnan (value m))) (melt days df)) d s = [].
Proof.
  intros Hno. unfold sample. rewrite filter_none; [reflexivity|].
  intros m Hm. apply filter_In in Hm as [Hm _].
  unfold melt in Hm. apply in_flat_map in Hm as [[k d'] [_ Hm]].
  apply in_map_iff in Hm as [c [<- Hc]]. apply filter_In in Hc as [Hc Hl].
  cbn. apply andb_false_iff. right.
  destruct (signal_eqb (signal_type c) s) eqn:E; [|reflexivity].
  apply signal_eqb_eq in E. now destruct (Hno c Hc Hl).
Qed.

(** C10. When one of the two groups of chain-terminal rows is empty at a
    horizon, the p-value of that horizon is NaN, hence the mean of the
    p-values is NaN, the run does not accept and the representative
    return is NaN. In particular a window without a chain-terminal row of
    one of the two types is never accepted. *)
Theorem evaluate_signal_rejects_empty_group
  (ttest : list float -> list float -> float)
  (ttest_empty : forall a b, a = [] \/ b = [] -> Np.isnan (ttest a b) = true)
  (df : list signal_row) (days : list Z) (test : Z) (thr : float) (r : evaluation) :
  evaluate_signal ttest df days test false thr = Ok r ->
  (forall d, In d days ->
     sample (df_melt r) d up = [] \/ sample (df_melt r) d down = [] ->
     Np.isnan (ttest (sample (df_melt r) d up) (sample (df_melt r) d down)) = true /\
     Np.isnan (Np.mean (p_scores r)) = true /\
     null_ho_eval r = false /\
     mean_median_return r = Np.nan) /\
  (forall s,
     (forall c, In c (df_signal r) -> last_in_chain c = true -> signal_type c <> s) ->
     null_ho_eval r = false /\ mean_median_return r = Np.nan).
Proof.
  intros H. apply evaluate_signal_Ok in H as (_ & Hd & _ & Hmelt & Hp & _ & Hn & Hr).
  assert (core : forall d, In d days ->
            sample (df_melt r) d up = [] \/ sample (df_melt r) d down = [] ->
            Np.isnan (ttest (sample (df_melt r) d up) (sample (df_melt r) d down)) = true /\
            Np.isnan (Np.mean (p_scores r)) = true /\
            null_ho_eval r = false /\ mean_median_return r = Np.nan).
  { intros d Hin He.
    assert (Hnan : Np.isnan (ttest (sample (df_melt r) d up) (sample (df_melt r) d down)) = true)
      by now apply ttest_empty.
    assert (Hmean : Np.isnan (Np.mean (p_scores r)) = true).
    { apply NpFacts.mean_nan. apply existsb_exists.
      exists (ttest (sample (df_melt r) d up) (sample (df_melt r) d down)).
      split; [|exact Hnan]. rewrite Hp.
      apply (in_map (fun d => ttest (sample (df_melt r) d up) (sample (df_melt r) d down))).
      exact Hin. }
    assert (Hacc : null_ho_eval r = false)
      by (rewrite Hn; now apply NpFacts.ltb_nan_l).
    repeat split; auto. rewrite Hr, Hacc. reflexivity. }
  split; [exact core|].
  intros s Hs. destruct days as [|d days]; [congruence|].
  assert (He : sample (df_melt r) d s = [])
    by (rewrite Hmelt; now apply sample_no_terminal).
  destruct (core d (or_introl eq_refl)) as (_ & _ & Ha & Hb).
  - destruct s; [now left | now right].
  - now split.
Qed.

Lemma evaluate_signal_rejects_empty_group_witness :
  exists r,
    (forall a b, a = [] \/ b = [] -> Np.isnan (Fixtures.ttest_const 0.01 a b) = true) /\
    evaluate_signal (Fixtures.ttest_const 0.01) Fixtures.frame12_down_only
      [1; 2] 2 false 0.05 = Ok r /\
    In 1 [1; 2] /\
    sample (df_melt r) 1 up = [] /\
    Np.isnan (Np.mean (p_scores r)) = true /\
    null_ho_eval r = false /\
    mean_median_return r = Np.nan.
Proof.
  assert (E : forall a b, a = [] \/ b = [] -> Np.isnan (Fixtures.ttest_const 0.01 a b) = true).
  { intros a b [-> | ->]; [reflexivity | destruct a; reflexivity]. }
  eexists. split; [exact E|]. split; [vm_compute; reflexivity|].
  split; [now left|]. split; [reflexivity|].
  refine (proj2 (proj1 (evaluate_signal_rejects_empty_group
            (Fixtures.ttest_const 0.01) E Fixtures.frame12_down_only [1; 2] 2 0.05 _ _)
            1 _ _)).
  - vm_compute. reflexivity.
  - now left.
  - left. reflexivity.
Defined.

(** ** [produce_zscore] *)

Lemma nth_map_seq {A : Type} (f : nat -> A) (n i : nat) (d : A) :
  (i < n)%nat -> nth i (map f (seq 0 n)) d = f i.
Proof.
  intros H. rewrite (nth_indep _ d (f 0%nat)) by now rewrite length_map, length_seq.
  rewrite map_nth, seq_nth by assumption. reflexivity.
Qed.

Lemma nth_map_combine {A B C : Type} (f : A * B -> C) (la : list A) (lb : list B)
  (i : nat) (da : A) (db : B) (d : C) :
  length la = length lb -> (i < length la)%nat ->
  nth i (map f (combine la lb)) d = f (nth i la da, nth i lb db).
Proof.
  intros Hl Hi.
  rewrite (nth_indep _ d (f (da, db))).
  - rewrite map_nth, combine_nth by assumption. reflexivity.
  - rewrite length_map, length_combine. lia.
Qed.

Section ZScoreFacts.

Variable roll_mean : nat -> list float -> float.
Variable roll_std : nat -> list float -> float.

Lemma length_rolling (kernel : nat -> list float -> float) (window : nat)
  (xs : list float) :
  length (rolling kernel window xs) = length xs.
Proof. unfold rolling. now rewrite length_map, length_seq. Qed.

Lemma length_window_at (window : nat) (xs : list float) (i : nat) :
  (length (window_at window xs i) <= i + 1)%nat.
Proof.
  unfold window_at. rewrite length_skipn, length_firstn. lia.
Qed.

Lemma length_filter_le {A : Type} (f : A -> bool) (l : list A) :
  (length (filter f l) <= length l)%nat.
Proof.
  induction l as [|a l IH]; cbn; [lia|]. destruct (f a); cbn; lia.
Qed.

(** Before a window is full its value is missing. *)
Lemma rolling_head (kernel : nat -> list float -> float) (window : nat)
  (xs : list float) (i : nat) :
  (i < length xs)%nat -> (i + 1 < window)%nat ->
  nth i (rolling kernel window xs) Np.nan = Np.nan.
Proof.
  intros Hi Hw. unfold rolling. rewrite nth_map_seq by assumption.
  set (valid := filter _ _).
  assert (length valid <= i + 1)%nat.
  { subst valid. etransitivity; [apply length_filter_le | apply length_window_at]. }
  replace (length valid <? window)%nat with true; [reflexivity|].
  symmetry. apply Nat.ltb_lt. lia.
Qed.

(** The window of size 1 holds the current observation alone. *)
Lemma window_at_1 (xs : list float) (i : nat) :
  (i < length xs)%nat -> window_at 1 xs i = [nth i xs Np.nan].
Proof.
  unfold window_at. replace (i + 1 - 1)%nat with i by lia.
  revert i. induction xs as [|x xs IH]; intros i Hi; cbn in Hi; [lia|].
  destruct i as [|i]; cbn.
  - reflexivity.
  - apply IH. lia.
Qed.

Lemma rolling_1 (kernel : nat -> list float -> float) (xs : list float) (i : nat) :
  (i < length xs)%nat -> Np.isnan (nth i xs Np.nan) = false ->
  nth i (rolling kernel 1 xs) Np.nan = kernel 1%nat (firstn (i + 1) xs).
Proof.
  intros Hi Hn. unfold rolling. rewrite nth_map_seq by assumption.
  rewrite window_at_1 by assumption. cbn. rewrite Hn. reflexivity.
Qed.

Lemma length_zscore_numerator (window : nat) (xs : list float) :
  length (zscore_numerator roll_mean window xs) = length xs.
Proof.
  unfold zscore_numerator, rolling_mean.
  rewrite length_map, length_combine, !length_rolling. lia.
Qed.

Lemma nth_zscore_numerator (window : nat) (xs : list float) (i : nat) :
  (i < length xs)%nat ->
  nth i (zscore_numerator roll_mean window xs) Np.nan =
  (nth i (rolling_mean roll_mean 1 xs) Np.nan
   - nth i (rolling_mean roll_mean window xs) Np.nan)%float.
Proof.
  intros Hi. unfold zscore_numerator, rolling_mean.
  rewrite (nth_map_combine _ _ _ _ Np.nan Np.nan); rewrite ?length_rolling; auto.
Qed.

Lemma nth_z_score_column (window : nat) (xs : list float) (i : nat) :
  (i < length xs)%nat ->
  nth i (z_score_column roll_mean roll_std window xs) Np.nan =
  (nth i (zscore_numerator roll_mean window xs) Np.nan
   / nth i (rolling_std roll_std window xs) Np.nan)%float.
Proof.
  intros Hi. unfold z_score_column, rolling_std.
  rewrite (nth_map_combine _ _ _ _ Np.nan Np.nan);
    rewrite ?length_rolling, ?length_zscore_numerator; auto.
Qed.

Lemma length_z_score_column (window : nat) (xs : list float) :
  length (z_score_column roll_mean roll_std window xs) = length xs.
Proof.
  unfold z_score_column, rolling_std.
  rewrite length_map, length_combine, length_rolling, length_zscore_numerator. lia.
Qed.

End ZScoreFacts.

(** The z-score column is, position by position, the value of the
    rolling window of size 1 minus the rolling mean over [window]
    observations, divided by the rolling standard deviation over
    [window] observations; it is as long as the spread and its first
    [window - 1] values are missing. *)
Lemma z_score_column_values
  (roll_mean roll_std : nat -> list float -> float)
  (window : nat) (spread_series : list float) :
  let x := rolling_mean roll_mean 1 spread_series in
  let mean := rolling_mean roll_mean window spread_series in
  let std := rolling_std roll_std window spread_series in
  let z := z_score_column roll_mean roll_std window spread_series in
  length z = length spread_series /\
  (forall i, (i < length spread_series)%nat ->
     nth i z Np.nan =
       ((nth i x Np.nan - nth i mean Np.nan) / nth i std Np.nan)%float) /\
  (forall i, (i < length spread_series)%nat ->
     window_at 1 spread_series i = [nth i spread_series Np.nan] /\
     (Np.isnan (nth i spread_series Np.nan) = false ->
      nth i x Np.nan = roll_mean 1%nat (firstn (i + 1) spread_series))) /\
  (forall i, (i < length spread_series)%nat -> (i + 1 < window)%nat ->
     Np.isnan (nth i z Np.nan) = true).
Proof.
  cbv zeta. split; [|split; [|split]].
  - apply length_z_score_column.
  - intros i Hi. rewrite nth_z_score_column, nth_zscore_numerator by assumption.
    reflexivity.
  - intros i Hi. split; [now apply window_at_1|].
    intros Hn. now apply rolling_1.
  - intros i Hi Hw.
    rewrite nth_z_score_column, nth_zscore_numerator by assumption.
    apply NpFacts.div_nan_l, NpFacts.sub_nan_r.
    unfold rolling_mean. rewrite rolling_head by assumption. reflexivity.
Qed.

(** The z-scores stored by a completed [produce_zscore] are that column. *)
Lemma produce_zscore_z_score
  (roll_mean roll_std : nat -> list float -> float)
  (adfuller : list float -> result float)
  (df : list price_row) (window : nat) (thr : float) (out : list signal_row) :
  produce_zscore roll_mean roll_std adfuller df window thr = Ok out ->
  map z_score out = z_score_column roll_mean roll_std window (map spread df).
Proof.
  unfold produce_zscore. destruct (adfuller _); cbn; [|discriminate].
  intros [= <-].
  pose proof (length_z_score_column roll_mean roll_std window (map spread df)) as L.
  rewrite length_map in L.
  revert L. generalize (z_score_column roll_mean roll_std window (map spread df)).
  induction df as [|r df IH]; intros [|z zs] L; cbn in *; try discriminate; auto.
  f_equal. apply IH. lia.
Qed.

(** The rows [produce_zscore] builds keep the prices of the frame. *)
Lemma produce_zscore_prices (df : list price_row) (zs : list float)
  (z_threshold : float) :
  length df = length zs ->
  map prices
    (map (fun '(r, z) =>
            {| prices := r; z_score := z;
               up_pair_signal := up_signal_of z_threshold z;
               low_pair_signal := low_signal_of z_threshold z |})
         (combine df zs)) = df.
Proof.
  revert zs. induction df as [|p df IH]; intros [|z zs] L; cbn in *;
    try discriminate; auto.
  f_equal. apply IH. lia.
Qed.

(** C5. In the frame a completed [produce_zscore] stores, the z-score of
    each date is the value of the rolling window of size 1 at that date
    (the window that holds the current observation alone) minus the
    rolling mean over [window] observations, divided by the rolling
    standard deviation over [window] observations. The frame has one row
    per row of the input, each with the prices of its date, and the
    z-scores of its first [window - 1] rows are missing. *)
Theorem produce_zscore_z_score_shape
  (roll_mean roll_std : nat -> list float -> float)
  (adfuller : list float -> result float)
  (df : list price_row) (window : nat) (z_threshold : float)
  (out : list signal_row) :
  produce_zscore roll_mean roll_std adfuller df window z_threshold = Ok out ->
  let spread_series := map spread df in
  let x := rolling_mean roll_mean 1 spread_series in
  let mean := rolling_mean roll_mean window spread_series in
  let std := rolling_std roll_std window spread_series in
  length out = length df /\
  map prices out = df /\
  (forall i r, nth_error out i = Some r ->
     z_score r = ((nth i x Np.nan - nth i mean Np.nan) / nth i std Np.nan)%float) /\
  (forall i, (i < length df)%nat ->
     window_at 1 spread_series i = [nth i spread_series Np.nan] /\
     (Np.isnan (nth i spread_series Np.nan) = false ->
      nth i x Np.nan = roll_mean 1%nat (firstn (i + 1) spread_series))) /\
  (forall i r, nth_error out i = Some r -> (i + 1 < window)%nat ->
     Np.isnan (z_score r) = true).
Proof.
  intros H. cbv zeta.
  pose proof (produce_zscore_z_score _ _ _ _ _ _ _ H) as Hz.
  pose proof (z_score_column_values roll_mean roll_std window (map spread df))
    as (Hl & Hv & Hx & Hh).
  cbv zeta in Hl, Hv, Hx, Hh. rewrite length_map in Hl, Hv, Hx, Hh.
  assert (Hlen : length out = length df).
  { rewrite <- Hl, <- Hz. now rewrite length_map. }
  assert (Hnth : forall i r, nth_error out i = Some r ->
            (i < length df)%nat /\
            nth i (z_score_column roll_mean roll_std window (map spread df)) Np.nan
            = z_score r).
  { intros i r Hr. split.
    - rewrite <- Hlen. apply nth_error_Some. congruence.
    - rewrite <- Hz. apply nth_error_nth. rewrite nth_error_map, Hr. reflexivity. }
  split; [exact Hlen|]. split; [|split; [|split]].
  - unfold produce_zscore in H.
    destruct (adfuller _); cbn in H; [|discriminate]. injection H as <-.
    apply produce_zscore_prices. now rewrite Hl.
  - intros i r Hr. destruct (Hnth i r Hr) as [Hi <-]. now apply Hv.
  - exact Hx.
  - intros i r Hr Hw. destruct (Hnth i r Hr) as [Hi <-]. now apply Hh.
Qed.

Lemma produce_zscore_z_score_shape_witness :
  exists out,
    produce_zscore Fixtures.two_pass_mean Fixtures.two_pass_std
      (Fixtures.adfuller_const 0.01) Samples.prices6 3 1 = Ok out /\
    map (fun r => Np.isnan (z_score r)) out = [true; true; false; false; false; false] /\
    length out = length Samples.prices6 /\
    map prices out = Samples.prices6 /\
    (forall i r, nth_error out i = Some r ->
       z_score r
       = ((nth i (rolling_mean Fixtures.two_pass_mean 1 (map spread Samples.prices6)) Np.nan
           - nth i (rolling_mean Fixtures.two_pass_mean 3 (map spread Samples.prices6)) Np.nan)
          / nth i (rolling_std Fixtures.two_pass_std 3 (map spread Samples.prices6)) Np.nan)%float).
Proof.
  eexists. split; [vm_compute; reflexivity|]. split; [reflexivity|].
  pose proof (produce_zscore_z_score_shape Fixtures.two_pass_mean Fixtures.two_pass_std
                (Fixtures.adfuller_const 0.01) Samples.prices6 3 1 _ eq_refl)
    as (H1 & H2 & H3 & _).
  split; [exact H1|]. split; [exact H2 | exact H3].
Defined.

(** With the two-pass kernels and a window of 3, the first two z-scores
    are missing and the others are numbers. *)
Example z_score_column_example :
  map Np.isnan
    (z_score_column Fixtures.two_pass_mean Fixtures.two_pass_std 3 [1; 2; 4; 3; 5]%float)
  = [true; true; false; false; false].
Proof. vm_compute. reflexivity. Qed.

(** C9, as stated, fails: on the spread [0, 1e-200] with a window of 2
    the squared deviations underflow, the rolling standard deviation of
    the second date is zero, and the z-score of that date is [+infinity],
    not a missing value. *)
Lemma z_score_zero_std_infinite :
  Np.iszero (nth 1 (rolling_std Fixtures.two_pass_std 2 [0; 1e-200]%float) Np.nan) = true /\
  nth 1 (z_score_column Fixtures.two_pass_mean Fixtures.two_pass_std 2 [0; 1e-200]%float)
      Np.nan = infinity /\
  Np.isnan
    (nth 1 (z_score_column Fixtures.two_pass_mean Fixtures.two_pass_std 2 [0; 1e-200]%float)
         Np.nan) = false.
Proof. vm_compute. repeat split; reflexivity. Qed.

(** C9, amended. The z-score has a value at every date and its division
    never raises. At a date whose rolling standard deviation is zero, the
    z-score is missing exactly when the numerator (current value minus
    rolling mean) is zero or missing, and is an infinity otherwise. *)
Theorem z_score_zero_std
  (roll_mean roll_std : nat -> list float -> float)
  (window : nat) (spread_series : list float) (i : nat) :
  (i < length spread_series)%nat ->
  Np.iszero (nth i (rolling_std roll_std window spread_series) Np.nan) = true ->
  let num := nth i (zscore_numerator roll_mean window spread_series) Np.nan in
  let z := nth i (z_score_column roll_mean roll_std window spread_series) Np.nan in
  (i < length (z_score_column roll_mean roll_std window spread_series))%nat /\
  Np.isnan z = Np.isnan num || Np.iszero num /\
  (Np.isnan num = false -> Np.iszero num = false -> Np.isinf z = true).
Proof.
  intros Hi Hs. cbv zeta.
  pose proof (length_z_score_column roll_mean roll_std window spread_series) as L.
  rewrite nth_z_score_column by assumption.
  split; [lia|]. split.
  - now apply NpFacts.div_zero_isnan.
  - now apply NpFacts.div_zero_isinf.
Qed.

Lemma z_score_zero_std_witness :
  (2 < length [1; 1; 1]%float)%nat /\
  Np.iszero (nth 2 (rolling_std Fixtures.two_pass_std 3 [1; 1; 1]%float) Np.nan) = true /\
  Np.isnan
    (nth 2 (z_score_column Fixtures.two_pass_mean Fixtures.two_pass_std 3 [1; 1; 1]%float)
         Np.nan)
  = Np.isnan (nth 2 (zscore_numerator Fixtures.two_pass_mean 3 [1; 1; 1]%float) Np.nan)
    || Np.iszero (nth 2 (zscore_numerator Fixtures.two_pass_mean 3 [1; 1; 1]%float) Np.nan).
Proof.
  split; [cbn; lia|]. split; [vm_compute; reflexivity|].
  refine (proj1 (proj2 (z_score_zero_std Fixtures.two_pass_mean Fixtures.two_pass_std
                          3 [1; 1; 1]%float 2 _ _))).
  - cbn. lia.
  - vm_compute. reflexivity.
Defined.

(** ** Sorting, counting and alignment on an ascending index *)

Module PdFacts.
Import Pd.

Lemma ascending_NoDup (ds : list Z) : StronglySorted Z.lt ds -> NoDup ds.
Proof.
  induction 1 as [|d ds S IH F]; constructor; auto.
  intros Hin. rewrite Forall_forall in F. specialize (F d Hin). lia.
Qed.

Lemma In_firstn {A : Type} (n : nat) (l : list A) (x : A) :
  In x (firstn n l) -> In x l.
Proof.
  revert n. induction l as [|a l IH]; intros [|n]; cbn; try tauto.
  intros [H|H]; [now left | right; now apply (IH n)].
Qed.

Lemma ascending_firstn (n : nat) (ds : list Z) :
  StronglySorted Z.lt ds -> StronglySorted Z.lt (firstn n ds).
Proof.
  intros H. revert n. induction H as [|d ds S IH F]; intros [|n]; cbn; constructor; auto.
  rewrite Forall_forall in *. intros x Hx. apply F. now apply (In_firstn n).
Qed.

Lemma ascending_skipn (n : nat) (ds : list Z) :
  StronglySorted Z.lt ds -> StronglySorted Z.lt (skipn n ds).
Proof.
  intros H. revert n. induction H as [|d ds S IH F]; intros [|n]; cbn.
  - constructor.
  - constructor.
  - now constructor.
  - apply IH.
Qed.

(** A frame sorted by date is left as it is by [sort_values]. *)
Lemma sort_values_ascending {V : Type} (s : Series V) :
  StronglySorted Z.lt (map fst s) -> sort_values true s = s.
Proof.
  induction s as [|x s IH]; intros H; [reflexivity|].
  cbn in H. apply StronglySorted_inv in H as [S F].
  change (sort_values true (x :: s)) with (insert_by true x (sort_values true s)).
  rewrite (IH S). destruct s as [|y r]; [reflexivity|].
  cbn. apply Forall_inv in F. cbn in F.
  replace (fst x <=? fst y) with true; [reflexivity|].
  symmetry. apply Z.leb_le. lia.
Qed.

Lemma insert_by_last {V : Type} (x : Z * V) (s : Series V) :
  Forall (fun y => fst x < fst y) s -> insert_by false x s = s ++ [x].
Proof.
  induction 1 as [|y r Hy F IH]; [reflexivity|].
  cbn. replace (fst y <=? fst x) with false; [now rewrite IH|].
  symmetry. apply Z.leb_gt. lia.
Qed.

(** Sorted by descending date, it is reversed. *)
Lemma sort_values_descending {V : Type} (s : Series V) :
  StronglySorted Z.lt (map fst s) -> sort_values false s = rev s.
Proof.
  induction s as [|x s IH]; intros H; [reflexivity|].
  cbn in H. apply StronglySorted_inv in H as [S F].
  change (sort_values false (x :: s)) with (insert_by false x (sort_values false s)).
  rewrite (IH S). cbn [rev]. apply insert_by_last.
  apply Forall_rev. rewrite Forall_map in F. exact F.
Qed.

Lemma lookup_In {V : Type} (s : Series V) (l : Z) (v : V) :
  NoDup (map fst s) -> In (l, v) s -> lookup l s = Some v.
Proof.
  induction s as [|[l' v'] s IH]; intros N H; [easy|].
  cbn in N. apply NoDup_cons_iff in N as [Nin N].
  cbn. destruct H as [[= -> ->]|H].
  - now rewrite Z.eqb_refl.
  - destruct (Z.eqb_spec l l') as [->|_]; [|now apply IH].
    destruct Nin. apply (in_map fst) in H. exact H.
Qed.

(** Assigning a series that holds the value of every label of the index
    gives these values, in the order of the index. *)
Lemma setitem_covered {V : Type} (index : list Z) (vals : list (option V))
  (s : Series (option V)) :
  NoDup (map fst s) -> length index = length vals ->
  (forall p, In p (combine index vals) -> In p s) ->
  setitem index s = vals.
Proof.
  intros N. revert vals. induction index as [|l index IH]; intros [|v vals] L H;
    try discriminate; [reflexivity|].
  cbn. rewrite (lookup_In s l v N) by (apply H; now left).
  f_equal. apply IH; [now injection L|]. intros p Hp. apply H. now right.
Qed.

Lemma map_fst_combine {A B : Type} (la : list A) (lb : list B) :
  length la = length lb -> map fst (combine la lb) = la.
Proof.
  revert lb. induction la as [|a la IH]; intros [|b lb] L; try discriminate;
    [reflexivity|]. cbn. f_equal. apply IH. now injection L.
Qed.

Lemma map_snd_combine {A B : Type} (la : list A) (lb : list B) :
  length la = length lb -> map snd (combine la lb) = lb.
Proof.
  revert lb. induction la as [|a la IH]; intros [|b lb] L; try discriminate;
    [reflexivity|]. cbn. f_equal. apply IH. now injection L.
Qed.

Lemma setitem_combine {V : Type} (index : list Z) (vals : list (option V)) :
  NoDup index -> length index = length vals ->
  setitem index (combine index vals) = vals.
Proof.
  intros N L. apply setitem_covered; auto. now rewrite map_fst_combine.
Qed.

Lemma setitem_rev_combine {V : Type} (index : list Z) (vals : list (option V)) :
  NoDup index -> length index = length vals ->
  setitem index (rev (combine index vals)) = vals.
Proof.
  intros N L. apply setitem_covered; auto.
  - rewrite map_rev, map_fst_combine by assumption.
    apply NoDup_rev. exact N.
  - intros p Hp. now apply in_rev in Hp.
Qed.

Lemma cumcount_from_combine {K : Type} (eqb : K -> K -> bool) (seen : list K)
  (index : list Z) (keys : list (option K)) :
  cumcount_from eqb seen (combine index keys)
  = combine index (counts_from eqb seen keys).
Proof.
  revert seen keys. induction index as [|l index IH]; intros seen [|[k|] keys];
    cbn; try reflexivity; now rewrite IH.
Qed.

Lemma add1_combine (index : list Z) (vals : list (option Z)) :
  add1 (combine index vals) = combine index (map (option_map (Z.add 1)) vals).
Proof.
  revert vals. induction index as [|l index IH]; intros [|v vals]; cbn;
    try reflexivity. now rewrite <- IH.
Qed.

Lemma length_counts_from {K : Type} (eqb : K -> K -> bool) (seen : list K)
  (keys : list (option K)) :
  length (counts_from eqb seen keys) = length keys.
Proof.
  revert seen. induction keys as [|[k|] keys IH]; intros seen; cbn; auto.
Qed.

Lemma length_setitem {V : Type} (index : list Z) (s : Series (option V)) :
  length (setitem index s) = length index.
Proof. apply length_map. Qed.

Lemma length_ffill_from {V : Type} (last : option V) (xs : list (option V)) :
  length (ffill_from last xs) = length xs.
Proof. revert last. induction xs as [|x xs IH]; intros last; cbn; auto. Qed.

(** The group counts of a frame sorted by date, assigned back. *)
Lemma cumcount_ascending {K : Type} (eqb : K -> K -> bool) (index : list Z)
  (keys : list (option K)) :
  StronglySorted Z.lt index -> length index = length keys ->
  setitem index (add1 (groupby_cumcount eqb (sort_values true (combine index keys))))
  = map (option_map (Z.add 1)) (counts_from eqb [] keys).
Proof.
  intros S L. rewrite sort_values_ascending by now rewrite map_fst_combine.
  unfold groupby_cumcount. rewrite cumcount_from_combine, add1_combine.
  apply setitem_combine; [now apply ascending_NoDup|].
  now rewrite length_map, length_counts_from.
Qed.

Lemma combine_app_eq {A B : Type} (la la' : list A) (lb lb' : list B) :
  length la = length lb ->
  combine (la ++ la') (lb ++ lb') = combine la lb ++ combine la' lb'.
Proof.
  revert lb. induction la as [|a la IH]; intros [|b lb] L; try discriminate;
    [reflexivity|]. cbn. f_equal. apply IH. now injection L.
Qed.

Lemma rev_combine {A B : Type} (la : list A) (lb : list B) :
  length la = length lb -> rev (combine la lb) = combine (rev la) (rev lb).
Proof.
  revert lb. induction la as [|a la IH]; intros [|b lb] L; try discriminate;
    [reflexivity|].
  cbn. injection L as L. rewrite IH by assumption.
  rewrite combine_app_eq by now rewrite !length_rev. reflexivity.
Qed.

(** The same on the frame sorted by descending date. *)
Lemma cumcount_descending {K : Type} (eqb : K -> K -> bool) (index : list Z)
  (keys : list (option K)) :
  StronglySorted Z.lt index -> length index = length keys ->
  setitem index (add1 (groupby_cumcount eqb (sort_values false (combine index keys))))
  = rev (map (option_map (Z.add 1)) (counts_from eqb [] (rev keys))).
Proof.
  intros S L. rewrite sort_values_descending by now rewrite map_fst_combine.
  unfold groupby_cumcount.
  rewrite rev_combine, cumcount_from_combine, add1_combine by assumption.
  set (v := map _ _).
  assert (Lv : length v = length index).
  { subst v. now rewrite length_map, length_counts_from, length_rev. }
  rewrite <- (rev_involutive v) at 1.
  rewrite <- rev_combine by now rewrite length_rev.
  apply setitem_rev_combine; [now apply ascending_NoDup|].
  now rewrite length_rev.
Qed.

End PdFacts.

(** ** Chain detection *)

Lemma length_shift {V : Type} (periods : Z) (xs : list V) :
  length (Pd.shift periods xs) = length xs.
Proof.
  unfold Pd.shift. destruct (0 <=? periods);
    rewrite length_app, repeat_length, length_map;
    [rewrite length_firstn | rewrite length_skipn]; lia.
Qed.

Lemma nth_map_Some {V : Type} (l : list V) (i : nat) :
  nth i (map Some l) None = nth_error l i.
Proof.
  revert i. induction l as [|a l IH]; intros [|i]; cbn; auto.
Qed.

Lemma nth_error_firstn_lt {V : Type} (n : nat) (l : list V) (i : nat) :
  (i < n)%nat -> nth_error (firstn n l) i = nth_error l i.
Proof.
  revert n i. induction l as [|a l IH]; intros [|n] [|i] H; cbn; auto; try lia.
  apply IH. lia.
Qed.

(** [shift(1)]: nothing at the first position, the previous value at the
    others. *)
Lemma nth_shift_1 {V : Type} (xs : list V) (i : nat) :
  (i < length xs)%nat ->
  nth i (Pd.shift 1 xs) None = match i with O => None | S j => nth_error xs j end.
Proof.
  intros Hi. unfold Pd.shift. cbn [Z.leb Z.compare].
  destruct xs as [|x xs]; [cbn in Hi; lia|].
  cbn [length]. change (Z.to_nat 1) with 1%nat.
  replace (Nat.min 1 (S (length xs))) with 1%nat by lia.
  replace (S (length xs) - 1)%nat with (length xs) by lia.
  cbn [repeat app]. destruct i as [|j]; [reflexivity|].
  cbn [nth]. rewrite nth_map_Some. apply nth_error_firstn_lt. cbn in Hi. lia.
Qed.

Lemma length_span_column (ds : list Z) : length (span_column ds) = length ds.
Proof.
  unfold span_column. rewrite length_map, length_combine, length_shift. lia.
Qed.

Lemma length_break_column (ds : list Z) : length (break_column ds) = length ds.
Proof.
  unfold break_column.
  rewrite length_map, length_combine, length_map, length_span_column. lia.
Qed.

Lemma nth_span_column (ds : list Z) (i : nat) :
  (i < length ds)%nat ->
  nth i (span_column ds) None =
  match i with
  | O => None
  | S j => Some (nth i ds 0 - nth j ds 0 - 1)
  end.
Proof.
  intros Hi. unfold span_column.
  rewrite (nth_map_combine _ _ _ _ 0 None) by (rewrite ?length_shift; auto).
  rewrite nth_shift_1 by assumption.
  destruct i as [|j]; [reflexivity|].
  rewrite (nth_error_nth' ds 0) by lia. reflexivity.
Qed.

(** The break mark: always at the first row, and at a later row exactly
    when more than three days lie strictly between it and the previous
    one, that is when the two dates are more than four days apart. *)
Lemma nth_break_column (ds : list Z) (i : nat) :
  (i < length ds)%nat ->
  nth i (break_column ds) 0 =
  match i with
  | O => 1
  | S j => if nth i ds 0 - nth j ds 0 >? 4 then 1 else 0
  end.
Proof.
  intros Hi. unfold break_column.
  rewrite (nth_map_combine _ _ _ _ None 0)
    by (rewrite ?length_map, ?length_span_column; auto).
  rewrite nth_span_column by assumption.
  destruct i as [|j]; [reflexivity|].
  change 0 with ((fun s : option Z =>
                    match s with Some v => if v >? 3 then 1 else 0 | None => 0 end) None)
    at 3.
  rewrite map_nth, nth_span_column by assumption.
  rewrite !Z.gtb_ltb.
  destruct (Z.ltb_spec 3 (nth (S j) ds 0 - nth j ds 0 - 1)),
           (Z.ltb_spec 4 (nth (S j) ds 0 - nth j ds 0)); try reflexivity; lia.
Qed.

(** Carrying the masked counts forward gives the running count of the
    break marks. *)
Lemma ffill_masked_counts (brk seen : list Z) (last : option Z) (n0 : Z) (i : nat) :
  n0 = Z.of_nat (length (filter (Z.eqb 1) seen)) ->
  last = (if n0 =? 0 then None else Some n0) ->
  (i < length brk)%nat ->
  nth i (Pd.ffill_from last
           (map (fun '(b, c) => if b =? 1 then c else None)
                (combine brk (map (option_map (Z.add 1))
                                  (Pd.counts_from Z.eqb seen (map Some brk))))))
      None
  = (let n := n0 + Z.of_nat (count_occ Z.eq_dec (firstn (S i) brk) 1) in
     if n =? 0 then None else Some n).
Proof.
  revert seen last n0 i. induction brk as [|b r IH]; intros seen last n0 i Hn Hl Hi;
    [cbn in Hi; lia|].
  cbn [map Pd.counts_from combine Pd.ffill_from option_map firstn].
  destruct (Z.eqb_spec b 1) as [->|Hb].
  - rewrite count_occ_cons_eq by reflexivity.
    destruct i as [|j].
    + cbn [nth firstn count_occ]. rewrite <- Hn.
      replace (n0 + Z.of_nat 1) with (1 + n0) by lia.
      destruct (Z.eqb_spec (1 + n0) 0); [lia | reflexivity].
    + cbn [nth].
      rewrite (IH (1 :: seen) _ (n0 + 1) j).
      * cbv zeta. replace (n0 + 1 + Z.of_nat (count_occ Z.eq_dec (firstn (S j) r) 1))
          with (n0 + Z.of_nat (S (count_occ Z.eq_dec (firstn (S j) r) 1))) by lia.
        reflexivity.
      * cbn [filter Z.eqb Pos.eqb length]. lia.
      * rewrite <- Hn. replace (1 + n0) with (n0 + 1) by lia.
        destruct (Z.eqb_spec (n0 + 1) 0); [lia | reflexivity].
      * cbn in Hi. lia.
  - rewrite count_occ_cons_neq by congruence.
    assert (Hf : filter (Z.eqb 1) (b :: seen) = filter (Z.eqb 1) seen).
    { cbn [filter]. destruct (Z.eqb_spec 1 b); [congruence | reflexivity]. }
    destruct i as [|j].
    + cbn [nth firstn count_occ]. rewrite Hl. cbv zeta.
      replace (n0 + Z.of_nat 0) with n0 by lia. reflexivity.
    + cbn [nth].
      rewrite (IH (b :: seen) _ n0 j); auto.
      * now rewrite Hf.
      * cbn in Hi. lia.
Qed.

Lemma length_chain_id_column (ds : list Z) : length (chain_id_column ds) = length ds.
Proof.
  unfold chain_id_column, Pd.ffill.
  rewrite PdFacts.length_ffill_from, length_map, length_combine,
    length_break_column, PdFacts.length_setitem. lia.
Qed.

Lemma length_rank_column (asc : bool) (ds : list Z) (cid : list (option Z)) :
  length (rank_column asc ds cid) = length ds.
Proof. apply PdFacts.length_setitem. Qed.

(** On ascending dates, the chain id of a row is the number of break
    marks up to it. *)
Lemma nth_chain_id_column (ds : list Z) (i : nat) :
  StronglySorted Z.lt ds -> (i < length ds)%nat ->
  nth i (chain_id_column ds) None
  = Some (Z.of_nat (count_occ Z.eq_dec (firstn (S i) (break_column ds)) 1)).
Proof.
  intros Hs Hi. unfold chain_id_column.
  rewrite PdFacts.cumcount_ascending
    by (auto; now rewrite length_map, length_break_column).
  unfold Pd.ffill.
  rewrite (ffill_masked_counts _ [] None 0 i); auto;
    [|now rewrite length_break_column].
  cbv zeta. rewrite Z.add_0_l.
  assert (H1 : nth 0 (break_column ds) 0 = 1)
    by (apply (nth_break_column ds 0%nat); lia).
  pose proof (length_break_column ds) as L.
  destruct (break_column ds) as [|b r]; [cbn in L; lia|].
  cbn in H1. subst b. cbn [firstn]. rewrite count_occ_cons_eq by reflexivity.
  destruct (Z.eqb_spec (Z.of_nat (S (count_occ Z.eq_dec (firstn i r) 1))) 0);
    [lia | reflexivity].
Qed.

Section ChainFacts.

Variable A : Type.
Variable base : A -> signal_row.

Lemma signal_rows_In (df : list A) (r : A) (s : signal) :
  In (r, s) (signal_rows base df) -> In r df /\ signal_type_of base r = Some s.
Proof.
  induction df as [|a df IH]; cbn; [tauto|].
  destruct (signal_type_of base a) as [t|] eqn:E.
  - intros [[= -> ->]|H]; [auto|]. destruct (IH H). auto.
  - intros H. destruct (IH H). auto.
Qed.

(** The signal-bearing rows of an ascending frame are ascending. *)
Lemma signal_rows_ascending (df : list A) :
  StronglySorted Z.lt (map (date_of base) df) ->
  StronglySorted Z.lt (map (fun r => date_of base (fst r)) (signal_rows base df)).
Proof.
  induction df as [|a df IH]; cbn; intros H; [constructor|].
  apply StronglySorted_inv in H as [S F].
  destruct (signal_type_of base a) as [t|]; [|now apply IH].
  cbn. constructor; [now apply IH|].
  rewrite Forall_forall in *. intros d Hd.
  apply in_map_iff in Hd as [[r s'] [<- Hr]]. apply signal_rows_In in Hr as [Hr _].
  apply F. now apply (in_map (date_of base)).
Qed.

(** Filtering the signal-bearing rows again keeps them all. *)
Lemma signal_rows_idem (df : list A) :
  signal_rows base (map fst (signal_rows base df)) = signal_rows base df.
Proof.
  induction df as [|a df IH]; cbn; [reflexivity|].
  destruct (signal_type_of base a) as [t|] eqn:E; [|exact IH].
  cbn. rewrite E, IH. reflexivity.
Qed.

(** The labelled frame of an ascending frame, column by column. *)
Lemma detect_chains_ascending (df : list A) :
  StronglySorted Z.lt (map (date_of base) df) ->
  let sdf := signal_rows base df in
  let Date_ := map (fun r => date_of base (fst r)) sdf in
  let cid := chain_id_column Date_ in
  detect_chains base df =
  map (fun '((r, s), (c, (rn, inv))) =>
         {| row := r; signal_type := s; chain_id := c; internal_rn := rn;
            first_in_chain := is_one rn; last_in_chain := is_one inv |})
      (combine sdf (combine cid (combine (rank_column true Date_ cid)
                                         (rank_column false Date_ cid)))).
Proof.
  intros S. cbv zeta. unfold detect_chains.
  set (sdf := signal_rows base df).
  set (Date_ := map _ sdf).
  set (labelled := map _ (combine sdf _)).
  assert (L : length Date_ = length labelled).
  { subst labelled Date_.
    rewrite !length_map, !length_combine, length_chain_id_column,
      !length_rank_column, !length_map. lia. }
  rewrite PdFacts.sort_values_ascending.
  - now apply PdFacts.map_snd_combine.
  - rewrite PdFacts.map_fst_combine by assumption.
    now apply signal_rows_ascending.
Qed.

Lemma map_chain_id_detect_chains (df : list A) :
  StronglySorted Z.lt (map (date_of base) df) ->
  map chain_id (detect_chains base df)
  = chain_id_column (map (fun r => date_of base (fst r)) (signal_rows base df)).
Proof.
  intros S. rewrite (detect_chains_ascending df S). cbv zeta.
  set (sdf := signal_rows base df).
  set (Date_ := map _ sdf).
  set (cid := chain_id_column Date_).
  rewrite map_map.
  rewrite (map_ext _ (fun p => fst (snd p)))
    by (intros [[r s] [c [rn inv]]]; reflexivity).
  rewrite <- (map_map snd fst), PdFacts.map_snd_combine.
  - apply PdFacts.map_fst_combine.
    subst cid Date_.
    rewrite length_combine, length_chain_id_column, !length_rank_column. lia.
  - subst cid Date_.
    rewrite !length_combine, length_chain_id_column, !length_rank_column, length_map.
    lia.
Qed.

Lemma unlabel_detect_chains (df : list A) :
  StronglySorted Z.lt (map (date_of base) df) ->
  unlabel (detect_chains base df) = map fst (signal_rows base df).
Proof.
  intros S. unfold unlabel. rewrite (detect_chains_ascending df S). cbv zeta.
  set (sdf := signal_rows base df).
  set (Date_ := map _ sdf).
  set (cid := chain_id_column Date_).
  rewrite map_map.
  rewrite (map_ext _ (fun p => fst (fst p)))
    by (intros [[r s] [c [rn inv]]]; reflexivity).
  rewrite <- (map_map fst fst), PdFacts.map_fst_combine; [reflexivity|].
  subst cid Date_.
  rewrite !length_combine, length_chain_id_column, !length_rank_column, length_map.
  lia.
Qed.

(** The detection reads a frame through its signal-bearing rows only. *)
Lemma detect_chains_signal_rows (df df' : list A) :
  signal_rows base df' = signal_rows base df ->
  detect_chains base df' = detect_chains base df.
Proof. intros H. unfold detect_chains. now rewrite H. Qed.

(** The detection run again on the labelled frame of an ascending frame
    gives this labelled frame. *)
Lemma detect_chains_idempotent (df : list A) :
  StronglySorted Z.lt (map (date_of base) df) ->
  detect_chains base (unlabel (detect_chains base df)) = detect_chains base df.
Proof.
  intros S. apply detect_chains_signal_rows.
  rewrite unlabel_detect_chains by assumption. apply signal_rows_idem.
Qed.

End ChainFacts.

Lemma count_occ_firstn_S (l : list Z) (n : nat) (x : Z) :
  (n < length l)%nat ->
  count_occ Z.eq_dec (firstn (S n) l) x
  = (count_occ Z.eq_dec (firstn n l) x
     + (if Z.eq_dec (nth n l 0%Z) x then 1 else 0))%nat.
Proof.
  revert n. induction l as [|a l IH]; intros n Hn; [cbn in Hn; lia|].
  destruct n as [|n].
  - cbn. destruct (Z.eq_dec a x); reflexivity.
  - change (firstn (S (S n)) (a :: l)) with (a :: firstn (S n) l).
    change (firstn (S n) (a :: l)) with (a :: firstn n l).
    cbn [count_occ nth]. rewrite IH by (cbn in Hn; lia).
    destruct (Z.eq_dec a x); lia.
Qed.

(** C1, as stated, fails: two signal dates four days apart are more than
    three days apart, yet no break is marked at the second one and both
    rows get the chain id 1. *)
Lemma chain_break_gap_of_4 :
  4 - 0 > 3 /\
  break_column [0; 4] = [1; 0] /\
  chain_id_column [0; 4] = [Some 1; Some 1] /\
  map chain_id
    (detect_chains (fun r => r) [Fixtures.mk_row 0 100 0 1; Fixtures.mk_row 4 100 0 1])
  = [Some 1; Some 1].
Proof. repeat split; reflexivity. Qed.

(** C1, amended. On signal-bearing dates in ascending order, for the rows
    of [evaluate_signal] and of [create_backtest_signal] alike, a break
    is marked at the first row and at every row whose date is more than
    four days after the previous signal-bearing date (more than three
    days lie strictly between them), and at no other row; the chain id of
    a row is the number of breaks up to it, so it starts at 1, never
    decreases and grows by exactly 1 at each break. *)
Theorem chain_id_running_count (A : Type) (base : A -> signal_row) (df : list A) :
  StronglySorted Z.lt (map (date_of base) df) ->
  let Date_ := map (fun r => date_of base (fst r)) (signal_rows base df) in
  let break := break_column Date_ in
  let ids := map chain_id (detect_chains base df) in
  length ids = length Date_ /\
  (forall i, (i < length Date_)%nat ->
     nth i break 0 =
     match i with
     | O => 1
     | S j => if nth i Date_ 0 - nth j Date_ 0 >? 4 then 1 else 0
     end) /\
  (forall i, (i < length Date_)%nat ->
     nth i ids None
     = Some (Z.of_nat (count_occ Z.eq_dec (firstn (S i) break) 1))) /\
  (forall i, (S i < length Date_)%nat ->
     exists c, nth i ids None = Some c /\
               nth (S i) ids None = Some (c + nth (S i) break 0)).
Proof.
  intros Hs. cbv zeta.
  pose proof (signal_rows_ascending A base df Hs) as Ha.
  rewrite (map_chain_id_detect_chains A base df Hs).
  set (Date_ := map _ (signal_rows base df)) in *.
  split; [apply length_chain_id_column|].
  split; [intros i Hi; now apply nth_break_column|].
  split; [intros i Hi; now apply nth_chain_id_column|].
  intros i Hi. eexists. split; [apply nth_chain_id_column; auto; lia|].
  rewrite nth_chain_id_column by auto.
  rewrite (count_occ_firstn_S _ (S i)) by (rewrite length_break_column; lia).
  f_equal. rewrite (nth_break_column Date_ (S i)) by lia.
  destruct (nth (S i) Date_ 0 - nth i Date_ 0 >? 4);
    destruct (Z.eq_dec _ 1); try discriminate; try congruence; lia.
Qed.

Lemma chain_id_running_count_witness :
  StronglySorted Z.lt
    (map (date_of (fun r => r))
         [Fixtures.mk_row 100 1 1 0; Fixtures.mk_row 101 1 1 0;
          Fixtures.mk_row 102 1 1 0; Fixtures.mk_row 110 1 1 0]) /\
  map chain_id
    (detect_chains (fun r => r)
       [Fixtures.mk_row 100 1 1 0; Fixtures.mk_row 101 1 1 0;
        Fixtures.mk_row 102 1 1 0; Fixtures.mk_row 110 1 1 0])
  = [Some 1; Some 1; Some 1; Some 2] /\
  length
    (map chain_id
       (detect_chains (fun r => r)
          [Fixtures.mk_row 100 1 1 0; Fixtures.mk_row 101 1 1 0;
           Fixtures.mk_row 102 1 1 0; Fixtures.mk_row 110 1 1 0]))
  = 4%nat.
Proof.
  assert (Hs : StronglySorted Z.lt
                 (map (date_of (fun r => r))
                      [Fixtures.mk_row 100 1 1 0; Fixtures.mk_row 101 1 1 0;
                       Fixtures.mk_row 102 1 1 0; Fixtures.mk_row 110 1 1 0])).
  { cbn. repeat (constructor; [|repeat (constructor; [lia|]); constructor]).
    constructor. }
  split; [exact Hs|]. split; [reflexivity|].
  exact (proj1 (chain_id_running_count signal_row (fun r => r) _ Hs)).
Defined.

(** *** Idempotence *)

Lemma insert_by_In {V : Type} (asc : bool) (x p : Z * V) (s : Pd.Series V) :
  In p (Pd.insert_by asc x s) <-> p = x \/ In p s.
Proof.
  induction s as [|y r IH]; cbn; [intuition auto|].
  destruct (if asc then fst x <=? fst y else fst y <=? fst x); cbn.
  - intuition auto.
  - rewrite IH. intuition auto.
Qed.

Lemma insert_by_ascending {V : Type} (x : Z * V) (s : Pd.Series V) :
  StronglySorted Z.lt (map fst s) -> ~ In (fst x) (map fst s) ->
  StronglySorted Z.lt (map fst (Pd.insert_by true x s)).
Proof.
  induction s as [|y r IH]; cbn; intros Hs Hn.
  - repeat constructor.
  - apply StronglySorted_inv in Hs as [Hr F].
    destruct (Z.leb_spec (fst x) (fst y)) as [Hle|Hgt]; cbn.
    + assert (fst x < fst y) by (assert (fst y <> fst x) by tauto; lia).
      constructor; [now constructor|].
      constructor; [assumption|].
      rewrite Forall_forall in *. intros l Hl. specialize (F l Hl). lia.
    + constructor; [apply IH; tauto|].
      rewrite Forall_forall in *. intros l Hl.
      apply in_map_iff in Hl as [p [<- Hp]].
      apply insert_by_In in Hp as [->|Hp]; [lia|].
      apply F. now apply in_map.
Qed.

(** Sorting a frame of distinct dates puts them in ascending order and
    keeps every row with its date. *)
Lemma sort_values_sorted {V : Type} (s : Pd.Series V) :
  NoDup (map fst s) ->
  StronglySorted Z.lt (map fst (Pd.sort_values true s)) /\
  (forall p, In p (Pd.sort_values true s) <-> In p s).
Proof.
  induction s as [|x s IH]; intros N.
  - split; [constructor | tauto].
  - cbn in N. apply NoDup_cons_iff in N as [Nx N]. destruct (IH N) as [Hs Hi].
    change (Pd.sort_values true (x :: s))
      with (Pd.insert_by true x (Pd.sort_values true s)).
    split.
    + apply insert_by_ascending; [assumption|].
      intros Hin. apply Nx. apply in_map_iff in Hin as [p [E Hp]].
      apply Hi in Hp. rewrite <- E. now apply in_map.
    + intros p. rewrite insert_by_In, Hi. cbn. intuition auto.
Qed.

(** The rows of the frame of [evaluate_signal], before the detection, are
    in ascending order of date when the dates of [self.df] are distinct. *)
Lemma evaluate_rows_ascending (self_df : list signal_row) (test : Z)
  (columns : list (list float)) :
  NoDup (map (fun r => Date (prices r)) self_df) ->
  let df :=
    Pd.iloc_to (- test)
      (map snd (Pd.sort_values true (map (fun r => (Date (prices r), r)) self_df))) in
  StronglySorted Z.lt
    (map (date_of (fst : eval_row -> signal_row))
         (map (fun '(i, r) => (r, map (fun c => nth i c Np.nan) columns))
              (combine (seq 0 (length df)) df))).
Proof.
  intros N. cbv zeta.
  set (sorted := Pd.sort_values true _).
  assert (Hs : StronglySorted Z.lt (map fst sorted) /\
               (forall p, In p sorted <-> In p (map (fun r => (Date (prices r), r)) self_df))).
  { apply sort_values_sorted. rewrite map_map. exact N. }
  destruct Hs as [Hs Hi].
  assert (Hk : map (fun r => Date (prices r)) (map snd sorted) = map fst sorted).
  { rewrite map_map. apply map_ext_in. intros p Hp. apply Hi in Hp.
    apply in_map_iff in Hp as [r [<- _]]. reflexivity. }
  set (df := Pd.iloc_to _ _).
  rewrite map_map.
  rewrite (map_ext _ (fun p => Date (prices (snd p)))) by (intros [i r]; reflexivity).
  rewrite <- (map_map snd (fun r => Date (prices r))).
  rewrite PdFacts.map_snd_combine by now rewrite length_seq.
  subst df. unfold Pd.iloc_to. rewrite <- firstn_map, Hk.
  now apply PdFacts.ascending_firstn.
Qed.

(** C8. In [evaluate_signal], on a frame of distinct dates, running the
    chain detection again on its labelled output, read through its dates
    and signals alone, gives the same output: the same chain ids, ranks
    and first and last marks, row by row. *)
Theorem evaluate_signal_chains_idempotent
  (self_df : list signal_row) (days_list : list Z) (test_size : Z) :
  NoDup (map (fun r => Date (prices r)) self_df) ->
  let out := evaluate_signal_frame self_df days_list test_size in
  let again := detect_chains fst (unlabel out) in
  again = out /\
  map chain_id again = map chain_id out /\
  map internal_rn again = map internal_rn out /\
  map first_in_chain again = map first_in_chain out /\
  map last_in_chain again = map last_in_chain out.
Proof.
  intros N. cbv zeta.
  assert (E : detect_chains fst (unlabel (evaluate_signal_frame self_df days_list test_size))
              = evaluate_signal_frame self_df days_list test_size).
  { unfold evaluate_signal_frame. apply detect_chains_idempotent.
    now apply evaluate_rows_ascending. }
  rewrite E. repeat split.
Qed.

Lemma evaluate_signal_chains_idempotent_witness :
  NoDup (map (fun r => Date (prices r)) Fixtures.frame12) /\
  detect_chains fst (unlabel (evaluate_signal_frame Fixtures.frame12 [1; 2] 2))
  = evaluate_signal_frame Fixtures.frame12 [1; 2] 2 /\
  map chain_id (evaluate_signal_frame Fixtures.frame12 [1; 2] 2)
  = [Some 1; Some 1; Some 2; Some 2].
Proof.
  assert (N : NoDup (map (fun r => Date (prices r)) Fixtures.frame12)).
  { cbn. repeat (constructor; [cbn; intuition discriminate|]). constructor. }
  split; [exact N|]. split; [|reflexivity].
  exact (proj1 (evaluate_signal_chains_idempotent Fixtures.frame12 [1; 2] 2 N)).
Defined.

(** On a frame that is not in ascending order the detection is not
    idempotent: [create_backtest_signal] does not sort its window. *)
Example detect_chains_unsorted :
  map chain_id
    (detect_chains (fun r => r) [Fixtures.mk_row 10 1 1 0; Fixtures.mk_row 1 1 1 0])
  = [Some 1; Some 1] /\
  map chain_id
    (detect_chains (fun r => r)
       (unlabel (detect_chains (fun r => r)
                   [Fixtures.mk_row 10 1 1 0; Fixtures.mk_row 1 1 1 0])))
  = [Some 1; Some 2].
Proof. split; reflexivity. Qed.

(** *** The backtest flag *)

(** C2, as stated, fails: in a window of thirty days whose only chain is
    a "down" chain on days 8 to 10, with [days_strategy = 5], the flag is
    1 on day 10 and 0 on days 14 and 15. *)
Lemma backtest_flag_window30 :
  Fixtures.window30 <> [] /\
  backtest_entries Fixtures.window30 = [(10, true)] /\
  create_backtest_signal_flag Fixtures.window30 5 30
  = [0; 0; 0; 0; 0; 0; 0; 0; 0; 1; 1; 1; 1; 0; 0; 0; 0; 0; 0; 0;
     0; 0; 0; 0; 0; 0; 0; 0; 0; 0] /\
  nth 9 (create_backtest_signal_flag Fixtures.window30 5 30) 0 = 1 /\
  nth 13 (create_backtest_signal_flag Fixtures.window30 5 30) 0 = 0 /\
  nth 14 (create_backtest_signal_flag Fixtures.window30 5 30) 0 = 0.
Proof. split; [discriminate|]. repeat split; vm_compute; reflexivity. Qed.

(** C2, amended. In a tail window of thirty days, numbered 1 to 30, whose
    only row that ends a "down" chain is day 10, the rank of a day from
    day 10 on counts the days since the entry, day 10 being 1, and the
    flag is 1 exactly while this rank is strictly below [days_strategy];
    the days before the entry have no rank and the flag 0. With
    [days_strategy = 5] the flag is 1 exactly on days 10 to 13. *)
Theorem backtest_flag_single_chain (self_df : list signal_row) (days_strategy : Z) :
  map (fun r => Date (prices r)) self_df = map Z.of_nat (seq 1 30) ->
  backtest_entries self_df = [(10, true)] ->
  create_backtest_signal_flag self_df days_strategy 30
  = map (fun d => if (10 <=? d) && (d - 9 <? days_strategy) then 1 else 0)
        (map Z.of_nat (seq 1 30)) /\
  create_backtest_signal_flag self_df 5 30
  = map (fun d => if (10 <=? d) && (d <=? 13) then 1 else 0)
        (map Z.of_nat (seq 1 30)).
Proof.
  intros Hd He.
  assert (L : length self_df = 30%nat).
  { apply (f_equal (@length Z)) in Hd. rewrite !length_map, length_seq in Hd. exact Hd. }
  assert (Hw : Pd.iloc_from (- 30) self_df = self_df).
  { unfold Pd.iloc_from, Pd.py_index. rewrite L. reflexivity. }
  unfold create_backtest_signal_flag. change (- (30)) with (- 30).
  rewrite Hw, He, Hd. split.
  - vm_compute. reflexivity.
  - vm_compute. reflexivity.
Qed.

Lemma backtest_flag_single_chain_witness :
  map (fun r => Date (prices r)) Fixtures.window30 = map Z.of_nat (seq 1 30) /\
  backtest_entries Fixtures.window30 = [(10, true)] /\
  create_backtest_signal_flag Fixtures.window30 5 30
  = map (fun d => if (10 <=? d) && (d - 9 <? 5) then 1 else 0)
        (map Z.of_nat (seq 1 30)).
Proof.
  split; [reflexivity|]. split; [reflexivity|].
  exact (proj1 (backtest_flag_single_chain Fixtures.window30 5 eq_refl eq_refl)).
Defined.

(** * Further properties of the code *)

(** ** Signals of [produce_zscore] *)

Module FloatOrder.
Import Np.

Lemma mul_nan_l (x y : float) : isnan x = true -> isnan (x * y)%float = true.
Proof. rewrite !NpFacts.isnan_Prim2SF, mul_spec. now intros ->. Qed.

Lemma sub_nan_l (x y : float) : isnan x = true -> isnan (x - y)%float = true.
Proof. rewrite !NpFacts.isnan_Prim2SF, sub_spec. now intros ->. Qed.

Lemma leb_nan_l (x y : float) : isnan x = true -> (x <=? y)%float = false.
Proof. rewrite NpFacts.isnan_Prim2SF, leb_spec. now intros ->. Qed.

Lemma leb_nan_r (x y : float) : isnan y = true -> (x <=? y)%float = false.
Proof.
  rewrite NpFacts.isnan_Prim2SF, leb_spec. intros ->.
  unfold SFleb, SFcompare. now destruct (Prim2SF x) as [[]|[]| |].
Qed.

(** No value is at least a positive threshold and at most its opposite. *)
Lemma leb_positive_band (thr z : float) :
  (0 <? thr)%float = true -> (thr <=? z)%float = true ->
  (z <=? - thr)%float = false.
Proof.
  rewrite ltb_spec, !leb_spec, opp_spec.
  replace (Prim2SF 0) with (S754_zero false) by reflexivity.
  destruct (Prim2SF thr) as [st|st| |st mt et];
    destruct (Prim2SF z) as [sz|sz| |sz mz ez];
    try destruct st; try destruct sz; cbn; try discriminate; try reflexivity.
Qed.

End FloatOrder.

(** X1. With a positive threshold no date carries both signals, whatever
    its z-score; each flag is 0 or 1; a date whose z-score is missing
    carries none. *)
Theorem produce_zscore_signals_exclusive
  (roll_mean roll_std : nat -> list float -> float)
  (adfuller : list float -> result float)
  (df : list price_row) (window : nat) (z_threshold : float) (out : list signal_row) :
  (0 <? z_threshold)%float = true ->
  produce_zscore roll_mean roll_std adfuller df window z_threshold = Ok out ->
  forall r, In r out ->
    (up_pair_signal r = 0 \/ up_pair_signal r = 1) /\
    (low_pair_signal r = 0 \/ low_pair_signal r = 1) /\
    ~ (up_pair_signal r = 1 /\ low_pair_signal r = 1) /\
    (Np.isnan (z_score r) = true -> up_pair_signal r = 0 /\ low_pair_signal r = 0).
Proof.
  intros Hthr H r Hr. unfold produce_zscore in H.
  destruct (adfuller _); cbn in H; [|discriminate]. injection H as <-.
  apply in_map_iff in Hr as [[p z] [<- _]]. cbn.
  unfold up_signal_of, low_signal_of.
  split; [destruct (z_threshold <=? z)%float; auto|].
  split; [destruct (z <=? - z_threshold)%float; auto|].
  split.
  - destruct (z_threshold <=? z)%float eqn:E; [|intros [? _]; discriminate].
    rewrite (FloatOrder.leb_positive_band _ _ Hthr E). intros [_ ?]; discriminate.
  - intros Hn. rewrite (FloatOrder.leb_nan_r _ _ Hn), (FloatOrder.leb_nan_l _ _ Hn).
    split; reflexivity.
Qed.

Lemma nth_error_combine {A B : Type} (la : list A) (lb : list B) (i : nat)
  (a : A) (b : B) :
  nth_error (combine la lb) i = Some (a, b) ->
  nth_error la i = Some a /\ nth_error lb i = Some b.
Proof.
  revert lb i. induction la as [|x la IH]; intros [|y lb] [|i]; cbn;
    try discriminate.
  - intros [= -> ->]. auto.
  - apply IH.
Qed.

Lemma nth_error_map_inv {A B : Type} (f : A -> B) (l : list A) (i : nat) (b : B) :
  nth_error (map f l) i = Some b -> exists a, nth_error l i = Some a /\ f a = b.
Proof.
  rewrite nth_error_map. destruct (nth_error l i) as [a|]; cbn; [|discriminate].
  intros [= <-]. eauto.
Qed.

(** X2. The first [window - 1] rows of a completed [produce_zscore] have
    a missing z-score and neither signal, for every threshold: they never
    enter a chain. *)
Theorem produce_zscore_head_no_signal
  (roll_mean roll_std : nat -> list float -> float)
  (adfuller : list float -> result float)
  (df : list price_row) (window : nat) (z_threshold : float) (out : list signal_row) :
  produce_zscore roll_mean roll_std adfuller df window z_threshold = Ok out ->
  length out = length df /\
  forall i r, nth_error out i = Some r -> (i + 1 < window)%nat ->
    Np.isnan (z_score r) = true /\ up_pair_signal r = 0 /\ low_pair_signal r = 0 /\
    signal_type_of (fun x => x) r = None.
Proof.
  intros H. unfold produce_zscore in H.
  destruct (adfuller _); cbn in H; [|discriminate]. injection H as <-.
  split.
  - rewrite length_map, length_combine, length_z_score_column, length_map. lia.
  - intros i r Hr Hw.
    apply nth_error_map_inv in Hr as [[p z] [Hr <-]].
    apply nth_error_combine in Hr as [Hp Hz].
    assert (Hi : (i < length (map spread df))%nat).
    { rewrite <- (length_z_score_column roll_mean roll_std window).
      apply nth_error_Some. congruence. }
    assert (Hn : Np.isnan z = true).
    { apply (nth_error_nth _ _ Np.nan) in Hz. rewrite <- Hz.
      rewrite nth_z_score_column, nth_zscore_numerator by assumption.
      apply NpFacts.div_nan_l, NpFacts.sub_nan_r.
      unfold rolling_mean. rewrite rolling_head by assumption. reflexivity. }
    cbn. unfold signal_type_of, up_signal_of, low_signal_of. cbn.
    rewrite (FloatOrder.leb_nan_r _ _ Hn), (FloatOrder.leb_nan_l _ _ Hn).
    repeat split; auto.
Qed.

Lemma produce_zscore_head_no_signal_witness :
  exists out,
    produce_zscore Fixtures.two_pass_mean Fixtures.two_pass_std
      (Fixtures.adfuller_const 0.01) Samples.prices6 3 1 = Ok out /\
    map up_pair_signal out = [0; 0; 0; 0; 1; 0] /\
    map low_pair_signal out = [0; 0; 0; 0; 0; 1] /\
    length out = length Samples.prices6.
Proof.
  eexists. split; [vm_compute; reflexivity|].
  split; [vm_compute; reflexivity|]. split; [vm_compute; reflexivity|].
  refine (proj1 (produce_zscore_head_no_signal Fixtures.two_pass_mean
                   Fixtures.two_pass_std (Fixtures.adfuller_const 0.01)
                   Samples.prices6 3 1 _ _)).
  vm_compute. reflexivity.
Defined.

Lemma produce_zscore_signals_exclusive_witness :
  exists out,
    (0 <? 1)%float = true /\
    produce_zscore Fixtures.two_pass_mean Fixtures.two_pass_std
      (Fixtures.adfuller_const 0.01) Samples.prices6 3 1 = Ok out /\
    forall r, In r out ->
      (up_pair_signal r = 0 \/ up_pair_signal r = 1) /\
      (low_pair_signal r = 0 \/ low_pair_signal r = 1) /\
      ~ (up_pair_signal r = 1 /\ low_pair_signal r = 1) /\
      (Np.isnan (z_score r) = true -> up_pair_signal r = 0 /\ low_pair_signal r = 0).
Proof.
  eexists. split; [reflexivity|]. split; [vm_compute; reflexivity|].
  apply (produce_zscore_signals_exclusive Fixtures.two_pass_mean
           Fixtures.two_pass_std (Fixtures.adfuller_const 0.01)
           Samples.prices6 3 1).
  - reflexivity.
  - vm_compute. reflexivity.
Defined.

(** With a threshold of zero a z-score of zero carries both signals, and
    [signal_type] then reads "up". *)
Example signals_zero_threshold :
  up_signal_of 0 0 = 1 /\ low_signal_of 0 0 = 1 /\
  signal_type_of (fun x => x) (Fixtures.mk_row 1 100 1 1) = Some up.
Proof. repeat split; reflexivity. Qed.

(** X3. The frame [pair_finder] builds does not depend on the outcome of
    the cointegration test: for two tests that both return, whatever
    statistic, p-value and critical values they report, [__init__] gives
    the same result; a pair that is not cointegrated gets its frame and
    its spread like any other. *)
Theorem pair_finder_init_ignores_test
  (coint coint' : list float -> list float ->
                  result (float * float * (float * float * float)))
  (ols : list float -> list float -> result float)
  (raw_data : list (Z * (float * float))) :
  raises (coint (map (fun r => fst (snd r)) raw_data)
                (map (fun r => snd (snd r)) raw_data)) = false ->
  raises (coint' (map (fun r => fst (snd r)) raw_data)
                 (map (fun r => snd (snd r)) raw_data)) = false ->
  pair_finder_init coint ols raw_data = pair_finder_init coint' ols raw_data /\
  (forall h,
     ols (map (fun r => fst (snd r)) raw_data)
         (map (fun r => snd (snd r)) raw_data) = Ok h ->
     pair_finder_init coint ols raw_data
     = Ok (map (fun r =>
                  {| Date := fst r; asset_1 := fst (snd r); asset_2 := snd (snd r);
                     spread := (fst (snd r) - h * snd (snd r))%float |}) raw_data)).
Proof.
  intros H H'. unfold pair_finder_init, calculate_cointegration.
  destruct (coint _ _) as [[[t p] [[c1 c5] c10]]|]; [|discriminate].
  destruct (coint' _ _) as [[[t' p'] [[c1' c5'] c10']]|]; [|discriminate].
  cbn. split.
  - destruct (ols _ _); reflexivity.
  - intros h ->. cbn. f_equal. apply map_ext. intros [d [a1 a2]]. reflexivity.
Qed.

Lemma pair_finder_init_ignores_test_witness :
  raises (Fixtures.coint_const (-4) 0.01 (-3.9) (-3.34) (-3.05)
            (map (fun r => fst (snd r)) Samples.raw3)
            (map (fun r => snd (snd r)) Samples.raw3)) = false /\
  raises (Fixtures.coint_const (-1) 0.6 (-3.9) (-3.34) (-3.05)
            (map (fun r => fst (snd r)) Samples.raw3)
            (map (fun r => snd (snd r)) Samples.raw3)) = false /\
  pair_finder_init (Fixtures.coint_const (-4) 0.01 (-3.9) (-3.34) (-3.05))
    (Fixtures.ols_const 2) Samples.raw3
  = pair_finder_init (Fixtures.coint_const (-1) 0.6 (-3.9) (-3.34) (-3.05))
      (Fixtures.ols_const 2) Samples.raw3.
Proof.
  split; [reflexivity|]. split; [reflexivity|].
  exact (proj1 (pair_finder_init_ignores_test
                  (Fixtures.coint_const (-4) 0.01 (-3.9) (-3.34) (-3.05))
                  (Fixtures.coint_const (-1) 0.6 (-3.9) (-3.34) (-3.05))
                  (Fixtures.ols_const 2) Samples.raw3 eq_refl eq_refl)).
Defined.

(** ** The windows of [evaluate_signal] and [create_backtest_signal] *)

Lemma ascending_app_lt (l1 l2 : list Z) :
  StronglySorted Z.lt (l1 ++ l2) ->
  forall a b, In a l1 -> In b l2 -> a < b.
Proof.
  induction l1 as [|x l1 IH]; cbn; intros Hs a b Ha Hb; [easy|].
  apply StronglySorted_inv in Hs as [Hs F].
  destruct Ha as [<-|Ha].
  - rewrite Forall_forall in F. apply F, in_or_app. now right.
  - now apply IH.
Qed.

Lemma sort_values_rows_ascending (self_df : list signal_row) :
  StronglySorted Z.lt (map (fun r => Date (prices r)) self_df) ->
  map snd (Pd.sort_values true (map (fun r => (Date (prices r), r)) self_df))
  = self_df.
Proof.
  intros Hs. rewrite PdFacts.sort_values_ascending.
  - rewrite map_map. cbn. apply map_id.
  - rewrite map_map. exact Hs.
Qed.

(** X6. For a frame in ascending order of date and every [test_size], the
    rows [evaluate_signal] validates on and the rows
    [create_backtest_signal] replays are the two parts of one cut of the
    frame: together they are the whole frame, every validated date is
    before every replayed date, and every row of the labelled frame of
    [evaluate_signal] comes from the first part. *)
Theorem windows_partition (self_df : list signal_row) (days_list : list Z)
  (test_size : Z) :
  StronglySorted Z.lt (map (fun r => Date (prices r)) self_df) ->
  evaluate_signal_window self_df test_size
    ++ create_backtest_signal_window self_df test_size = self_df /\
  (forall a b, In a (evaluate_signal_window self_df test_size) ->
               In b (create_backtest_signal_window self_df test_size) ->
               Date (prices a) < Date (prices b)) /\
  (forall c, In c (evaluate_signal_frame self_df days_list test_size) ->
             In (fst (row c)) (evaluate_signal_window self_df test_size)).
Proof.
  intros Hs.
  assert (P : evaluate_signal_window self_df test_size
                ++ create_backtest_signal_window self_df test_size = self_df).
  { unfold evaluate_signal_window, create_backtest_signal_window.
    rewrite sort_values_rows_ascending by assumption.
    unfold Pd.iloc_to, Pd.iloc_from. apply firstn_skipn. }
  split; [exact P|]. split.
  - intros a b Ha Hb. rewrite <- P, map_app in Hs.
    apply (ascending_app_lt _ _ Hs);
      now apply (in_map (fun r => Date (prices r))).
  - intros c Hc.
    assert (Hr : In (row c) (unlabel (evaluate_signal_frame self_df days_list test_size)))
      by now apply in_map.
    unfold evaluate_signal_frame in Hr.
    rewrite unlabel_detect_chains in Hr
      by (apply evaluate_rows_ascending; now apply PdFacts.ascending_NoDup).
    apply in_map_iff in Hr as [[e s] [E He]]. cbn in E. subst e.
    apply signal_rows_In in He as [He _].
    apply in_map_iff in He as [[i r] [E Hi]]. rewrite <- E. cbn.
    apply in_combine_r in Hi. exact Hi.
Qed.

Lemma windows_partition_witness :
  StronglySorted Z.lt (map (fun r => Date (prices r)) Fixtures.frame12) /\
  map (fun r => Date (prices r)) (evaluate_signal_window Fixtures.frame12 2)
  = [1; 2; 3; 4; 5; 6; 7; 8; 9; 10] /\
  map (fun r => Date (prices r)) (create_backtest_signal_window Fixtures.frame12 2)
  = [11; 12] /\
  evaluate_signal_window Fixtures.frame12 2
    ++ create_backtest_signal_window Fixtures.frame12 2 = Fixtures.frame12.
Proof.
  assert (Hs : StronglySorted Z.lt (map (fun r => Date (prices r)) Fixtures.frame12)).
  { cbn. repeat (constructor; [|repeat (constructor; [lia|]); constructor]).
    constructor. }
  split; [exact Hs|]. split; [reflexivity|]. split; [reflexivity|].
  exact (proj1 (windows_partition Fixtures.frame12 [1; 2] 2 Hs)).
Defined.

(** A horizon with a NaN p-value makes a completed run reject. *)
Lemma evaluate_signal_nan_horizon
  (ttest : list float -> list float -> float)
  (df : list signal_row) (days : list Z) (test : Z) (thr : float)
  (r : evaluation) (d : Z) :
  evaluate_signal ttest df days test false thr = Ok r ->
  In d days ->
  Np.isnan (ttest (sample (df_melt r) d up) (sample (df_melt r) d down)) = true ->
  null_ho_eval r = false /\ mean_median_return r = Np.nan.
Proof.
  intros H Hin Hnan.
  apply evaluate_signal_Ok in H as (_ & _ & _ & _ & Hp & _ & Hn & Hr).
  assert (Hacc : null_ho_eval r = false).
  { rewrite Hn. apply NpFacts.ltb_nan_l, NpFacts.mean_nan, existsb_exists.
    exists (ttest (sample (df_melt r) d up) (sample (df_melt r) d down)).
    split; [|exact Hnan]. rewrite Hp.
    now apply (in_map (fun d => ttest (sample (df_melt r) d up) (sample (df_melt r) d down))). }
  split; [exact Hacc|]. rewrite Hr, Hacc. reflexivity.
Qed.

(** X7. With [test_size = 0] the slice [iloc[0:-0]] is empty: the
    labelled frame of [evaluate_signal] has no row, whatever the frame,
    while [create_backtest_signal] replays the whole frame; a completed
    run then rejects, the t-test of empty samples being NaN. *)
Theorem evaluate_signal_test_size_zero
  (ttest : list float -> list float -> float)
  (df : list signal_row) (days : list Z) (thr : float) (r : evaluation) :
  (forall a b, a = [] \/ b = [] -> Np.isnan (ttest a b) = true) ->
  evaluate_signal ttest df days 0 false thr = Ok r ->
  evaluate_signal_window df 0 = [] /\
  create_backtest_signal_window df 0 = df /\
  df_signal r = [] /\ df_melt r = [] /\
  null_ho_eval r = false /\ mean_median_return r = Np.nan.
Proof.
  intros Hempty H.
  assert (Hf : evaluate_signal_frame df days 0 = []) by reflexivity.
  pose proof (evaluate_signal_Ok ttest df days 0 false thr r H)
    as (_ & Hd & Hs & Hm & _).
  rewrite Hf in Hs.
  assert (Hm' : df_melt r = []).
  { rewrite Hm, Hs. unfold melt. cbn [filter].
    induction (combine (seq 0 (length days)) days) as [|[k d] l IH]; [reflexivity|].
    cbn. exact IH. }
  split; [reflexivity|]. split; [reflexivity|].
  split; [exact Hs|]. split; [exact Hm'|].
  destruct days as [|d days]; [congruence|].
  apply (evaluate_signal_nan_horizon ttest df (d :: days) 0 thr r d H);
    [now left|].
  apply Hempty. left. rewrite Hm'. reflexivity.
Qed.

Lemma evaluate_signal_test_size_zero_witness :
  exists r,
    (forall a b, a = [] \/ b = [] -> Np.isnan (Fixtures.ttest_const 0.01 a b) = true) /\
    evaluate_signal (Fixtures.ttest_const 0.01) Fixtures.frame12 [1; 2] 0 false 0.05
    = Ok r /\
    df_signal r = [] /\ null_ho_eval r = false.
Proof.
  assert (E : forall a b, a = [] \/ b = [] ->
                          Np.isnan (Fixtures.ttest_const 0.01 a b) = true).
  { intros a b [-> | ->]; [reflexivity | destruct a; reflexivity]. }
  eexists. split; [exact E|]. split; [vm_compute; reflexivity|].
  pose proof (evaluate_signal_test_size_zero (Fixtures.ttest_const 0.01)
                Fixtures.frame12 [1; 2] 0.05 _ E eq_refl) as (_ & _ & H1 & _ & H2 & _).
  split; [exact H1 | exact H2].
Defined.

(** ** Forward returns *)

Lemma nth_repeat_None {V : Type} (k j : nat) :
  nth j (repeat (@None V) k) None = None.
Proof.
  revert j. induction k as [|k IH]; intros [|j]; cbn; auto.
Qed.

Lemma nth_shift_back_tail {V : Type} (days : Z) (xs : list V) (i : nat) :
  0 < days -> (i < length xs)%nat -> (length xs <= i + Z.to_nat days)%nat ->
  nth i (Pd.shift (- days) xs) None = None.
Proof.
  intros Hd Hi Hn. unfold Pd.shift.
  destruct (Z.leb_spec 0 (- days)); [lia|].
  rewrite Z.opp_involutive.
  rewrite app_nth2 by (rewrite length_map, length_skipn; lia).
  apply nth_repeat_None.
Qed.

Lemma nth_shift_float (periods : Z) (xs : list float) (i : nat) :
  nth i (Pd.shift_float periods xs) Np.nan
  = match nth i (Pd.shift periods xs) None with Some v => v | None => Np.nan end.
Proof.
  unfold Pd.shift_float.
  exact (map_nth (fun o : option float => match o with Some v => v | None => Np.nan end)
                 (Pd.shift periods xs) None i).
Qed.

(** X8. The column [return_{days}d] is as long as the frame, and for a
    positive horizon its last [days] values are missing: the forward
    return of a row is never read beyond the in-sample window. *)
Theorem return_column_tail (days : Z) (asset : list float) :
  0 < days ->
  length (return_column days asset) = length asset /\
  forall i, (i < length asset)%nat -> (length asset <= i + Z.to_nat days)%nat ->
    Np.isnan (nth i (return_column days asset) Np.nan) = true.
Proof.
  intros Hd. split.
  - unfold return_column, Pd.shift_float.
    rewrite length_map, length_combine, length_map, length_shift. lia.
  - intros i Hi Hn. unfold return_column.
    rewrite (nth_map_combine _ _ _ _ Np.nan Np.nan)
      by (unfold Pd.shift_float; rewrite ?length_map, ?length_shift; auto).
    rewrite nth_shift_float, nth_shift_back_tail by assumption.
    apply FloatOrder.mul_nan_l, FloatOrder.sub_nan_l, NpFacts.div_nan_l.
    reflexivity.
Qed.

Lemma return_column_tail_witness :
  0 < 2 /\
  map Np.isnan (return_column 2 [100; 101; 102; 104; 103]%float)
  = [false; false; false; true; true] /\
  length (return_column 2 [100; 101; 102; 104; 103]%float) = 5%nat.
Proof.
  split; [lia|]. split; [vm_compute; reflexivity|].
  exact (proj1 (return_column_tail 2 [100; 101; 102; 104; 103]%float eq_refl)).
Defined.

(** ** Ranks and marks of the chains *)

Lemma nth_counts_from {K : Type} (eqb : K -> K -> bool) (seen : list K)
  (keys : list (option K)) (i : nat) (k : K) :
  nth_error keys i = Some (Some k) ->
  nth i (Pd.counts_from eqb seen keys) None
  = Some (Z.of_nat (length (filter (eqb k) (present (firstn i keys)))
                    + length (filter (eqb k) seen))).
Proof.
  revert seen i. induction keys as [|x r IH]; intros seen [|j] H; cbn in H;
    try discriminate.
  - injection H as ->. reflexivity.
  - destruct x as [k'|]; cbn [Pd.counts_from nth firstn present].
    + rewrite (IH (k' :: seen) j H). cbn [filter].
      destruct (eqb k k'); cbn [length]; do 2 f_equal; lia.
    + apply (IH seen j H).
Qed.

Lemma present_app {K : Type} (l1 l2 : list (option K)) :
  present (l1 ++ l2) = present l1 ++ present l2.
Proof.
  induction l1 as [|[k|] l1 IH]; cbn; [reflexivity | now rewrite IH | exact IH].
Qed.

Lemma present_rev {K : Type} (l : list (option K)) :
  present (rev l) = rev (present l).
Proof.
  induction l as [|[k|] l IH]; cbn; [reflexivity | |].
  - rewrite present_app, IH. reflexivity.
  - rewrite present_app, IH. cbn. now rewrite app_nil_r.
Qed.

Lemma In_present {K : Type} (l : list (option K)) (x : K) :
  In x (present l) <-> In (Some x) l.
Proof.
  induction l as [|[k|] l IH]; cbn; [tauto | |].
  - rewrite IH. split; intros [H|H]; auto; left; congruence.
  - rewrite IH. split; [auto | intros [H|H]; [discriminate | auto]].
Qed.

Lemma filter_length_0 {K : Type} (f : K -> bool) (l : list K) :
  length (filter f l) = 0%nat <-> forall x, In x l -> f x = false.
Proof.
  induction l as [|a l IH]; cbn; [tauto|].
  destruct (f a) eqn:E; cbn.
  - split; [discriminate|]. intros H. specialize (H a (or_introl eq_refl)). congruence.
  - rewrite IH. split.
    + intros H x [<-|Hx]; auto.
    + intros H x Hx. apply H. now right.
Qed.

Lemma is_one_count (m : nat) :
  is_one (Some (1 + Z.of_nat m)) = (m =? 0)%nat.
Proof.
  cbn [is_one]. destruct m as [|m]; [reflexivity|].
  cbn [Nat.eqb]. apply Z.eqb_neq. lia.
Qed.

(** The rank of a row of an ascending frame counts the earlier rows of
    its chain, and the inverse rank the later ones. *)
Lemma rank_ascending_nth (ds : list Z) (cid : list (option Z)) (i : nat) (k : Z) :
  StronglySorted Z.lt ds -> length ds = length cid ->
  nth_error cid i = Some (Some k) ->
  nth i (rank_column true ds cid) None
  = Some (1 + Z.of_nat (length (filter (Z.eqb k) (present (firstn i cid))))).
Proof.
  intros Hs L Hk. unfold rank_column.
  rewrite PdFacts.cumcount_ascending by assumption.
  change (@None Z) with (option_map (Z.add 1) (@None Z)) at 1.
  rewrite map_nth, (nth_counts_from _ _ _ _ k Hk).
  cbn [option_map filter length]. rewrite Nat.add_0_r. reflexivity.
Qed.

Lemma rank_descending_nth (ds : list Z) (cid : list (option Z)) (i : nat) (k : Z) :
  StronglySorted Z.lt ds -> length ds = length cid ->
  nth_error cid i = Some (Some k) ->
  nth i (rank_column false ds cid) None
  = Some (1 + Z.of_nat (length (filter (Z.eqb k) (present (skipn (S i) cid))))).
Proof.
  intros Hs L Hk. unfold rank_column.
  rewrite PdFacts.cumcount_descending by assumption.
  assert (Hi : (i < length cid)%nat) by (apply nth_error_Some; congruence).
  rewrite rev_nth
    by (rewrite length_map, PdFacts.length_counts_from, length_rev; exact Hi).
  rewrite length_map, PdFacts.length_counts_from, length_rev.
  change (@None Z) with (option_map (Z.add 1) (@None Z)) at 1.
  rewrite map_nth.
  assert (Hr : nth_error (rev cid) (length cid - S i) = Some (Some k)).
  { rewrite nth_error_rev.
    replace (length cid - S i <? length cid)%nat with true
      by (symmetry; apply Nat.ltb_lt; lia).
    replace (length cid - S (length cid - S i))%nat with i by lia. exact Hk. }
  rewrite (nth_counts_from _ _ _ _ k Hr).
  cbn [option_map filter length]. rewrite Nat.add_0_r.
  rewrite firstn_rev. replace (length cid - (length cid - S i))%nat with (S i) by lia.
  rewrite present_rev, filter_rev, length_rev. reflexivity.
Qed.

Lemma count_occ_firstn_le (l : list Z) (a b : nat) (x : Z) :
  (a <= b)%nat ->
  (count_occ Z.eq_dec (firstn a l) x <= count_occ Z.eq_dec (firstn b l) x)%nat.
Proof.
  revert a b. induction l as [|y l IH]; intros a b H.
  - rewrite !firstn_nil. lia.
  - destruct a as [|a]; [cbn; lia|]. destruct b as [|b]; [lia|].
    cbn [firstn count_occ]. specialize (IH a b ltac:(lia)).
    destruct (Z.eq_dec y x); lia.
Qed.

(** On ascending dates, the row of rank 1 of a chain is the row with a
    break mark, and the row of inverse rank 1 is the row before the next
    break mark, or the last row. *)
Lemma rank_one_break (ds : list Z) (i : nat) :
  StronglySorted Z.lt ds -> (i < length ds)%nat ->
  is_one (nth i (rank_column true ds (chain_id_column ds)) None)
  = (nth i (break_column ds) 0 =? 1).
Proof.
  intros Hs Hi.
  pose proof (nth_chain_id_column ds i Hs Hi) as Hk.
  pose proof (length_chain_id_column ds) as L.
  assert (He : nth_error (chain_id_column ds) i
               = Some (Some (Z.of_nat (count_occ Z.eq_dec
                                         (firstn (S i) (break_column ds)) 1)))).
  { rewrite (nth_error_nth' _ None) by lia. now rewrite Hk. }
  rewrite (rank_ascending_nth ds _ i _ Hs (eq_sym L) He), is_one_count.
  destruct i as [|j].
  - cbn [firstn present filter length Nat.eqb].
    rewrite (nth_break_column ds 0) by assumption. reflexivity.
  - destruct (Z.eqb_spec (nth (S j) (break_column ds) 0) 1) as [Hb|Hb].
    + apply Nat.eqb_eq, filter_length_0. intros x Hx.
      apply In_present, (In_firstn (S j)) || idtac.
      apply In_present in Hx. apply In_nth_error in Hx as [q Hq].
      rewrite nth_error_firstn in Hq.
      destruct (Nat.ltb_spec q (S j)) as [Hlt|]; [|discriminate].
      rewrite (nth_error_nth' _ None) in Hq by lia.
      rewrite nth_chain_id_column in Hq by (auto; lia).
      injection Hq as <-. apply Z.eqb_neq.
      rewrite (count_occ_firstn_S _ (S j)) by (rewrite length_break_column; lia).
      rewrite Hb. destruct (Z.eq_dec 1 1) as [_|N]; [|congruence].
      pose proof (count_occ_firstn_le (break_column ds) (S q) (S j) 1 ltac:(lia)).
      change (match break_column ds with [] => [] | a :: l => a :: firstn q l end)
        with (firstn (S q) (break_column ds)).
      lia.
    + apply Nat.eqb_neq. intros H0. rewrite filter_length_0 in H0.
      specialize (H0 (Z.of_nat (count_occ Z.eq_dec (firstn (S j) (break_column ds)) 1))).
      rewrite (count_occ_firstn_S _ (S j)) in H0 at 1
        by (rewrite length_break_column; lia).
      destruct (Z.eq_dec (nth (S j) (break_column ds) 0) 1) as [E|_]; [congruence|].
      rewrite Nat.add_0_r, Z.eqb_refl in H0.
      assert (t : true = false); [|discriminate]. apply H0.
      apply In_present. apply (nth_error_In _ j).
      rewrite nth_error_firstn.
      replace (j <? S j)%nat with true by (symmetry; apply Nat.ltb_lt; lia).
      rewrite (nth_error_nth' _ None) by lia.
      now rewrite nth_chain_id_column by (auto; lia).
Qed.

Lemma inverse_rank_one_break (ds : list Z) (i : nat) :
  StronglySorted Z.lt ds -> (i < length ds)%nat ->
  is_one (nth i (rank_column false ds (chain_id_column ds)) None)
  = (S i =? length ds)%nat || (nth (S i) (break_column ds) 0 =? 1).
Proof.
  intros Hs Hi.
  pose proof (nth_chain_id_column ds i Hs Hi) as Hk.
  pose proof (length_chain_id_column ds) as L.
  assert (He : nth_error (chain_id_column ds) i
               = Some (Some (Z.of_nat (count_occ Z.eq_dec
                                         (firstn (S i) (break_column ds)) 1)))).
  { rewrite (nth_error_nth' _ None) by lia. now rewrite Hk. }
  rewrite (rank_descending_nth ds _ i _ Hs (eq_sym L) He), is_one_count.
  destruct (Nat.eqb_spec (S i) (length ds)) as [En|En].
  - rewrite skipn_all2 by lia. reflexivity.
  - cbn [orb].
    destruct (Z.eqb_spec (nth (S i) (break_column ds) 0) 1) as [Hb|Hb].
    + apply Nat.eqb_eq, filter_length_0. intros x Hx.
      apply In_present in Hx. apply In_nth_error in Hx as [p Hp].
      rewrite nth_error_skipn in Hp.
      assert (Hq : (S i + p < length ds)%nat).
      { rewrite <- L. apply nth_error_Some. congruence. }
      rewrite (nth_error_nth' _ None) in Hp by lia.
      rewrite nth_chain_id_column in Hp by auto.
      assert (Ex : x = Z.of_nat (count_occ Z.eq_dec
                                   (firstn (S (S i + p)) (break_column ds)) 1))
        by congruence.
      rewrite Ex. apply Z.eqb_neq.
      pose proof (count_occ_firstn_le (break_column ds) (S (S i)) (S (S i + p)) 1
                    ltac:(lia)) as Hle.
      rewrite (count_occ_firstn_S _ (S i)) in Hle by (rewrite length_break_column; lia).
      rewrite Hb in Hle. destruct (Z.eq_dec 1 1) as [_|N]; [|congruence].
      lia.
    + apply Nat.eqb_neq. intros H0. rewrite filter_length_0 in H0.
      specialize (H0 (Z.of_nat (count_occ Z.eq_dec (firstn (S i) (break_column ds)) 1))).
      rewrite Z.eqb_refl in H0.
      assert (t : true = false); [|discriminate]. apply H0.
      apply In_present. apply (nth_error_In _ 0).
      rewrite nth_error_skipn, Nat.add_0_r.
      rewrite (nth_error_nth' _ None) by lia.
      rewrite nth_chain_id_column by (auto; lia).
      rewrite (count_occ_firstn_S _ (S i)) by (rewrite length_break_column; lia).
      destruct (Z.eq_dec (nth (S i) (break_column ds) 0) 1) as [E|_]; [congruence|].
      now rewrite Nat.add_0_r.
Qed.

Lemma labelled_projections {A : Type} (sdf : list (A * signal))
  (cid rn inv : list (option Z)) :
  length sdf = length cid -> length cid = length rn -> length rn = length inv ->
  let out :=
    map (fun '((r, s), (c, (rn, inv))) =>
           {| row := r; signal_type := s; chain_id := c; internal_rn := rn;
              first_in_chain := is_one rn; last_in_chain := is_one inv |})
        (combine sdf (combine cid (combine rn inv))) in
  map row out = map fst sdf /\
  map signal_type out = map snd sdf /\
  map chain_id out = cid /\
  map internal_rn out = rn /\
  map first_in_chain out = map is_one rn /\
  map last_in_chain out = map is_one inv.
Proof.
  cbv zeta. revert cid rn inv.
  induction sdf as [|[r s] sdf IH]; intros [|c cid] [|x rn] [|y inv] L1 L2 L3;
    try discriminate; cbn.
  - repeat split.
  - injection L1 as L1. injection L2 as L2. injection L3 as L3.
    destruct (IH cid rn inv L1 L2 L3) as (H1 & H2 & H3 & H4 & H5 & H6).
    repeat split; f_equal; assumption.
Qed.

Lemma filter_same_chain {A : Type} (c : chain_row A) (k : Z) (l : list (chain_row A)) :
  chain_id c = Some k ->
  length (filter (Z.eqb k) (present (map chain_id l)))
  = length (filter (same_chain c) l).
Proof.
  intros Hk. induction l as [|a l IH]; [reflexivity|].
  cbn [map present filter]. unfold same_chain at 1. rewrite Hk.
  destruct (chain_id a) as [y|]; cbn [present filter]; [|exact IH].
  destruct (k =? y); cbn [length]; now rewrite IH.
Qed.

Lemma filter_length_existsb {K : Type} (f : K -> bool) (l : list K) :
  (length (filter f l) =? 0)%nat = negb (existsb f l).
Proof.
  induction l as [|a l IH]; cbn; [reflexivity|].
  destruct (f a); cbn; [reflexivity | exact IH].
Qed.

Section RankClaims.

Variable A : Type.
Variable base : A -> signal_row.

(** The columns of the labelled frame of an ascending frame. *)
Lemma detect_chains_columns (df : list A) :
  StronglySorted Z.lt (map (date_of base) df) ->
  let out := detect_chains base df in
  let Date_ := map (fun r => date_of base (fst r)) (signal_rows base df) in
  let cid := chain_id_column Date_ in
  length out = length Date_ /\
  map (fun c => date_of base (row c)) out = Date_ /\
  map signal_type out = map snd (signal_rows base df) /\
  map chain_id out = cid /\
  map internal_rn out = rank_column true Date_ cid /\
  map first_in_chain out = map is_one (rank_column true Date_ cid) /\
  map last_in_chain out = map is_one (rank_column false Date_ cid).
Proof.
  intros Hs. cbv zeta. rewrite (detect_chains_ascending A base df Hs). cbv zeta.
  set (sdf := signal_rows base df).
  set (Date_ := map _ sdf).
  set (cid := chain_id_column Date_).
  destruct (labelled_projections sdf cid (rank_column true Date_ cid)
              (rank_column false Date_ cid))
    as (H1 & H2 & H3 & H4 & H5 & H6).
  - subst cid Date_. now rewrite length_chain_id_column, length_map.
  - subst cid. now rewrite length_chain_id_column, length_rank_column.
  - now rewrite !length_rank_column.
  - split.
    + rewrite <- (length_map row), H1. subst Date_. now rewrite !length_map.
    + split; [|tauto].
      rewrite <- (map_map row (date_of base)), H1, map_map. reflexivity.
Qed.

(** X4. On a frame in ascending order of date every labelled row has a
    chain id; its [internal_rn] is 1 plus the number of earlier rows of
    its chain; [first_in_chain] marks exactly the row with no earlier row
    of its chain and [last_in_chain] exactly the row with no later one:
    each chain has one first and one last row. *)
Theorem chain_ranks (df : list A) :
  StronglySorted Z.lt (map (date_of base) df) ->
  let out := detect_chains base df in
  forall i c, nth_error out i = Some c ->
    same_chain c c = true /\
    internal_rn c
    = Some (1 + Z.of_nat (length (filter (same_chain c) (firstn i out)))) /\
    first_in_chain c = negb (existsb (same_chain c) (firstn i out)) /\
    last_in_chain c = negb (existsb (same_chain c) (skipn (S i) out)).
Proof.
  intros Hs out i c Hc.
  destruct (detect_chains_columns df Hs) as (L & _ & _ & Hcid & Hrn & Hf & Hl).
  fold out in L, Hcid, Hrn, Hf, Hl.
  set (Date_ := map (fun r => date_of base (fst r)) (signal_rows base df)) in *.
  assert (Ha : StronglySorted Z.lt Date_) by now apply signal_rows_ascending.
  assert (Hi : (i < length Date_)%nat).
  { rewrite <- L. apply nth_error_Some. congruence. }
  pose proof (nth_chain_id_column Date_ i Ha Hi) as Hk.
  set (k := Z.of_nat (count_occ Z.eq_dec (firstn (S i) (break_column Date_)) 1)) in *.
  assert (He : nth_error (chain_id_column Date_) i = Some (Some k)).
  { rewrite (nth_error_nth' _ None) by (rewrite length_chain_id_column; lia).
    now rewrite Hk. }
  assert (Hck : chain_id c = Some k).
  { pose proof (map_nth_error chain_id i out Hc) as E. rewrite Hcid, He in E.
    congruence. }
  pose proof (rank_ascending_nth Date_ _ i k Ha
                (eq_sym (length_chain_id_column Date_)) He) as Hr1.
  pose proof (rank_descending_nth Date_ _ i k Ha
                (eq_sym (length_chain_id_column Date_)) He) as Hr2.
  assert (E1 : firstn i (chain_id_column Date_) = map chain_id (firstn i out))
    by (rewrite <- Hcid; apply firstn_map).
  assert (E2 : skipn (S i) (chain_id_column Date_) = map chain_id (skipn (S i) out))
    by (rewrite <- Hcid; apply skipn_map).
  rewrite E1, (filter_same_chain c k _ Hck) in Hr1.
  rewrite E2, (filter_same_chain c k _ Hck) in Hr2.
  split; [unfold same_chain; rewrite Hck; apply Z.eqb_refl|].
  split; [|split].
  - pose proof (map_nth_error internal_rn i out Hc) as E. rewrite Hrn in E.
    apply (nth_error_nth _ _ None) in E. rewrite Hr1 in E. congruence.
  - pose proof (map_nth_error first_in_chain i out Hc) as E. rewrite Hf in E.
    apply nth_error_map_inv in E as [x [E <-]].
    apply (nth_error_nth _ _ None) in E. rewrite Hr1 in E. subst x.
    rewrite is_one_count. apply filter_length_existsb.
  - pose proof (map_nth_error last_in_chain i out Hc) as E. rewrite Hl in E.
    apply nth_error_map_inv in E as [x [E <-]].
    apply (nth_error_nth _ _ None) in E. rewrite Hr2 in E. subst x.
    rewrite is_one_count. apply filter_length_existsb.
Qed.

(** X5. On a frame in ascending order of date, [first_in_chain] holds on
    the first labelled row and on every row more than four days after the
    previous labelled row, and on no other; [last_in_chain] holds on the
    last labelled row and on every row more than four days before the
    next one, and on no other. A signal date with no other signal date
    within four days is a chain of its own, first and last at once. *)
Theorem chain_marks_by_gap (df : list A) :
  StronglySorted Z.lt (map (date_of base) df) ->
  let out := detect_chains base df in
  forall i c, nth_error out i = Some c ->
    (i = 0%nat -> first_in_chain c = true) /\
    (forall j p, i = S j -> nth_error out j = Some p ->
       first_in_chain c = (date_of base (row c) - date_of base (row p) >? 4)) /\
    (nth_error out (S i) = None -> last_in_chain c = true) /\
    (forall nx, nth_error out (S i) = Some nx ->
       last_in_chain c = (date_of base (row nx) - date_of base (row c) >? 4)).
Proof.
  intros Hs out i c Hc.
  destruct (detect_chains_columns df Hs) as (L & Hd & _ & _ & _ & Hf & Hl).
  fold out in L, Hd, Hf, Hl.
  set (Date_ := map (fun r => date_of base (fst r)) (signal_rows base df)) in *.
  assert (Ha : StronglySorted Z.lt Date_) by now apply signal_rows_ascending.
  assert (Hi : (i < length Date_)%nat).
  { rewrite <- L. apply nth_error_Some. congruence. }
  assert (Dn : forall q x, nth_error out q = Some x ->
                           nth q Date_ 0 = date_of base (row x)).
  { intros q x Hx. rewrite <- Hd.
    apply nth_error_nth. now apply (map_nth_error (fun c => date_of base (row c))). }
  assert (F : first_in_chain c = (nth i (break_column Date_) 0 =? 1)).
  { pose proof (map_nth_error first_in_chain i out Hc) as E. rewrite Hf in E.
    apply nth_error_map_inv in E as [x [E <-]].
    apply (nth_error_nth _ _ None) in E. subst x. now apply rank_one_break. }
  assert (G : last_in_chain c
              = (S i =? length Date_)%nat || (nth (S i) (break_column Date_) 0 =? 1)).
  { pose proof (map_nth_error last_in_chain i out Hc) as E. rewrite Hl in E.
    apply nth_error_map_inv in E as [x [E <-]].
    apply (nth_error_nth _ _ None) in E. subst x. now apply inverse_rank_one_break. }
  repeat split.
  - intros ->. rewrite F, (nth_break_column Date_ 0) by assumption. reflexivity.
  - intros j p -> Hp. rewrite F, (nth_break_column Date_ (S j)) by assumption.
    rewrite (Dn _ _ Hc), (Dn _ _ Hp).
    destruct (_ >? 4); reflexivity.
  - intros Hn. apply nth_error_None in Hn. rewrite G.
    replace (S i =? length Date_)%nat with true; [reflexivity|].
    symmetry. apply Nat.eqb_eq. lia.
  - intros nx Hx. rewrite G.
    assert (Hlt : (S i < length Date_)%nat).
    { rewrite <- L. apply nth_error_Some. congruence. }
    replace (S i =? length Date_)%nat with false
      by (symmetry; apply Nat.eqb_neq; lia).
    cbn [orb]. rewrite (nth_break_column Date_ (S i)) by assumption.
    rewrite (Dn _ _ Hc), (Dn _ _ Hx).
    destruct (_ >? 4); reflexivity.
Qed.

End RankClaims.

Lemma chains6_ascending :
  StronglySorted Z.lt (map (date_of (fun r => r)) Samples.chains6).
Proof.
  cbn. repeat (constructor; [|repeat (constructor; [lia|]); constructor]).
  constructor.
Defined.

Lemma chain_ranks_witness :
  StronglySorted Z.lt (map (date_of (fun r => r)) Samples.chains6) /\
  map (fun c => (chain_id c, internal_rn c, first_in_chain c, last_in_chain c))
      (detect_chains (fun r => r) Samples.chains6)
  = [ (Some 1, Some 1, true, false); (Some 1, Some 2, false, true);
      (Some 2, Some 1, true, false); (Some 2, Some 2, false, true);
      (Some 3, Some 1, true, true) ] /\
  forall i c, nth_error (detect_chains (fun r => r) Samples.chains6) i = Some c ->
    same_chain c c = true /\
    internal_rn c
    = Some (1 + Z.of_nat (length (filter (same_chain c)
                                    (firstn i (detect_chains (fun r => r)
                                                 Samples.chains6))))) /\
    first_in_chain c
    = negb (existsb (same_chain c)
              (firstn i (detect_chains (fun r => r) Samples.chains6))) /\
    last_in_chain c
    = negb (existsb (same_chain c)
              (skipn (S i) (detect_chains (fun r => r) Samples.chains6))).
Proof.
  split; [exact chains6_ascending|]. split; [reflexivity|].
  exact (chain_ranks signal_row (fun r => r) Samples.chains6 chains6_ascending).
Defined.

Lemma chain_marks_by_gap_witness :
  StronglySorted Z.lt (map (date_of (fun r => r)) Samples.chains6) /\
  forall i c, nth_error (detect_chains (fun r => r) Samples.chains6) i = Some c ->
    (i = 0%nat -> first_in_chain c = true) /\
    (forall j p, i = S j ->
       nth_error (detect_chains (fun r => r) Samples.chains6) j = Some p ->
       first_in_chain c
       = (date_of (fun r => r) (row c) - date_of (fun r => r) (row p) >? 4)) /\
    (nth_error (detect_chains (fun r => r) Samples.chains6) (S i) = None ->
     last_in_chain c = true) /\
    (forall nx,
       nth_error (detect_chains (fun r => r) Samples.chains6) (S i) = Some nx ->
       last_in_chain c
       = (date_of (fun r => r) (row nx) - date_of (fun r => r) (row c) >? 4)).
Proof.
  split; [exact chains6_ascending|].
  exact (chain_marks_by_gap signal_row (fun r => r) Samples.chains6 chains6_ascending).
Defined.

(** ** The flag of [create_backtest_signal] *)

Lemma lookup_add1 (l : Z) (s : Pd.Series (option Z)) :
  Pd.lookup l (Pd.add1 s) = option_map (option_map (Z.add 1)) (Pd.lookup l s).
Proof.
  induction s as [|[l' v] s IH]; cbn; [reflexivity|].
  destruct (l =? l'); [reflexivity | exact IH].
Qed.

Lemma lookup_cumcount_from {K : Type} (eqb : K -> K -> bool) (seen : list K)
  (s : Pd.Series (option K)) (l : Z) (v : option Z) :
  Pd.lookup l (Pd.cumcount_from eqb seen s) = Some v ->
  v = None \/ exists m, v = Some (Z.of_nat m).
Proof.
  revert seen. induction s as [|[l' [k|]] s IH]; intros seen; cbn; [discriminate| |].
  - destruct (l =? l'); [intros [= <-]; eauto | apply IH].
  - destruct (l =? l'); [intros [= <-]; auto | apply IH].
Qed.

(** A rank is missing or at least 1. *)
Lemma setitem_rank_values {K : Type} (eqb : K -> K -> bool) (index : list Z)
  (s : Pd.Series (option K)) :
  Forall (fun v => v = None \/ exists m, v = Some (1 + Z.of_nat m))
         (Pd.setitem index (Pd.add1 (Pd.groupby_cumcount eqb s))).
Proof.
  unfold Pd.setitem, Pd.groupby_cumcount. apply Forall_map, Forall_forall.
  intros l _. rewrite lookup_add1.
  destruct (Pd.lookup l (Pd.cumcount_from eqb [] s)) as [v|] eqn:E; cbn; [|now left].
  apply lookup_cumcount_from in E as [->|[m ->]]; cbn; eauto.
Qed.

Lemma lookup_cumcount_from_missing {K : Type} (eqb : K -> K -> bool) (seen : list K)
  (s : Pd.Series (option K)) (l : Z) (v : option Z) :
  Forall (fun p => snd p = None) s ->
  Pd.lookup l (Pd.cumcount_from eqb seen s) = Some v -> v = None.
Proof.
  induction 1 as [|[l' k] s Hk F IH]; cbn; [discriminate|].
  cbn in Hk. subst k. cbn. destruct (l =? l'); [now intros [= <-] | exact IH].
Qed.

Lemma sort_values_Forall {V : Type} (P : Z * V -> Prop) (asc : bool) (s : Pd.Series V) :
  Forall P s -> Forall P (Pd.sort_values asc s).
Proof.
  induction 1 as [|x s Hx F IH]; [constructor|].
  change (Pd.sort_values asc (x :: s))
    with (Pd.insert_by asc x (Pd.sort_values asc s)).
  rewrite Forall_forall in *. intros p Hp.
  apply insert_by_In in Hp as [->|Hp]; auto.
Qed.

Lemma ffill_from_missing {V : Type} (xs : list (option V)) :
  Forall (fun x => x = None) xs -> Pd.ffill_from None xs = xs.
Proof.
  induction 1 as [|x xs Hx F IH]; [reflexivity|].
  subst x. cbn. now rewrite IH.
Qed.

(** The ranks of a frame whose chain ids are all missing are missing. *)
Lemma ranks_missing (index : list Z) (cid : list (option Z)) :
  Forall (fun x => x = None) cid ->
  Forall (fun x => x = None)
    (Pd.setitem index
       (Pd.add1 (Pd.groupby_cumcount Z.eqb (Pd.sort_values true (combine index cid))))).
Proof.
  intros F. unfold Pd.setitem, Pd.groupby_cumcount. apply Forall_map, Forall_forall.
  intros l _. rewrite lookup_add1.
  destruct (Pd.lookup l _) as [v|] eqn:E; cbn; [|reflexivity].
  apply lookup_cumcount_from_missing in E; [now subst v|].
  apply sort_values_Forall. apply Forall_forall. intros [d k] Hp.
  apply in_combine_r in Hp. rewrite Forall_forall in F. now apply F.
Qed.

Lemma length_flag_column (index : list Z) (entries : Pd.Series bool) (ds : Z) :
  length (flag_column index entries ds) = length index.
Proof. unfold flag_column. now rewrite length_map, PdFacts.length_setitem. Qed.

(** X9. For every window, every [days_strategy] and every [test_size],
    the flag column has one value per row of the tail window, each 0 or
    1; it is all zeros when [days_strategy <= 1], and when no row of the
    window ends a "down" chain: then the strategy never holds the asset. *)
Theorem create_backtest_signal_flag_bounds (self_df : list signal_row)
  (days_strategy test_size : Z) :
  let window := create_backtest_signal_window self_df test_size in
  let flag := create_backtest_signal_flag self_df days_strategy test_size in
  length flag = length window /\
  Forall (fun f => f = 0 \/ f = 1) flag /\
  (days_strategy <= 1 -> Forall (fun f => f = 0) flag) /\
  (backtest_entries window = [] -> Forall (fun f => f = 0) flag).
Proof.
  cbv zeta. unfold create_backtest_signal_flag, create_backtest_signal_window.
  set (df1 := Pd.iloc_from (- test_size) self_df).
  set (index := map (fun r => Date (prices r)) df1).
  split; [rewrite length_flag_column; subst index; apply length_map|].
  unfold flag_column.
  set (cid := Pd.ffill _).
  pose proof (setitem_rank_values Z.eqb index
                (Pd.sort_values true (combine index cid))) as R.
  split; [|split].
  - apply Forall_map. eapply Forall_impl; [|exact R]. cbv beta.
    intros v [->|[m ->]]; [now left|]. destruct (_ <? _); auto.
  - intros Hd. apply Forall_map. eapply Forall_impl; [|exact R]. cbv beta.
    intros v [->|[m ->]]; [reflexivity|].
    destruct (Z.ltb_spec (1 + Z.of_nat m) days_strategy); [lia | reflexivity].
  - intros He. apply Forall_map.
    assert (Hc : Forall (fun x => x = None) cid).
    { subst cid. rewrite He. unfold Pd.ffill.
      set (masked := map _ (combine _ _)).
      assert (Hm : Forall (fun x : option Z => x = None) masked).
      { subst masked. apply Forall_map, Forall_forall. intros [l c] Hp.
        apply in_combine_l in Hp. apply in_map_iff in Hp as [d [<- _]].
        reflexivity. }
      now rewrite ffill_from_missing. }
    eapply Forall_impl; [|exact (ranks_missing index cid Hc)].
    cbv beta. intros v ->. reflexivity.
Qed.

Lemma filter_firstn_S {V : Type} (f : V -> bool) (l : list V) (n : nat) (d : V) :
  (n < length l)%nat ->
  length (filter f (firstn (S n) l))
  = (length (filter f (firstn n l)) + (if f (nth n l d) then 1 else 0))%nat.
Proof.
  revert n. induction l as [|a l IH]; intros n Hn; [cbn in Hn; lia|].
  destruct n as [|n].
  - cbn. destruct (f a); reflexivity.
  - change (firstn (S (S n)) (a :: l)) with (a :: firstn (S n) l).
    change (firstn (S n) (a :: l)) with (a :: firstn n l).
    cbn [filter nth]. specialize (IH n ltac:(cbn in Hn; lia)).
    destruct (f a); cbn [length]; lia.
Qed.

Lemma filter_firstn_le {V : Type} (f : V -> bool) (l : list V) (a b : nat) :
  (a <= b)%nat ->
  (length (filter f (firstn a l)) <= length (filter f (firstn b l)))%nat.
Proof.
  revert a b. induction l as [|y l IH]; intros a b H.
  - rewrite !firstn_nil. lia.
  - destruct a as [|a]; [cbn; lia|]. destruct b as [|b]; [lia|].
    cbn [firstn filter]. specialize (IH a b ltac:(lia)).
    destruct (f y); cbn [length]; lia.
Qed.

(** Carrying the masked counts of the entries forward gives the number
    of entries so far, and nothing before the first entry. *)
Lemma ffill_masked_entries (last : list (option bool)) (seen : list bool)
  (carry : option Z) (n0 : Z) (i : nat) :
  n0 = Z.of_nat (length (filter (Bool.eqb true) seen)) ->
  carry = (if n0 =? 0 then None else Some n0) ->
  (i < length last)%nat ->
  nth i (Pd.ffill_from carry
           (map (fun '(l, c) => match l with Some true => c | _ => None end)
                (combine last (map (option_map (Z.add 1))
                                   (Pd.counts_from Bool.eqb seen last)))))
      None
  = (let n := n0 + Z.of_nat (length (filter is_entry (firstn (S i) last))) in
     if n =? 0 then None else Some n).
Proof.
  revert seen carry n0 i.
  induction last as [|x r IH]; intros seen carry n0 i Hn Hl Hi; [cbn in Hi; lia|].
  destruct x as [[|]|].
  - (* an entry *)
    cbn [Pd.counts_from map combine Pd.ffill_from option_map firstn filter is_entry length].
    destruct i as [|j].
    + cbn [nth firstn filter length]. cbv zeta. rewrite <- Hn.
      replace (n0 + Z.of_nat 1) with (1 + n0) by lia.
      destruct (Z.eqb_spec (1 + n0) 0); [lia | reflexivity].
    + cbn [nth]. rewrite (IH (true :: seen) _ (n0 + 1) j).
      * cbv zeta.
        replace (n0 + 1 + Z.of_nat (length (filter is_entry (firstn (S j) r))))
          with (n0 + Z.of_nat (S (length (filter is_entry (firstn (S j) r))))) by lia.
        reflexivity.
      * cbn [filter Bool.eqb length]. lia.
      * rewrite <- Hn. replace (1 + n0) with (n0 + 1) by lia.
        destruct (Z.eqb_spec (n0 + 1) 0); [lia | reflexivity].
      * cbn in Hi. lia.
  - (* a row marked False *)
    cbn [Pd.counts_from map combine Pd.ffill_from option_map firstn filter is_entry].
    destruct i as [|j].
    + cbn [nth firstn filter length]. cbv zeta. rewrite Hl.
      replace (n0 + Z.of_nat 0) with n0 by lia. reflexivity.
    + cbn [nth]. apply (IH (false :: seen) _ n0 j); auto. cbn in Hi. lia.
  - (* a row without mark *)
    cbn [Pd.counts_from map combine Pd.ffill_from option_map firstn filter is_entry].
    destruct i as [|j].
    + cbn [nth firstn filter length]. cbv zeta. rewrite Hl.
      replace (n0 + Z.of_nat 0) with n0 by lia. reflexivity.
    + cbn [nth]. apply (IH seen _ n0 j); auto. cbn in Hi. lia.
Qed.

Lemma nth_counts_from_missing {K : Type} (eqb : K -> K -> bool) (seen : list K)
  (keys : list (option K)) (i : nat) :
  nth_error keys i = Some None ->
  nth i (Pd.counts_from eqb seen keys) None = None.
Proof.
  revert seen i. induction keys as [|x r IH]; intros seen [|j] H; cbn in H;
    try discriminate.
  - injection H as ->. reflexivity.
  - destruct x as [k'|]; cbn [Pd.counts_from nth]; now apply IH.
Qed.

Lemma filter_all {K : Type} (f : K -> bool) (l : list K) :
  (forall x, In x l -> f x = true) -> filter f l = l.
Proof.
  induction l as [|a l IH]; intros H; cbn; [reflexivity|].
  rewrite (H a (or_introl eq_refl)). f_equal. apply IH. intros x Hx. apply H. now right.
Qed.

Lemma present_all {K : Type} (l : list (option K)) (k : K) :
  (forall x, In x l -> x = Some k) -> present l = repeat k (length l).
Proof.
  induction l as [|a l IH]; intros H; [reflexivity|].
  rewrite (H a (or_introl eq_refl)). cbn. f_equal. apply IH.
  intros x Hx. apply H. now right.
Qed.

Lemma flag_column_unfold (index : list Z) (entries : Pd.Series bool) (ds : Z) :
  flag_column index entries ds
  = map (fun rn => match rn with
                   | Some v => if v <? ds then 1 else 0
                   | None => 0
                   end)
        (Pd.setitem index
           (Pd.add1 (Pd.groupby_cumcount Z.eqb
                       (Pd.sort_values true
                          (combine index (dft_chain_id index entries)))))).
Proof. reflexivity. Qed.

Lemma length_dft_chain_id (index : list Z) (entries : Pd.Series bool) :
  length (dft_chain_id index entries) = length index.
Proof.
  unfold dft_chain_id, Pd.ffill.
  rewrite PdFacts.length_ffill_from, length_map, length_combine, length_map,
    PdFacts.length_setitem. lia.
Qed.

(** On an ascending window the chain id of a row of [dft] is the number
    of entries up to it, and is missing before the first entry. *)
Lemma nth_dft_chain_id (index : list Z) (entries : Pd.Series bool) (i : nat) :
  StronglySorted Z.lt index -> (i < length index)%nat ->
  nth i (dft_chain_id index entries) None
  = (let n := Z.of_nat (length (filter is_entry
                                  (firstn (S i)
                                     (map (fun l => Pd.lookup l entries) index)))) in
     if n =? 0 then None else Some n).
Proof.
  intros Hs Hi. unfold dft_chain_id.
  rewrite PdFacts.cumcount_ascending by (auto; now rewrite length_map).
  unfold Pd.ffill.
  rewrite (ffill_masked_entries _ [] None 0 i); auto; now rewrite length_map.
Qed.

(** The flag of a row of an ascending window, from the entries before
    it. *)
Lemma flag_column_ascending (index : list Z) (entries : Pd.Series bool) (ds : Z)
  (i : nat) :
  StronglySorted Z.lt index -> (i < length index)%nat ->
  let marks := entry_marks index entries in
  (forallb negb (firstn (S i) marks) = true ->
   nth i (flag_column index entries ds) 0 = 0) /\
  (forall p, (p <= i)%nat -> nth p marks false = true ->
     (forall q, (p < q <= i)%nat -> nth q marks false = false) ->
     nth i (flag_column index entries ds) 0
     = if 1 + Z.of_nat (i - p) <? ds then 1 else 0).
Proof.
  intros Hs Hi. cbv zeta.
  set (last := map (fun l => Pd.lookup l entries) index).
  assert (Hm : entry_marks index entries = map is_entry last)
    by (unfold entry_marks; subst last; now rewrite map_map).
  assert (Ll : length last = length index) by (subst last; apply length_map).
  pose proof (length_dft_chain_id index entries) as Lc.
  rewrite flag_column_unfold.
  rewrite PdFacts.cumcount_ascending by auto.
  set (cid := dft_chain_id index entries) in *.
  assert (Hrank : nth i (map (option_map (Z.add 1)) (Pd.counts_from Z.eqb [] cid)) None
                  = option_map (Z.add 1) (nth i (Pd.counts_from Z.eqb [] cid) None))
    by exact (map_nth (option_map (Z.add 1)) (Pd.counts_from Z.eqb [] cid) None i).
  assert (Hflag :
            nth i (map (fun rn => match rn with
                                  | Some v => if v <? ds then 1 else 0
                                  | None => 0
                                  end)
                       (map (option_map (Z.add 1)) (Pd.counts_from Z.eqb [] cid))) 0
            = match option_map (Z.add 1) (nth i (Pd.counts_from Z.eqb [] cid) None) with
              | Some v => if v <? ds then 1 else 0
              | None => 0
              end).
  { rewrite <- Hrank.
    exact (map_nth (fun rn : option Z => match rn with
                                         | Some v => if v <? ds then 1 else 0
                                         | None => 0
                                         end)
                   (map (option_map (Z.add 1)) (Pd.counts_from Z.eqb [] cid)) None i). }
  rewrite Hflag. clear Hflag Hrank.
  assert (Hcnt : forall q, (q < length index)%nat ->
            nth_error cid q
            = Some (let n := Z.of_nat (length (filter is_entry (firstn (S q) last))) in
                    if n =? 0 then None else Some n)).
  { intros q Hq. rewrite (nth_error_nth' _ None) by lia. f_equal.
    subst cid. now apply nth_dft_chain_id. }
  split.
  - (* no entry so far *)
    intros Hno.
    rewrite nth_counts_from_missing; [reflexivity|].
    rewrite (Hcnt i Hi). cbv zeta.
    replace (filter is_entry (firstn (S i) last)) with (@nil (option bool));
      [reflexivity|].
    symmetry. apply filter_none. intros x Hx.
    rewrite Hm, firstn_map in Hno. rewrite forallb_forall in Hno.
    specialize (Hno (is_entry x) (in_map is_entry _ _ Hx)).
    now destruct (is_entry x).
  - (* the last entry is at p *)
    intros p Hp Hmark Hafter.
    assert (Hent : forall q, (q < length index)%nat ->
                             nth q (entry_marks index entries) false
                             = is_entry (nth q last None)).
    { intros q Hq. rewrite Hm. change false with (is_entry None) at 1.
      apply map_nth. }
    set (c' := length (filter is_entry (firstn p last))).
    assert (F2 : length (filter is_entry (firstn (S p) last)) = S c').
    { rewrite (filter_firstn_S _ _ _ None) by lia.
      rewrite <- Hent, Hmark by lia. subst c'. lia. }
    assert (F1 : forall q, (p <= q <= i)%nat ->
                           length (filter is_entry (firstn (S q) last)) = S c').
    { intros q [Hq1 Hq2]. induction q as [|q IHq].
      - assert (p = 0%nat) by lia. subst p. exact F2.
      - destruct (Nat.eq_dec p (S q)) as [<-|Hne]; [exact F2|].
        rewrite (filter_firstn_S _ _ _ None) by lia.
        rewrite <- Hent, Hafter by lia. rewrite IHq by lia. lia. }
    assert (Hk : nth_error cid i = Some (Some (Z.of_nat (S c')))).
    { rewrite (Hcnt i Hi). cbv zeta. rewrite (F1 i) by lia.
      destruct (Z.eqb_spec (Z.of_nat (S c')) 0); [lia | reflexivity]. }
    rewrite (nth_counts_from _ _ _ _ _ Hk). cbn [option_map filter length].
    rewrite Nat.add_0_r.
    assert (Hsplit : firstn i cid = firstn p cid ++ skipn p (firstn i cid)).
    { rewrite <- (firstn_skipn p (firstn i cid)) at 1. f_equal.
      rewrite firstn_firstn. now replace (Nat.min p i) with p by lia. }
    rewrite Hsplit, present_app, filter_app, length_app.
    assert (HA : length (filter (Z.eqb (Z.of_nat (S c'))) (present (firstn p cid))) = 0%nat).
    { apply filter_length_0. intros x Hx. apply In_present in Hx.
      apply In_nth_error in Hx as [q Hq]. rewrite nth_error_firstn in Hq.
      destruct (Nat.ltb_spec q p) as [Hlt|]; [|discriminate].
      rewrite (Hcnt q) in Hq by lia. cbv zeta in Hq.
      pose proof (filter_firstn_le is_entry last (S q) p ltac:(lia)) as Hle.
      fold c' in Hle.
      destruct (Z.eqb_spec (Z.of_nat (length (filter is_entry (firstn (S q) last)))) 0);
        [discriminate|].
      assert (Ex : x = Z.of_nat (length (filter is_entry (firstn (S q) last))))
        by congruence.
      rewrite Ex. apply Z.eqb_neq. lia. }
    assert (HB : present (skipn p (firstn i cid))
                 = repeat (Z.of_nat (S c')) (i - p)).
    { rewrite (present_all _ (Z.of_nat (S c'))).
      - rewrite length_skipn, length_firstn. f_equal. lia.
      - intros x Hx. apply In_nth_error in Hx as [q Hq].
        rewrite nth_error_skipn, nth_error_firstn in Hq.
        destruct (Nat.ltb_spec (p + q) i) as [Hlt|]; [|discriminate].
        rewrite (Hcnt (p + q)%nat) in Hq by lia. cbv zeta in Hq.
        rewrite (F1 (p + q)%nat) in Hq by lia.
        destruct (Z.eqb_spec (Z.of_nat (S c')) 0); [lia | congruence]. }
    rewrite HA, HB, filter_all.
    + rewrite repeat_length. cbn [Nat.add]. reflexivity.
    + intros x Hx. apply repeat_spec in Hx. subst x. apply Z.eqb_refl.
Qed.

(** X10. In a tail window in ascending order of date, a row before the
    first entry (the first row that ends a "down" chain) has flag 0; a
    row at or after an entry counts its rank from the latest entry, this
    entry being 1, and its flag is 1 exactly when the rank is strictly
    below [days_strategy]: a new entry restarts the count. *)
Theorem create_backtest_signal_flag_law (self_df : list signal_row)
  (days_strategy test_size : Z) :
  let window := create_backtest_signal_window self_df test_size in
  let index := map (fun r => Date (prices r)) window in
  let marks := entry_marks index (backtest_entries window) in
  let flag := create_backtest_signal_flag self_df days_strategy test_size in
  StronglySorted Z.lt index ->
  forall i, (i < length window)%nat ->
    (forallb negb (firstn (S i) marks) = true -> nth i flag 0 = 0) /\
    (forall p, (p <= i)%nat -> nth p marks false = true ->
       (forall q, (p < q <= i)%nat -> nth q marks false = false) ->
       nth i flag 0 = if 1 + Z.of_nat (i - p) <? days_strategy then 1 else 0).
Proof.
  cbv zeta. intros Hs i Hi.
  unfold create_backtest_signal_flag. fold (create_backtest_signal_window self_df test_size).
  apply flag_column_ascending; [exact Hs | now rewrite length_map].
Qed.

Lemma create_backtest_signal_flag_law_witness :
  StronglySorted Z.lt
    (map (fun r => Date (prices r)) (create_backtest_signal_window Samples.chains6 6)) /\
  entry_marks
    (map (fun r => Date (prices r)) (create_backtest_signal_window Samples.chains6 6))
    (backtest_entries (create_backtest_signal_window Samples.chains6 6))
  = [false; false; true; false; false; true] /\
  nth 1 (create_backtest_signal_flag Samples.chains6 3 6) 0 = 0 /\
  nth 3 (create_backtest_signal_flag Samples.chains6 3 6) 0 = 1 /\
  nth 4 (create_backtest_signal_flag Samples.chains6 3 6) 0 = 0.
Proof.
  assert (Hs : StronglySorted Z.lt
                 (map (fun r => Date (prices r))
                      (create_backtest_signal_window Samples.chains6 6))).
  { cbn. repeat (constructor; [|repeat (constructor; [lia|]); constructor]).
    constructor. }
  split; [exact Hs|]. split; [reflexivity|].
  split; [|split].
  - apply (create_backtest_signal_flag_law Samples.chains6 3 6 Hs 1%nat).
    + cbn. lia.
    + reflexivity.
  - apply (proj2 (create_backtest_signal_flag_law Samples.chains6 3 6 Hs 3%nat
                    ltac:(cbn; lia)) 2%nat).
    + lia.
    + reflexivity.
    + intros q Hq. assert (q = 3%nat) as -> by lia. reflexivity.
  - apply (proj2 (create_backtest_signal_flag_law Samples.chains6 3 6 Hs 4%nat
                    ltac:(cbn; lia)) 2%nat).
    + lia.
    + reflexivity.
    + intros q Hq. assert (q = 3%nat \/ q = 4%nat) as [-> | ->] by lia; reflexivity.
Defined.

(** ** [ExpandingMultipleTimeSeriesKFold.split] *)

Lemma insert_unique_In (x y : Z) (l : list Z) :
  In y (insert_unique x l) <-> y = x \/ In y l.
Proof.
  induction l as [|a l IH]; cbn; [intuition auto|].
  destruct (Z.ltb_spec x a); cbn; [intuition auto|].
  destruct (Z.eqb_spec x a) as [->|Hne]; cbn; [intuition auto|].
  rewrite IH. intuition auto.
Qed.

Lemma insert_unique_ascending (x : Z) (l : list Z) :
  StronglySorted Z.lt l -> StronglySorted Z.lt (insert_unique x l).
Proof.
  induction l as [|a l IH]; cbn; intros Hs.
  - repeat constructor.
  - apply StronglySorted_inv in Hs as [Hl F].
    destruct (Z.ltb_spec x a) as [Hlt|Hge].
    + constructor; [now constructor|]. constructor; [assumption|].
      rewrite Forall_forall in *. intros y Hy. specialize (F y Hy). lia.
    + destruct (Z.eqb_spec x a) as [->|Hne]; [now constructor|].
      constructor; [now apply IH|].
      rewrite Forall_forall in *. intros y Hy.
      apply insert_unique_In in Hy as [->|Hy]; [lia | now apply F].
Qed.

(** The distinct dates are in ascending order and are the dates of the
    frame. *)
Lemma unique_sorted_spec (l : list Z) :
  StronglySorted Z.lt (unique_sorted l) /\
  forall x, In x (unique_sorted l) <-> In x l.
Proof.
  induction l as [|a l [Hs Hi]]; cbn.
  - split; [constructor | tauto].
  - split; [now apply insert_unique_ascending|].
    intros x. rewrite insert_unique_In, Hi. intuition auto.
Qed.

Lemma fold_left_max_spec (r : list Z) (x : Z) :
  In (fold_left Z.max r x) (x :: r) /\
  forall y, In y (x :: r) -> y <= fold_left Z.max r x.
Proof.
  revert x. induction r as [|a r IH]; intros x; cbn.
  - split; [now left | intros y [<-|[]]; lia].
  - destruct (IH (Z.max x a)) as [Hin Hle]. split.
    + destruct Hin as [E|Hin]; [|now right; right].
      rewrite <- E. destruct (Z.max_spec x a) as [[_ ->]|[_ ->]]; auto.
    + intros y [E|[E|Hy]].
      * specialize (Hle (Z.max x a) (or_introl eq_refl)). lia.
      * specialize (Hle (Z.max x a) (or_introl eq_refl)). lia.
      * apply Hle. now right.
Qed.

Lemma fold_left_min_spec (r : list Z) (x : Z) :
  In (fold_left Z.min r x) (x :: r) /\
  forall y, In y (x :: r) -> fold_left Z.min r x <= y.
Proof.
  revert x. induction r as [|a r IH]; intros x; cbn.
  - split; [now left | intros y [<-|[]]; lia].
  - destruct (IH (Z.min x a)) as [Hin Hle]. split.
    + destruct Hin as [E|Hin]; [|now right; right].
      rewrite <- E. destruct (Z.min_spec x a) as [[_ ->]|[_ ->]]; auto.
    + intros y [E|[E|Hy]].
      * specialize (Hle (Z.min x a) (or_introl eq_refl)). lia.
      * specialize (Hle (Z.min x a) (or_introl eq_refl)). lia.
      * apply Hle. now right.
Qed.

Lemma list_max_spec (l : list Z) :
  l <> [] ->
  exists M, list_max l = Some M /\ In M l /\ forall y, In y l -> y <= M.
Proof.
  destruct l as [|x r]; [congruence|]. intros _.
  exists (fold_left Z.max r x). split; [reflexivity|]. apply fold_left_max_spec.
Qed.

Lemma list_min_spec (l : list Z) :
  l <> [] ->
  exists m, list_min l = Some m /\ In m l /\ forall y, In y l -> m <= y.
Proof.
  destruct l as [|x r]; [congruence|]. intros _.
  exists (fold_left Z.min r x). split; [reflexivity|]. apply fold_left_min_spec.
Qed.

(** The slices of the loop, for a cut inside the list. *)
Lemma py_slice_to_neg {A : Type} (l : list A) (cut : Z) :
  0 < cut <= Z.of_nat (length l) ->
  py_slice None (Some (- cut)) l = firstn (length l - Z.to_nat cut) l.
Proof.
  intros H. unfold py_slice, Pd.py_index.
  destruct (Z.ltb_spec (- cut) 0); [|lia].
  rewrite Nat.sub_0_r. cbn [skipn]. f_equal. lia.
Qed.

Lemma py_slice_from_neg {A : Type} (l : list A) (cut : Z) :
  0 < cut <= Z.of_nat (length l) ->
  py_slice (Some (- cut)) None l = skipn (length l - Z.to_nat cut) l.
Proof.
  intros H. unfold py_slice, Pd.py_index.
  destruct (Z.ltb_spec (- cut) 0); [|lia].
  replace (Z.to_nat (Z.max 0 (Z.of_nat (length l) + - cut)))
    with (length l - Z.to_nat cut)%nat by lia.
  apply firstn_all2. rewrite length_skipn. lia.
Qed.

Lemma py_slice_between_neg {A : Type} (l : list A) (cut topcut : Z) :
  0 < topcut -> topcut <= cut <= Z.of_nat (length l) ->
  py_slice (Some (- cut)) (Some (- topcut)) l
  = firstn (Z.to_nat (cut - topcut)) (skipn (length l - Z.to_nat cut) l).
Proof.
  intros H0 H. unfold py_slice, Pd.py_index.
  destruct (Z.ltb_spec (- cut) 0); [|lia].
  destruct (Z.ltb_spec (- topcut) 0); [|lia].
  replace (Z.to_nat (Z.max 0 (Z.of_nat (length l) + - cut)))
    with (length l - Z.to_nat cut)%nat by lia.
  f_equal. lia.
Qed.

(** The dates of one fold: [a] training dates followed by [w] test
    dates in an ascending list. *)
Lemma fold_dates (U : list Z) (a w : nat) :
  StronglySorted Z.lt U -> (0 < a)%nat -> (0 < w)%nat -> (a + w <= length U)%nat ->
  exists D m M,
    list_max (firstn a U) = Some D /\
    list_min (firstn w (skipn a U)) = Some m /\
    list_max (firstn w (skipn a U)) = Some M /\
    In D U /\ In m U /\ In M U /\ D < m /\ m <= M /\
    filter (fun d => (D <? d) && (d <? m)) U = [] /\
    filter (fun d => (m <=? d) && (d <=? M)) U = firstn w (skipn a U).
Proof.
  intros Hs Ha Hw Hn.
  set (A := firstn a U). set (T := firstn w (skipn a U)).
  set (R := skipn w (skipn a U)).
  assert (HU : U = A ++ (T ++ R)).
  { subst A T R. now rewrite firstn_skipn, firstn_skipn. }
  assert (HA : A <> []).
  { intros E. apply (f_equal (@length Z)) in E. subst A.
    rewrite length_firstn in E. cbn in E. lia. }
  assert (HT : T <> []).
  { intros E. apply (f_equal (@length Z)) in E. subst T.
    rewrite length_firstn, length_skipn in E. cbn in E. lia. }
  destruct (list_max_spec A HA) as (D & ED & HD & HDle).
  destruct (list_min_spec T HT) as (m & Em & Hm & Hmle).
  destruct (list_max_spec T HT) as (M & EM & HM & HMle).
  assert (HAT : forall x y, In x A -> In y (T ++ R) -> x < y).
  { apply ascending_app_lt. now rewrite <- HU. }
  assert (HTR : forall x y, In x T -> In y R -> x < y).
  { apply ascending_app_lt.
    replace (T ++ R) with (skipn a U) by (subst T R; now rewrite firstn_skipn).
    now apply PdFacts.ascending_skipn. }
  exists D, m, M. split; [exact ED|]. split; [exact Em|]. split; [exact EM|].
  assert (HDm : D < m) by (apply HAT; [assumption | apply in_or_app; now left]).
  assert (HmM : m <= M) by now apply Hmle.
  repeat split; auto.
  - rewrite HU. apply in_or_app. now left.
  - rewrite HU. apply in_or_app. right. apply in_or_app. now left.
  - rewrite HU. apply in_or_app. right. apply in_or_app. now left.
  - apply filter_none. intros d Hd. rewrite HU in Hd.
    apply andb_false_iff.
    apply in_app_or in Hd as [Hd|Hd].
    + left. apply Z.ltb_ge. now apply HDle.
    + right. apply Z.ltb_ge. apply in_app_or in Hd as [Hd|Hd].
      * now apply Hmle.
      * specialize (HTR m d Hm Hd). lia.
  - rewrite HU at 1. rewrite !filter_app.
    rewrite (filter_none _ A), (filter_none _ R), (filter_all _ T).
    + now rewrite app_nil_r.
    + intros d Hd. apply andb_true_iff. split; apply Z.leb_le; auto.
    + intros d Hd. apply andb_false_iff. right. apply Z.leb_gt. now apply HTR.
    + intros d Hd. apply andb_false_iff. left. apply Z.leb_gt.
      apply HAT; [assumption | apply in_or_app; now left].
Qed.

(** The loop from a cut inside the list yields one fold per pass. *)
Lemma split_loop_folds (rows : list (Z * Z)) (U : list Z) (w o : Z) (r : nat)
  (cut : Z) :
  StronglySorted Z.lt U -> 1 <= w -> 0 <= o <= w ->
  (r = 0%nat \/ cut = w + (Z.of_nat r - 1) * (w - o)) ->
  cut < Z.of_nat (length U) ->
  exists folds,
    KFold.split_loop rows U w o r cut = (folds, None) /\
    length folds = r /\
    Forall (fun fold =>
              exists D m M,
                In D U /\ In m U /\ In M U /\ D < m /\ m <= M /\
                fst fold = KFold.index_upto rows D /\
                snd fold = KFold.index_between rows m M /\
                filter (fun d => (D <? d) && (d <? m)) U = [] /\
                length (filter (fun d => (m <=? d) && (d <=? M)) U) = Z.to_nat w)
           folds.
Proof.
  intros Hs Hw Ho. revert cut. induction r as [|r IH]; intros cut Hc Hn.
  - exists []. repeat split. constructor.
  - destruct Hc as [Hc|Hc]; [discriminate|].
    assert (Hcut : w <= cut) by nia.
    assert (Htest : (if cut - w =? 0
                     then py_slice (Some (- cut)) None U
                     else py_slice (Some (- cut)) (Some (- (cut - w))) U)
                    = firstn (Z.to_nat w) (skipn (length U - Z.to_nat cut) U)).
    { destruct (Z.eqb_spec (cut - w) 0) as [E|E].
      - rewrite py_slice_from_neg by lia. symmetry. apply firstn_all2.
        rewrite length_skipn. lia.
      - rewrite py_slice_between_neg by lia. f_equal. lia. }
    destruct (fold_dates U (length U - Z.to_nat cut) (Z.to_nat w) Hs)
      as (D & m & M & ED & Em & EM & HD & Hm & HM & HDm & HmM & Hgap & Htest');
      try lia.
    destruct (IH (cut - (w - o))) as (folds & Hf & Hl & HF).
    + destruct r as [|r]; [now left|]. right. lia.
    + nia.
    + cbn [KFold.split_loop]. rewrite Htest, py_slice_to_neg by lia.
      rewrite ED, Em, EM, Hf.
      eexists. split; [reflexivity|]. split; [cbn; now rewrite Hl|].
      constructor; [|exact HF].
      exists D, m, M. cbn [fst snd]. repeat split; auto.
      rewrite Htest', length_firstn, length_skipn. lia.
Qed.

(** X11. When the index has its two levels, [1 <= window_size],
    [0 <= overlap_size <= window_size], [0 <= number_window] and the total
    test size is below the number of distinct dates, [split] raises
    nothing and yields [get_n_splits] folds. In each fold the training
    rows are those dated up to a date [D] and the test rows those dated
    from [m] to [M], with [D < m <= M] dates of the frame: no training
    row is dated at or after a test row, no date lies between the two
    sets, and the test set spans exactly [window_size] distinct dates. *)
Theorem split_folds (self : KFold.t) :
  KFold.has_name "Date_i"%string (KFold.index_names self) = true ->
  KFold.has_name "i"%string (KFold.index_names self) = true ->
  1 <= KFold.window_size self ->
  0 <= KFold.overlap_size self <= KFold.window_size self ->
  0 <= KFold.number_window self ->
  KFold.window_size self * KFold.number_window self
    - (KFold.number_window self - 1) * KFold.overlap_size self
  < Z.of_nat (length (unique_sorted (map fst (KFold.index self)))) ->
  exists folds,
    KFold.split self = (folds, None) /\
    Z.of_nat (length folds) = KFold.get_n_splits self /\
    Forall (fun fold =>
              exists D m M,
                In D (map fst (KFold.index self)) /\
                In m (map fst (KFold.index self)) /\
                In M (map fst (KFold.index self)) /\
                D < m /\ m <= M /\
                fst fold = KFold.index_upto (KFold.index self) D /\
                snd fold = KFold.index_between (KFold.index self) m M /\
                filter (fun d => (D <? d) && (d <? m))
                       (unique_sorted (map fst (KFold.index self))) = [] /\
                length (filter (fun d => (m <=? d) && (d <=? M))
                               (unique_sorted (map fst (KFold.index self))))
                = Z.to_nat (KFold.window_size self))
           folds.
Proof.
  intros Hd Hi Hw Ho Hn Ht.
  destruct (unique_sorted_spec (map fst (KFold.index self))) as [Hs Hin].
  set (U := unique_sorted (map fst (KFold.index self))) in *.
  destruct (split_loop_folds (KFold.index self) U (KFold.window_size self)
              (KFold.overlap_size self) (Z.to_nat (KFold.number_window self))
              (KFold.window_size self * KFold.number_window self
               - (KFold.number_window self - 1) * KFold.overlap_size self))
    as (folds & Hf & Hl & HF); auto.
  - destruct (Z.eq_dec (KFold.number_window self) 0) as [E|E].
    + left. rewrite E. reflexivity.
    + right. rewrite Z2Nat.id by lia. ring.
  - exists folds. split; [|split].
    + unfold KFold.split. rewrite Hd, Hi. cbn [negb orb].
      destruct (Z.ltb_spec (KFold.window_size self) (KFold.overlap_size self)); [lia|].
      fold U.
      destruct (Z.ltb_spec (Z.of_nat (length U))
                  (KFold.window_size self * KFold.number_window self
                   - (KFold.number_window self - 1) * KFold.overlap_size self));
        [lia | exact Hf].
    + rewrite Hl. unfold KFold.get_n_splits. lia.
    + eapply Forall_impl; [|exact HF]. cbv beta.
      intros fold (D & m & M & H1 & H2 & H3 & H4 & H5 & H6 & H7 & H8 & H9).
      exists D, m, M. repeat split; auto; now apply Hin.
Qed.

Lemma split_folds_witness :
  KFold.split (Samples.kf 2 3 1)
  = ([ ([0; 1; 2; 3; 5; 6], [4; 7]);
       ([0; 1; 2; 3; 4; 5; 6], [7; 8]);
       ([0; 1; 2; 3; 4; 5; 6; 7], [8; 9]) ], None) /\
  exists folds,
    KFold.split (Samples.kf 2 3 1) = (folds, None) /\
    Z.of_nat (length folds) = KFold.get_n_splits (Samples.kf 2 3 1) /\
    Forall (fun fold =>
              exists D m M,
                In D (map fst Samples.kf_rows) /\
                In m (map fst Samples.kf_rows) /\
                In M (map fst Samples.kf_rows) /\
                D < m /\ m <= M /\
                fst fold = KFold.index_upto Samples.kf_rows D /\
                snd fold = KFold.index_between Samples.kf_rows m M /\
                filter (fun d => (D <? d) && (d <? m))
                       (unique_sorted (map fst Samples.kf_rows)) = [] /\
                length (filter (fun d => (m <=? d) && (d <=? M))
                               (unique_sorted (map fst Samples.kf_rows)))
                = 2%nat)
           folds.
Proof.
  split; [reflexivity|].
  apply (split_folds (Samples.kf 2 3 1)).
  - reflexivity.
  - reflexivity.
  - cbn. lia.
  - cbn. lia.
  - cbn. lia.
  - vm_compute. reflexivity.
Defined.

(** X12. The size check lets a total test size equal to the number of
    distinct dates through; the first pass of the loop then has no
    training date, [max] fails on the empty list and [split] yields no
    fold at all. *)
Theorem split_no_training_date (self : KFold.t) :
  KFold.has_name "Date_i"%string (KFold.index_names self) = true ->
  KFold.has_name "i"%string (KFold.index_names self) = true ->
  KFold.overlap_size self <= KFold.window_size self ->
  1 <= KFold.number_window self ->
  KFold.window_size self * KFold.number_window self
    - (KFold.number_window self - 1) * KFold.overlap_size self
  = Z.of_nat (length (unique_sorted (map fst (KFold.index self)))) ->
  KFold.split self = ([], Some KFold.EmptySequence).
Proof.
  intros Hd Hi Ho Hn Ht.
  unfold KFold.split. rewrite Hd, Hi. cbn [negb orb].
  destruct (Z.ltb_spec (KFold.window_size self) (KFold.overlap_size self)); [lia|].
  rewrite Ht, Z.ltb_irrefl.
  destruct (Z.to_nat (KFold.number_window self)) as [|r] eqn:Er; [lia|].
  cbn [KFold.split_loop].
  set (U := unique_sorted (map fst (KFold.index self))).
  assert (E : py_slice None (Some (- Z.of_nat (length U))) U = []).
  { destruct U as [|u U'] eqn:EU; [reflexivity|].
    rewrite py_slice_to_neg by (cbn [length]; lia).
    rewrite Nat2Z.id, Nat.sub_diag. reflexivity. }
  rewrite E. reflexivity.
Qed.

Lemma split_no_training_date_witness :
  Z.of_nat (length (unique_sorted (map fst Samples.kf_rows))) = 8 /\
  KFold.split (Samples.kf 2 4 0) = ([], Some KFold.EmptySequence).
Proof.
  split; [reflexivity|].
  apply (split_no_training_date (Samples.kf 2 4 0)).
  - reflexivity.
  - reflexivity.
  - cbn. lia.
  - cbn. lia.
  - reflexivity.
Defined.

(** * Train and validation split of [produce_model_wrapper] *)

Lemma ascending_head_le (d : Z) (l : list Z) :
  StronglySorted Z.lt (d :: l) -> forall x, In x (d :: l) -> d <= x.
Proof.
  intros Hs x [<-|Hx]; [lia|].
  apply StronglySorted_inv in Hs as [_ F].
  rewrite Forall_forall in F. specialize (F x Hx). lia.
Qed.

Lemma filter_filter {K : Type} (f g : K -> bool) (l : list K) :
  filter g (filter f l) = filter (fun x => g x && f x) l.
Proof.
  induction l as [|a l IH]; [reflexivity|]. cbn.
  destruct (f a); cbn; destruct (g a); cbn; now rewrite IH.
Qed.

Section PreprocessFacts.

Context {A : Type}.
Variable date : A -> Z.
Variable isna : A -> bool.

(** X13. On a frame with at least one row and for [1 <= validation_size],
    [preprocess] raises nothing and cuts the frame at a date [d] of the
    frame: the training rows are the rows without missing value dated
    before [d], the validation rows those dated [d] or later, both in the
    order of the frame, and the distinct dates from [d] on are the last
    [validation_size] distinct dates of the frame, all of them when the
    frame has fewer. *)
Theorem preprocess_cut (data : list A) (validation_size : Z) :
  data <> [] -> 1 <= validation_size ->
  exists d,
    preprocess date isna data validation_size
    = Ok (filter (fun r => negb (isna r) && (date r <? d)) data,
          filter (fun r => negb (isna r) && (d <=? date r)) data) /\
    In d (map date data) /\
    filter (fun x => d <=? x) (unique_sorted (map date data))
    = skipn (length (unique_sorted (map date data)) - Z.to_nat validation_size)
            (unique_sorted (map date data)).
Proof.
  intros Hne Hv.
  destruct (unique_sorted_spec (map date data)) as [Hs Hin].
  unfold preprocess, val_date, Pd.iloc_from, Pd.py_index.
  set (U := unique_sorted (map date data)) in *.
  assert (HU : U <> []).
  { destruct data as [|r data]; [congruence|].
    intros E. specialize (proj2 (Hin (date r)) (or_introl eq_refl)).
    rewrite E. easy. }
  destruct (Z.ltb_spec (- validation_size) 0); [|lia].
  replace (Z.to_nat (Z.max 0 (Z.of_nat (length U) + - validation_size)))
    with (length U - Z.to_nat validation_size)%nat by lia.
  set (k := (length U - Z.to_nat validation_size)%nat).
  assert (Hk : (k < length U)%nat).
  { subst k. destruct U; [congruence|]. cbn [length]. lia. }
  destruct (skipn k U) as [|d rest] eqn:Esk.
  { apply (f_equal (@length Z)) in Esk. rewrite length_skipn in Esk.
    cbn in Esk. lia. }
  exists d. cbn [bind]. split; [|split].
  - unfold dropna. now rewrite !filter_filter.
  - apply Hin. rewrite <- (firstn_skipn k U), Esk. apply in_or_app. right. now left.
  - assert (Hlt : forall x y, In x (firstn k U) -> In y (skipn k U) -> x < y).
    { apply ascending_app_lt. now rewrite firstn_skipn. }
    assert (Hle : forall y, In y (skipn k U) -> d <= y).
    { rewrite Esk. apply ascending_head_le. rewrite <- Esk.
      now apply PdFacts.ascending_skipn. }
    rewrite <- (firstn_skipn k U) at 1. rewrite filter_app.
    rewrite filter_none, filter_all; [exact Esk| |].
    + intros y Hy. apply Z.leb_le. now apply Hle.
    + intros x Hx. apply Z.leb_gt. apply Hlt; [exact Hx|]. rewrite Esk. now left.
Qed.

(** X14. A [validation_size] of 0, or one that reaches the number of
    distinct dates, leaves no training row: the slice [iloc[-0:]] is the
    whole list of dates, the cut is the first date and every row without
    missing value is a validation row. On a frame without row the
    lookup of the cut date raises [IndexError]. *)
Theorem preprocess_no_training (data : list A) (validation_size : Z) :
  validation_size = 0
  \/ Z.of_nat (length (unique_sorted (map date data))) <= validation_size ->
  preprocess date isna data validation_size
  = match data with
    | [] => Raise IndexError
    | _ :: _ => Ok ([], dropna isna data)
    end.
Proof.
  intros Hv.
  destruct (unique_sorted_spec (map date data)) as [Hs Hin].
  unfold preprocess, val_date, Pd.iloc_from.
  set (U := unique_sorted (map date data)) in *.
  assert (E : Pd.py_index (length U) (- validation_size) = 0%nat).
  { unfold Pd.py_index. destruct (Z.ltb_spec (- validation_size) 0); lia. }
  rewrite E. cbn [skipn].
  destruct data as [|r data].
  - reflexivity.
  - destruct U as [|d rest] eqn:EU.
    { specialize (proj2 (Hin (date r)) (or_introl eq_refl)). easy. }
    cbn [bind]. unfold dropna.
    assert (Hle : forall x, In x (r :: data) -> d <= date x).
    { intros x Hx. apply (ascending_head_le d rest Hs). apply Hin.
      now apply in_map. }
    rewrite (filter_none (fun x => date x <? d)),
      (filter_all (fun x => d <=? date x)); [reflexivity| |].
    + intros x Hx. apply Z.leb_le. now apply Hle.
    + intros x Hx. apply Z.ltb_ge. now apply Hle.
Qed.

End PreprocessFacts.

Lemma preprocess_cut_witness :
  Samples.wrapper_rows <> [] /\ 1 <= 2 /\
  exists d,
    preprocess fst Samples.wrapper_isna Samples.wrapper_rows 2
    = Ok (filter (fun r => negb (Samples.wrapper_isna r) && (fst r <? d))
                 Samples.wrapper_rows,
          filter (fun r => negb (Samples.wrapper_isna r) && (d <=? fst r))
                 Samples.wrapper_rows) /\
    In d (map fst Samples.wrapper_rows) /\
    filter (fun x => d <=? x) (unique_sorted (map fst Samples.wrapper_rows))
    = skipn (length (unique_sorted (map fst Samples.wrapper_rows)) - Z.to_nat 2)
            (unique_sorted (map fst Samples.wrapper_rows)).
Proof.
  split; [discriminate|]. split; [lia|].
  apply (preprocess_cut fst Samples.wrapper_isna Samples.wrapper_rows 2).
  - discriminate.
  - lia.
Defined.

Lemma preprocess_no_training_witness :
  preprocess fst Samples.wrapper_isna Samples.wrapper_rows 0
  = Ok ([], [ (3, Some 30); (1, Some 10); (1, Some 11); (4, Some 40); (2, Some 20) ]).
Proof.
  apply (preprocess_no_training fst Samples.wrapper_isna Samples.wrapper_rows 0).
  left. reflexivity.
Defined.

(** * The direction check of [evaluate_signal] *)

Lemma filter_length_all {K : Type} (f : K -> bool) (l : list K) :
  length (filter f l) = length l <-> forallb f l = true.
Proof.
  induction l as [|a l IH]; cbn; [tauto|].
  pose proof (filter_length_le f l) as Hle.
  destruct (f a); cbn.
  - rewrite <- IH. lia.
  - split; [lia | discriminate].
Qed.

Lemma forallb_eqb_true (l : list bool) :
  forallb (Bool.eqb true) l = forallb (fun v => v) l.
Proof. induction l as [|[|] l IH]; cbn; auto. Qed.

Lemma forallb_eqb_false (l : list bool) :
  forallb (Bool.eqb false) l = forallb negb l.
Proof. induction l as [|[|] l IH]; cbn; auto. Qed.

(** [l.count(l[0]) == len(l)] on a list of booleans. *)
Lemma count_first_all (v0 : bool) (l : list bool) :
  (length (filter (Bool.eqb v0) (v0 :: l)) =? length (v0 :: l))%nat = true <->
  forallb (fun v => v) (v0 :: l) = true \/ forallb negb (v0 :: l) = true.
Proof.
  rewrite Nat.eqb_eq, (filter_length_all (Bool.eqb v0) (v0 :: l)).
  cbn [forallb]. rewrite Bool.eqb_reflx. cbn [andb].
  destruct v0; cbn [negb andb].
  - rewrite forallb_eqb_true. split; [now left | now intros [E|E]].
  - rewrite forallb_eqb_false. split; [now right | now intros [E|E]].
Qed.

(** X15. [median_signal_type_eval] compares the count of the first check
    with the number of checks: in a completed run it is true exactly when
    the two checks of every horizon (median "up" return below 0, median
    "down" return above 0) all have the same outcome, all true or all
    false. A run none of whose checks holds therefore reports true. *)
Theorem median_signal_type_eval_agreement
  (ttest : list float -> list float -> float)
  (df : list signal_row) (days : list Z) (test : Z) (thr : float)
  (r : evaluation) :
  evaluate_signal ttest df days test false thr = Ok r ->
  validations r
  = flat_map (fun d => [ (Np.median (sample (df_melt r) d up) <? 0)%float;
                         (0 <? Np.median (sample (df_melt r) d down))%float ])
             days /\
  (median_signal_type_eval r = true <->
   forallb (fun v => v) (validations r) = true
   \/ forallb negb (validations r) = true).
Proof.
  unfold evaluate_signal. cbv zeta. intros H.
  match type of H with
  | context [match ?v with [] => _ | _ :: _ => _ end] =>
      remember v as vals eqn:Ev
  end.
  destruct vals as [|v0 tl]; [discriminate|]. injection H as <-.
  cbn [validations median_signal_type_eval df_melt].
  split; [|apply count_first_all].
  rewrite Ev, flat_map_concat_map, map_map, <- flat_map_concat_map. reflexivity.
Qed.

Lemma median_signal_type_eval_agreement_witness :
  exists r,
    evaluate_signal (Fixtures.ttest_const 0.01) Fixtures.frame12 [1; 2] 0 false 0.05
    = Ok r /\
    validations r = [false; false; false; false] /\
    median_signal_type_eval r = true /\
    (median_signal_type_eval r = true <->
     forallb (fun v => v) (validations r) = true
     \/ forallb negb (validations r) = true).
Proof.
  eexists. split; [vm_compute; reflexivity|].
  split; [reflexivity|]. split; [reflexivity|].
  eapply (proj2 (median_signal_type_eval_agreement (Fixtures.ttest_const 0.01)
                   Fixtures.frame12 [1; 2] 0 0.05 _ _)).
  Unshelve. vm_compute. reflexivity.
Defined.
